(** * newseoul-booking: the timing-and-acquisition core of [streamlit_app.py]

    A shallow embedding of the functions of [APIBookingCore] and of the
    helpers around it, with the properties the specification states about
    them.

    Conventions of the embedding.
    - A Python [str] is a [string] of bytes (its UTF-8 encoding); comparing
      two of them byte by byte orders them as Python orders the code points.
      What looks at characters ([str.strip], [\d], [str.isdigit], [len],
      indexing) works on the code points the bytes encode.
    - A float of seconds is the integer and the exponent of a binary64
      value, with the roundings of [timedelta.total_seconds()] and
      [timedelta(seconds=...)].
    - A function that can raise returns an [outcome]; code that talks to
      the network, sleeps, reads the stop event or logs runs in the monad
      [M] over a [world] that scripts what the environment answers and
      records what the program did.
    - A [dict] read by key is a [gmap]; a [dict] whose insertion order is
      observed is an association list; a [set] is a [gset]. *)

From Stdlib Require Import ZArith Ascii String Lia.
From stdpp Require Import base option list sorting gmap strings.

(** ** Exceptions and outcomes *)

(** The exception classes the handlers of the source tell apart. *)
Inductive exn : Type :=
| Timeout            (* requests.exceptions.Timeout *)
| RequestException   (* any other requests.RequestException, HTTPError included *)
| InvalidJSON        (* requests.exceptions.JSONDecodeError, raised by res.json() *)
| UJSONDecodeError   (* ujson.JSONDecodeError, raised by json.loads *)
| IndexError
| OtherException.    (* any other subclass of Exception *)

(** [isinstance(e, requests.RequestException)]: [Timeout] and the JSON error
    of [requests] are subclasses of it. *)
Definition is_RequestException (e : exn) : bool :=
  match e with
  | Timeout | RequestException | InvalidJSON => true
  | _ => false
  end.

Inductive outcome (A : Type) : Type :=
| Returns (a : A)
| Raises (e : exn).
Arguments Returns {A} a.
Arguments Raises {A} e.

(** ** Python string operations *)

Module PyStr.

(** A [str] is a sequence of code points. The development carries it as
    the [string] of the bytes of its UTF-8 encoding; the operations that
    look at characters work on the code points [decode] gives, and
    [encode] goes back. *)

(** [ord(c)] for a character of one byte. *)
Definition ord (c : ascii) : Z := Z.of_N (N_of_ascii c).

Definition byte (n : Z) : ascii := ascii_of_N (Z.to_N n).

(** The bytes [10xxxxxx] that continue a character, and their six bits. *)
Definition continues (c : ascii) : bool := (128 <=? ord c)%Z && (ord c <? 192)%Z.
Definition six (c : ascii) : Z := (ord c - 128)%Z.

(** The code points of a string. A lone surrogate, which a [str] may hold,
    is read from three bytes as any code point of its size is; a byte that
    starts no character, and stands for no [str], counts as a character of
    its own, beyond the last code point. *)
Fixpoint decode (s : string) : list Z :=
  match s with
  | EmptyString => []
  | String b1 s1 =>
      let n1 := ord b1 in
      let stray := (1114112 + n1)%Z :: decode s1 in
      if (n1 <? 128)%Z then n1 :: decode s1
      else if (n1 <? 224)%Z then
        match s1 with
        | String b2 s2 =>
            if (194 <=? n1)%Z && continues b2
            then ((n1 - 192) * 64 + six b2)%Z :: decode s2
            else stray
        | _ => stray
        end
      else if (n1 <? 240)%Z then
        match s1 with
        | String b2 (String b3 s3) =>
            let c := ((n1 - 224) * 4096 + six b2 * 64 + six b3)%Z in
            if continues b2 && continues b3 && (2048 <=? c)%Z
            then c :: decode s3
            else stray
        | _ => stray
        end
      else
        match s1 with
        | String b2 (String b3 (String b4 s4)) =>
            let c := ((n1 - 240) * 262144 + six b2 * 4096 + six b3 * 64 + six b4)%Z in
            if continues b2 && continues b3 && continues b4
               && (65536 <=? c)%Z && (c <? 1114112)%Z
            then c :: decode s4
            else stray
        | _ => stray
        end
  end.

Definition encode_char (c : Z) : string :=
  if (c <? 128)%Z then String (byte c) ""
  else if (c <? 2048)%Z then
    String (byte (192 + c / 64)) (String (byte (128 + c mod 64)) "")
  else if (c <? 65536)%Z then
    String (byte (224 + c / 4096))
      (String (byte (128 + c / 64 mod 64)) (String (byte (128 + c mod 64)) ""))
  else if (c <? 1114112)%Z then
    String (byte (240 + c / 262144))
      (String (byte (128 + c / 4096 mod 64))
         (String (byte (128 + c / 64 mod 64)) (String (byte (128 + c mod 64)) "")))
  else String (byte (c - 1114112)) "".

Fixpoint encode (s : list Z) : string :=
  match s with
  | [] => ""
  | c :: s' => encode_char c +:+ encode s'
  end.

(** [c.isspace()], the white space [str.strip] removes. *)
Definition isspace (c : Z) : bool :=
  ((9 <=? c) && (c <=? 13) || (28 <=? c) && (c <=? 32)
   || (c =? 133) || (c =? 160) || (c =? 5760)
   || (8192 <=? c) && (c <=? 8202) || (c =? 8232) || (c =? 8233)
   || (c =? 8239) || (c =? 8287) || (c =? 12288))%Z.

(** The zero of each of the sets of ten decimal digits of Unicode 14. *)
Definition decimal_zeros : list Z :=
  [48; 1632; 1776; 1984; 2406; 2534; 2662; 2790; 2918; 3046; 3174; 3302;
   3430; 3558; 3664; 3792; 3872; 4160; 4240; 6112; 6160; 6470; 6608; 6784;
   6800; 6992; 7088; 7232; 7248; 42528; 43216; 43264; 43472; 43504; 43600;
   44016; 65296; 66720; 68912; 69734; 69872; 69942; 70096; 70384; 70736;
   70864; 71248; 71360; 71472; 71904; 72016; 72784; 73040; 73120; 92768;
   92864; 93008; 120782; 120792; 120802; 120812; 120822; 123200; 123632;
   125264; 130032]%Z.

(** [c.isdecimal()], which is also what [\d] matches. *)
Definition is_decimal (c : Z) : bool :=
  existsb (fun z => (z <=? c) && (c <? z + 10))%Z decimal_zeros.

(** The digits that are not decimal: superscripts, circled digits and
    the like. *)
Definition other_digits : list (Z * Z) :=
  [(178, 179); (185, 185); (4969, 4977); (6618, 6618); (8304, 8304);
   (8308, 8313); (8320, 8329); (9312, 9320); (9332, 9340); (9352, 9360);
   (9450, 9450); (9461, 9469); (9471, 9471); (10102, 10110);
   (10112, 10120); (10122, 10130); (68160, 68163); (69216, 69224);
   (69714, 69722); (127232, 127242)]%Z.

(** [c.isdigit()]. *)
Definition is_digit (c : Z) : bool :=
  is_decimal c || existsb (fun r => (r.1 <=? c) && (c <=? r.2))%Z other_digits.

Fixpoint lstrip (s : list Z) : list Z :=
  match s with
  | c :: s' => if isspace c then lstrip s' else s
  | [] => []
  end.

(** What [rstrip] leaves: a character stays when it is not white space or
    when something stays after it. *)
Fixpoint rstrip (s : list Z) : list Z :=
  match s with
  | c :: s' =>
      match rstrip s' with
      | [] => if isspace c then [] else [c]
      | r => c :: r
      end
  | [] => []
  end.

Definition strip (s : list Z) : list Z := rstrip (lstrip s).

(** [s.replace(old, new)] for a one-character [old]. *)
Fixpoint replace (old : Z) (new : list Z) (s : list Z) : list Z :=
  match s with
  | c :: s' =>
      if (c =? old)%Z then new ++ replace old new s'
      else c :: replace old new s'
  | [] => []
  end.

(** [s.isdigit()]: every character a digit, and at least one. *)
Definition isdigit (s : list Z) : bool :=
  match s with
  | [] => false
  | _ => forallb is_digit s
  end.

(** [re.match(r'^\d{lo,hi}$', s)]: between [lo] and [hi] digits up to the
    end of the string, where [$] also matches just before one final
    newline. *)
Fixpoint match_digits_to_end (lo hi : nat) (s : list Z) {struct s} : bool :=
  match s with
  | [] => lo =? 0
  | c :: s' =>
      if is_decimal c then
        match hi with
        | O => false
        | S hi' => match_digits_to_end (pred lo) hi' s'
        end
      else (lo =? 0) && (c =? 10)%Z &&
           match s' with [] => true | _ => false end
  end.

(** [s[i]], which raises [IndexError] out of range ([i] is not negative). *)
Definition getitem (s : list Z) (i : nat) : outcome Z :=
  match s !! i with
  | Some c => Returns c
  | None => Raises IndexError
  end.

(** [s[:n]] and [s[n:]] never raise. *)
Definition slice_to (n : nat) (s : list Z) : list Z := take n s.
Definition slice_from (n : nat) (s : list Z) : list Z := drop n s.

(** [needle in s] for strings: [needle] occurs in [s]; one string occurs
    in another exactly when its bytes do. *)
Fixpoint contains (needle s : string) : bool :=
  String.prefix needle s ||
  match s with
  | String _ s' => contains needle s'
  | EmptyString => false
  end.

End PyStr.

(** ** Time formatting *)

Definition bind_outcome {A B} (o : outcome A) (k : A -> outcome B) : outcome B :=
  match o with
  | Returns a => k a
  | Raises e => Raises e
  end.

(** [format_time_for_api]: HH:MM to HHMM; the argument is a [str], so the
    [isinstance] branch is not taken. *)
Definition format_time_for_api (time_str : string) : outcome string :=
  let time_str := PyStr.replace (PyStr.ord ":") [] (PyStr.strip (PyStr.decode time_str)) in
  if PyStr.match_digits_to_end 3 4 time_str && PyStr.isdigit time_str then
    if length time_str =? 4 then Returns (PyStr.encode time_str)
    else if length time_str =? 3 then Returns (PyStr.encode (PyStr.ord "0" :: time_str))
    else Returns "0000"
  else Returns "0000".

(** [format_time_for_display]: HHMM or HH:MM to HH:MM. *)
Definition format_time_for_display (time_str : string) : outcome string :=
  let time_str := PyStr.replace (PyStr.ord ":") [] (PyStr.strip (PyStr.decode time_str)) in
  if PyStr.match_digits_to_end 4 4 time_str && PyStr.isdigit time_str then
    Returns (PyStr.encode
               (PyStr.slice_to 2 time_str ++ [PyStr.ord ":"] ++ PyStr.slice_from 2 time_str))
  else
    bind_outcome
      (if length time_str =? 5
       then bind_outcome (PyStr.getitem time_str 2)
              (fun c => Returns (c =? PyStr.ord ":")%Z)
       else Returns false)
      (fun already_display =>
         if already_display then Returns (PyStr.encode time_str)
         else Returns (PyStr.encode time_str)).

(** ** Values decoded from JSON *)

(** What [res.json()] yields. A [JDict] lists the keys of the decoded
    [dict], each once; the first binding of a key is the one read. *)
#[local] Set Warnings "-register-all".
Inductive jvalue : Type :=
| JNull
| JBool (b : bool)
| JNum (n : Z)
| JStr (s : string)
| JList (l : list jvalue)
| JDict (d : list (string * jvalue)).

Fixpoint assoc {V} (k : string) (d : list (string * V)) : option V :=
  match d with
  | [] => None
  | (k', v) :: d' => if String.eqb k k' then Some v else assoc k d'
  end.

(** [v == s] for a string literal [s]. *)
Definition eq_str (v : jvalue) (s : string) : bool :=
  match v with
  | JStr s' => String.eqb s' s
  | _ => false
  end.

(** [data.get(key, dflt)]; on anything but a [dict] the attribute lookup
    raises [AttributeError]. *)
Definition dict_get (data : jvalue) (key : string) (dflt : jvalue) : outcome jvalue :=
  match data with
  | JDict d => Returns (default dflt (assoc key d))
  | _ => Raises OtherException
  end.

(** ** The environment: requests, the clock, the stop event, the log *)

(** Instants and durations are counted in microseconds, the resolution of
    [datetime] and [timedelta]. *)
Definition instant := Z.
Definition timedelta := Z.

Inductive request : Type :=
| GET (url : string)
| POST (url : string) (data : list (string * option string)).

(** The [Date] header of a response: absent (or empty), present but not a
    date [parsedate_to_datetime] accepts, or the instant it denotes. *)
Inductive date_header : Type :=
| NoDate
| BadDate
| DateAt (t : instant).

(** A response whose status [raise_for_status] accepts. [text] is [None]
    when the body is not JSON, else the decoded body, of type [B]. *)
Record response (B : Type) : Type := mkResponse {
  Date : date_header;
  text : option B
}.
Arguments mkResponse {B} _ _.
Arguments Date {B} _.
Arguments text {B} _.

(** What one call of [session.get] or [session.post] followed by
    [raise_for_status] does: raise, or hand over a response. *)
Inductive reply (B : Type) : Type :=
| Fails (e : exn)
| Answers (r : response B).
Arguments Fails {B} e.
Arguments Answers {B} r.

(** The lines [log_message] writes, one constructor per message of the
    source, with the values it interpolates. *)
Inductive log_line : Type :=
| LogOffsetStart
| LogOffsetOk (server local : instant)
| LogOffsetNoDate (attempt max_retries : nat)
| LogOffsetRequestFailed (attempt max_retries : nat)
| LogOffsetError
| LogOffsetGaveUp
| LogTargetLocalTime (t : instant)
| LogFetchStart (date : string)
| LogTeeApiError (cos : string) (attempt max_retries : nat) (msg : string)
| LogTeeReceived (cos : string) (n : nat)
| LogTeeDone (cos : string) (n : nat)
| LogTeeJSONError (cos : string) (attempt max_retries : nat)
| LogTeeNetworkError (cos : string) (attempt max_retries : nat)
| LogTeeException (cos : string) (attempt max_retries : nat)
| LogCourseListHeader
| LogCourseTimes (msg : string)
| LogSlotsSecured (n : nat)
| LogExcluded (course_nm time_display status : string)
| LogFilterDone (is_reverse : bool) (n : nat)
| LogTop5Header
| LogRank (rank : nat) (time_str : string)
| LogTrying (course_name time_display : string)
| LogReservationResponse (data : jvalue)
| LogReservationSuccess (course_name time_display : string)
| LogSettleWait (seconds : Z)
| LogReservationFailed (course_name time_display : string) (fail_msg : jvalue)
| LogReservationJSONError
| LogReservationTimeout (course_name time_display : string) (attempt max_retries : nat)
| LogReservationNetworkError (course_name time_display : string) (attempt max_retries : nat)
| LogReservationException (course_name time_display : string)
| LogNoCandidates
| LogAttemptingTop (n : nat)
| LogTestModeEmpty
| LogTestModePreview (formatted_time : string)
| LogStoppedDuringAttempts
| LogAttempt (rank : nat) (course_nm time_display : string)
| LogFinalSuccess (rank : nat) (course_nm time_display : string)
| LogTopFailed (n : nat).

Inductive event : Type :=
| Sent (r : request)
| Slept (d : timedelta)
| Logged (l : log_line).

(** The world a run lives in: the replies the server will give to the
    requests still to come, what the coming reads of [stop_event.is_set()]
    will see, the local clock, and the events so far, oldest first. The
    clock moves when the program sleeps; a request takes no time. *)
Record world (B : Type) : Type := mkWorld {
  replies : list (reply B);
  stop_reads : list bool;
  clock : instant;
  trace : list event
}.
Arguments mkWorld {B} _ _ _ _.
Arguments replies {B} _.
Arguments stop_reads {B} _.
Arguments clock {B} _.
Arguments trace {B} _.

(** ** The monad of the core: state and exceptions *)

Definition M (B A : Type) : Type := world B -> outcome A * world B.

Definition ret {B A} (a : A) : M B A := fun w => (Returns a, w).

Definition bind {B A A'} (m : M B A) (k : A -> M B A') : M B A' :=
  fun w =>
    match m w with
    | (Returns a, w') => k a w'
    | (Raises e, w') => (Raises e, w')
    end.

Declare Scope core_scope.
Delimit Scope core_scope with M.
Notation "x ← y ; z" := (bind y (fun x => z))
  (at level 20, y at level 100, z at level 200,
   format "x  ←  y ;  '/' z") : core_scope.
Notation "x ;; z" := (bind x (fun _ => z))
  (at level 100, z at level 200, right associativity,
   format "x ;;  '/' z") : core_scope.
Local Open Scope core_scope.

Definition raise {B A} (e : exn) : M B A := fun w => (Raises e, w).

(** A pure computation that may raise, run inside [M]. *)
Definition lift {B A} (o : outcome A) : M B A := fun w => (o, w).

(** [try: body except ...: handler]: the handler sees the exception and
    either handles it or raises it again. *)
Definition try_except {B A} (body : M B A) (handler : exn -> M B A) : M B A :=
  fun w =>
    match body w with
    | (Returns a, w') => (Returns a, w')
    | (Raises e, w') => handler e w'
    end.

Definition emit {B} (ev : event) : M B unit :=
  fun w => (Returns tt, mkWorld (replies w) (stop_reads w) (clock w) (trace w ++ [ev])).

(** [log_message]: it swallows its own failures, so it never raises. *)
Definition log_message {B} (l : log_line) : M B unit := emit (Logged l).

(** [time.sleep(d)]. *)
Definition time_sleep {B} (d : timedelta) : M B unit :=
  fun w => (Returns tt,
            mkWorld (replies w) (stop_reads w) (clock w + d)%Z (trace w ++ [Slept d])).

(** [datetime.datetime.now(KST)]. *)
Definition datetime_now {B} : M B instant := fun w => (Returns (clock w), w).

(** [stop_event.is_set()]; unset when the script says nothing more. *)
Definition stop_event_is_set {B} : M B bool :=
  fun w =>
    match stop_reads w with
    | [] => (Returns false, w)
    | b :: bs => (Returns b, mkWorld (replies w) bs (clock w) (trace w))
    end.

(** [res = session.get/post(...); res.raise_for_status()]. A request the
    script has no reply for fails as a connection error does. *)
Definition session_request {B} (r : request) : M B (response B) :=
  fun w =>
    let sent := trace w ++ [Sent r] in
    match replies w with
    | [] => (Raises RequestException, mkWorld [] (stop_reads w) (clock w) sent)
    | Fails e :: rs => (Raises e, mkWorld rs (stop_reads w) (clock w) sent)
    | Answers res :: rs => (Returns res, mkWorld rs (stop_reads w) (clock w) sent)
    end.

(** What a statement of a loop body does to the loop. *)
Inductive ctl (A : Type) : Type :=
| Next              (* fall through to the next iteration, or [continue] *)
| Break
| Return (a : A).
Arguments Next {A}.
Arguments Break {A}.
Arguments Return {A} a.

(** [for x in xs: body]; [Some a] when the body returned [a] from the
    function, [None] when the loop ended or was broken out of. *)
Fixpoint for_in {B X A} (xs : list X) (body : X -> M B (ctl A)) : M B (option A) :=
  match xs with
  | [] => ret None
  | x :: xs' =>
      c ← body x ;
      match c with
      | Next => for_in xs' body
      | Break => ret None
      | Return a => ret (Some a)
      end
  end.

(** [range(n)]. *)
Definition range (n : nat) : list nat := seq 0 n.

(** ** The constants of [APIBookingCore.__init__] *)

Definition API_DOMAIN : string := "https://www.newseoulgolf.co.kr".
Definition CO_DIV : string := "204".
Definition RESERVATION_CONTROLLER_URL : string :=
  API_DOMAIN +:+ "/controller/ReservationController.asp".

Definition course_detail_mapping : gmap string string :=
  {[ "A" := "예술OUT"; "B" := "예술IN"; "C" := "문화OUT"; "D" := "문화IN" ]}.

(** ** Clock skew: [get_server_time_offset] and its use in [start_pre_process] *)

(** The number [get_server_time_offset] returns: the integer literal [0]
    or a float of seconds. *)
Inductive offset_value (fsec : Type) : Type :=
| IntSeconds (n : Z)
| FloatSeconds (f : fsec).
Arguments IntSeconds {fsec} n.
Arguments FloatSeconds {fsec} f.

Section ClockSkew.

Context {B : Type}.

(** The functions take the float type [fsec] and its two conversions as
    parameters: [total_seconds] for [timedelta.total_seconds()] and
    [timedelta_of_seconds] for [datetime.timedelta(seconds=f)]. [PyFloat],
    below, is what they are in Python. *)
Variable fsec : Type.
Variable total_seconds : timedelta -> fsec.
Variable timedelta_of_seconds : fsec -> timedelta.

(** [parsedate_to_datetime(server_date_str)] then [astimezone(KST)],
    which keeps the instant. *)
Definition parsedate_to_datetime (d : date_header) : M B instant :=
  match d with
  | DateAt t => ret t
  | _ => raise OtherException
  end.

Definition server_time_url : string := API_DOMAIN +:+ "/member/reser/reser.asp".

(** The body of the loop [for attempt in range(max_retries)] of
    [get_server_time_offset]. *)
Definition get_server_time_offset_attempt (max_retries attempt : nat)
  : M B (ctl (offset_value fsec)) :=
  c ← try_except
    (response ← session_request (GET server_time_url) ;
     let server_date_str := Date response in
     match server_date_str with
     | NoDate =>
         log_message (LogOffsetNoDate (attempt + 1) max_retries) ;;
         ret Next
     | _ =>
         server_time_kst ← parsedate_to_datetime server_date_str ;
         local_time_kst ← datetime_now ;
         let time_difference := total_seconds (server_time_kst - local_time_kst)%Z in
         log_message (LogOffsetOk server_time_kst local_time_kst) ;;
         ret (Return (FloatSeconds time_difference))
     end)
    (fun e =>
       if is_RequestException e then
         log_message (LogOffsetRequestFailed (attempt + 1) max_retries) ;;
         ret Next
       else
         log_message LogOffsetError ;;
         ret (Return (IntSeconds 0))) ;
  match c with
  | Next => time_sleep 500000%Z ;; ret Next
  | _ => ret c
  end.

Definition get_server_time_offset : M B (offset_value fsec) :=
  let max_retries := 5 in
  log_message LogOffsetStart ;;
  r ← for_in (range max_retries) (get_server_time_offset_attempt max_retries) ;
  match r with
  | Some time_difference => ret time_difference
  | None =>
      log_message LogOffsetGaveUp ;;
      ret (IntSeconds 0)
  end.

(** [datetime.timedelta(seconds=time_offset)]. *)
Definition timedelta_seconds (time_offset : offset_value fsec) : timedelta :=
  match time_offset with
  | IntSeconds n => (n * 1000000)%Z
  | FloatSeconds f => timedelta_of_seconds f
  end.

(** Step 4-2 of [start_pre_process]: from the nominal instant
    [run_dt_kst] to the local instant the run waits for; [None] is the
    bare [return] taken when the stop event is set. *)
Definition start_pre_process_target (run_dt_kst : instant) : M B (option instant) :=
  stop ← stop_event_is_set ;
  if negb stop then
    time_offset ← get_server_time_offset ;
    let target_local_time_kst := (run_dt_kst - timedelta_seconds time_offset)%Z in
    log_message (LogTargetLocalTime target_local_time_kst) ;;
    ret (Some target_local_time_kst)
  else ret None.

End ClockSkew.

(** ** Floats of seconds *)

Module PyFloat.

(** A finite binary64 float, given by the integer [mant] and the exponent
    [expo] of its value [mant * 2^expo]. Durations and their seconds stay
    far from the ends of the exponent range, which is left out. *)
Record t : Type := mk { mant : Z; expo : Z }.

(** [2^x] for an exponent that is not negative, and 1 otherwise: the
    scalings of a quotient [a * 2^-e / (b * 2^e)] of integers. *)
Definition up (x : Z) : Z := (2 ^ Z.max 0 x)%Z.

(** The integer nearest to [a / b], ties to the even one, for [0 < b]. *)
Definition rne_div (a b : Z) : Z :=
  let q := (a / b)%Z in
  let r := (a mod b)%Z in
  if (2 * r <? b)%Z then q
  else if (b <? 2 * r)%Z then (q + 1)%Z
  else if Z.even q then q else (q + 1)%Z.

(** The float nearest to [a / b], ties to even, for positive integers:
    the exponent [e] is the one that leaves 53 significant bits, the
    mantissa the nearest integer to [a / (b * 2^e)]. *)
Definition round53 (a b : Z) : t :=
  let l := (Z.log2 a - Z.log2 b)%Z in
  let lg := if (b * up l <=? a * up (- l))%Z then l else (l - 1)%Z in
  let e := (lg - 52)%Z in
  mk (rne_div (a * up (- e)) (b * up e)) e.

(** [d.total_seconds()]: the number of microseconds divided by [10**6], a
    division of integers that rounds once, to nearest. *)
Definition total_seconds (d : timedelta) : t :=
  if (d =? 0)%Z then mk 0 0
  else
    let f := round53 (Z.abs d) 1000000 in
    mk (Z.sgn d * mant f) (expo f).

(** [round(x)] for the float [m * 2^e], [0 <= m]: to nearest, ties to even. *)
Definition round_half_even (m e : Z) : Z := rne_div (m * up e) (up (- e)).

(** [timedelta(seconds=f)] for the float [f = m * 2^e], [0 <= m]:
    [math.modf] splits [f] without loss, the fraction times [1e6] is a
    product of floats, which rounds, and the microseconds it makes are
    rounded to an integer. *)
Definition microseconds_of (m e : Z) : Z :=
  let seconds := (m * up e / up (- e))%Z in
  let secondsfrac := ((m * up e) mod up (- e))%Z in
  if (secondsfrac =? 0)%Z then (seconds * 1000000)%Z
  else
    let usdouble := round53 (secondsfrac * 1000000) 1 in
    (seconds * 1000000 + round_half_even (mant usdouble) (expo usdouble + e))%Z.

(** Every step is symmetric in the sign. *)
Definition timedelta_of_seconds (f : t) : timedelta :=
  (Z.sgn (mant f) * microseconds_of (Z.abs (mant f)) (expo f))%Z.

End PyFloat.

(** ** Slots *)

(** The 6-tuple [(bk_time, bk_cos, bk_part, course_nm, co_div, status_r)]
    the fetcher builds; every component is a string. *)
Record slot : Type := mkSlot {
  bk_time : string;
  bk_cos : string;
  bk_part : string;
  course_nm : string;
  co_div : string;
  status_r : string
}.

Global Instance slot_eq_dec : EqDecision slot.
Proof. solve_decision. Defined.

(** ** The availability fetcher: [_fetch_tee_list] *)

(** A row of the [rows] array of a [getTeeList] body and the body itself,
    restricted to the keys the fetcher reads. A key is absent ([None]) or
    bound to a string. *)
Module TeeRow.
Record t : Type := mk {
  BK_TIME : option string;
  BK_COS : option string;
  BK_PART : option string;
  R : option string
}.
End TeeRow.

Module TeeBody.
Record t : Type := mk {
  resultCode : option string;
  resultMessage : option string;
  rows : option (list TeeRow.t)
}.
End TeeBody.

(** [str(x)] of the value of [t.get(key)]: the string itself, or ["None"]. *)
Definition py_str (x : option string) : string := default "None" x.

(** Truth value of a string and of the value of [t.get(key)]. *)
Definition truthy (s : string) : bool := negb (String.eqb s "").
Definition truthy_opt (x : option string) : bool :=
  match x with
  | Some s => truthy s
  | None => false
  end.

(** [json.loads(res.text)], with [json] bound to [ujson]. *)
Definition json_loads {B} (text : option B) : M B B :=
  match text with
  | Some data => ret data
  | None => raise UJSONDecodeError
  end.

(** The loop over [total_rows] of [_fetch_tee_list], which appends to
    [times]. *)
Fixpoint tee_rows_loop (co_div : string) (total_rows : list TeeRow.t)
    (times : list slot) : outcome (list slot) :=
  match total_rows with
  | [] => Returns times
  | t :: rest =>
      bind_outcome (format_time_for_api (py_str (TeeRow.BK_TIME t))) (fun bk_time =>
      let bk_cos := TeeRow.BK_COS t in
      let bk_part :=
        default (if bool_decide (bk_cos ∈ [Some "A"; Some "C"]) then "1" else "2")
                (TeeRow.BK_PART t) in
      let course_nm := default "Unknown" (bk_cos ≫= (course_detail_mapping !!.)) in
      if truthy bk_time && truthy_opt bk_cos then
        let status_r := default "N/A" (TeeRow.R t) in
        tee_rows_loop co_div rest
          (times ++ [mkSlot bk_time (default "" bk_cos) bk_part course_nm co_div status_r])
      else tee_rows_loop co_div rest times)
  end.

Definition tee_list_payload (date cos : string) : list (string * option string) :=
  [("method", Some "getTeeList"); ("coDiv", Some CO_DIV); ("date", Some date);
   ("cos", Some cos); ("roundf", Some "")].

(** [if 'resultCode' in data and data['resultCode'] != '0000']. *)
Definition tee_api_error (data : TeeBody.t) : bool :=
  match TeeBody.resultCode data with
  | Some code => negb (String.eqb code "0000")
  | None => false
  end.

(** The body of the loop [for attempt in range(max_retries)] of
    [_fetch_tee_list]. *)
Definition _fetch_tee_list_attempt (date cos : string) (max_retries attempt : nat)
  : M TeeBody.t (ctl (list slot)) :=
  let url := RESERVATION_CONTROLLER_URL in
  let co_div := CO_DIV in
  stop ← stop_event_is_set ;
  if stop then ret (Return []) else
  try_except
    (res ← session_request (POST url (tee_list_payload date cos)) ;
     data ← json_loads (text res) ;
     if tee_api_error data then
       let error_msg := default "API 오류 코드 수신" (TeeBody.resultMessage data) in
       log_message (LogTeeApiError cos (attempt + 1) max_retries error_msg) ;;
       ret (Return [])
     else
       let total_rows := default [] (TeeBody.rows data) in
       log_message (LogTeeReceived cos (length total_rows)) ;;
       times ← lift (tee_rows_loop co_div total_rows []) ;
       let log_prefix :=
         if negb (String.eqb cos "All") then "cos=" +:+ cos else "모든 코스" in
       log_message (LogTeeDone log_prefix (length times)) ;;
       ret (Return times))
    (fun e =>
       match e with
       | UJSONDecodeError =>
           log_message (LogTeeJSONError cos (attempt + 1) max_retries) ;;
           time_sleep 500000%Z ;;
           ret Next
       | _ =>
           if is_RequestException e then
             log_message (LogTeeNetworkError cos (attempt + 1) max_retries) ;;
             time_sleep 300000%Z ;;
             ret Next
           else
             log_message (LogTeeException cos (attempt + 1) max_retries) ;;
             ret Break
       end).

Definition _fetch_tee_list (date cos : string) (max_retries : nat)
  : M TeeBody.t (list slot) :=
  r ← for_in (range max_retries) (_fetch_tee_list_attempt date cos max_retries) ;
  ret (default [] r).

(** ** Deduplication and [get_all_available_times] *)

Definition time_key (t : slot) : string * string * string :=
  (bk_time t, bk_cos t, bk_part t).

(** One pass of the loop that fills the [dict] [unique_times_map], kept in
    insertion order: a new key goes to the end, a key already there keeps
    its value. *)
Definition unique_step (unique_times_map : list (string * string * string * slot))
    (t : slot) : list (string * string * string * slot) :=
  if bool_decide (time_key t ∉ unique_times_map.*1)
  then unique_times_map ++ [(time_key t, t)]
  else unique_times_map.

Definition unique_times_map_of (all_fetched_times : list slot)
  : list (string * string * string * slot) :=
  fold_left unique_step all_fetched_times [].

(** [list(unique_times_map.values())]. *)
Definition unique_times (all_fetched_times : list slot) : list slot :=
  (unique_times_map_of all_fetched_times).*2.

Definition course_order : list string := ["예술OUT"; "예술IN"; "문화OUT"; "문화IN"].

(** [for_each xs body]: a loop whose body neither breaks nor returns. *)
Fixpoint for_each {B X} (xs : list X) (body : X -> M B unit) : M B unit :=
  match xs with
  | [] => ret tt
  | x :: xs' => body x ;; for_each xs' body
  end.

(** [[f(x) for x in xs]] for an [f] that may raise. *)
Fixpoint map_outcome {X Y} (f : X -> outcome Y) (xs : list X) : outcome (list Y) :=
  match xs with
  | [] => Returns []
  | x :: xs' =>
      bind_outcome (f x) (fun y =>
      bind_outcome (map_outcome f xs') (fun ys => Returns (y :: ys)))
  end.

Definition _log_fetched_times_by_course {B} (all_times : list slot) : M B unit :=
  let grouped_times : gmap string (gset string) :=
    fold_left
      (fun grouped t =>
         <[course_nm t := default ∅ (grouped !! course_nm t) ∪ {[bk_time t]}]> grouped)
      all_times ∅ in
  log_messages ← lift (map_outcome
    (fun course_name =>
       match grouped_times !! course_name with
       | Some times =>
           let times_list := merge_sort String.le (elements times) in
           bind_outcome
             (map_outcome
                (fun t => bind_outcome (format_time_for_display t)
                            (fun d => Returns ("'" +:+ d +:+ "'")))
                times_list)
             (fun formatted_times =>
                Returns [("[" +:+ course_name +:+ "] "
                          +:+ String.concat ", " formatted_times)%string])
       | None => Returns []
       end)
    course_order) ;
  let log_messages := concat log_messages in
  if bool_decide (log_messages ≠ []) then
    log_message LogCourseListHeader ;;
    for_each log_messages (fun msg => log_message (LogCourseTimes msg))
  else ret tt.

Definition get_all_available_times (date : string) : M TeeBody.t (list slot) :=
  log_message (LogFetchStart date) ;;
  all_fetched_times ← _fetch_tee_list date "All" 2 ;
  let all_fetched_times := unique_times all_fetched_times in
  _log_fetched_times_by_course all_fetched_times ;;
  log_message (LogSlotsSecured (length all_fetched_times)) ;;
  ret all_fetched_times.

(** ** The filter and rank engine: [filter_and_sort_times] *)

(** [target_course_names]: one name as a [str], or a list of names. *)
Inductive course_names : Type :=
| CourseName (name : string)
| CourseNames (names : list string).

Definition course_map : gmap string (list string) :=
  {[ "All" := ["A"; "B"; "C"; "D"]; "예술" := ["A"; "B"]; "문화" := ["C"; "D"] ]}.

(** [[target_course_names] if isinstance(target_course_names, str) else
    target_course_names]. *)
Definition course_list (target_course_names : course_names) : list string :=
  match target_course_names with
  | CourseName name => [name]
  | CourseNames names => names
  end.

(** The set [target_course_codes] after the loop over [course_list]. *)
Definition target_course_codes (target_course_names : course_names) : gset string :=
  fold_left
    (fun codes name => codes ∪ list_to_set (default [name] (course_map !! name)))
    (course_list target_course_names) ∅.

(** ["All" in target_course_names]: a substring test on a [str], a
    membership test on a list. *)
Definition All_in (target_course_names : course_names) : bool :=
  match target_course_names with
  | CourseName name => PyStr.contains "All" name
  | CourseNames names => bool_decide ("All" ∈ names)
  end.

(** [for x in xs] with the variables the body assigns threaded through. *)
Fixpoint for_fold {B X S} (xs : list X) (body : S -> X -> M B S) (s : S) : M B S :=
  match xs with
  | [] => ret s
  | x :: xs' => s' ← body s x ; for_fold xs' body s'
  end.

(** The sort key [(x[0], x[1])] and the [<] of tuples of strings. *)
Definition sort_key (x : slot) : string * string := (bk_time x, bk_cos x).

Definition tuple_lt (a b : string * string) : bool :=
  String.ltb a.1 b.1 || (String.eqb a.1 b.1 && String.ltb a.2 b.2).

(** [list.sort(key=key, reverse=reverse)]. The sort of Python is stable and
    compares keys with [<] alone; a stable sort has one possible result, the
    one insertion gives. With [reverse] the list is reversed, sorted and
    reversed again, which keeps equal keys in their first order. *)
Fixpoint insert_by {A K} (lt : K -> K -> bool) (key : A -> K) (x : A) (l : list A)
  : list A :=
  match l with
  | [] => [x]
  | y :: l' => if lt (key y) (key x) then y :: insert_by lt key x l' else x :: y :: l'
  end.

Definition stable_sort {A K} (lt : K -> K -> bool) (key : A -> K) (l : list A) : list A :=
  foldr (insert_by lt key) [] l.

Definition list_sort {A K} (lt : K -> K -> bool) (key : A -> K) (is_reverse : bool)
    (l : list A) : list A :=
  if is_reverse then reverse (stable_sort lt key (reverse l)) else stable_sort lt key l.

(** The body of the loop [for t in all_times] of [filter_and_sort_times];
    [filtered_times] is the list it appends to. *)
Definition filter_step {B} (start_time_api end_time_api : string)
    (target_course_names : course_names) (target_course_codes : gset string)
    (filtered_times : list slot) (t : slot) : M B (list slot) :=
  let time_val := bk_time t in
  let cos_val := bk_cos t in
  let course_nm_val := course_nm t in
  let status_r_val := status_r t in
  if String.leb start_time_api time_val && String.leb time_val end_time_api then
    if All_in target_course_names || bool_decide (cos_val ∈ target_course_codes) then
      if String.eqb status_r_val "OK" then ret (filtered_times ++ [t])
      else
        time_display ← lift (format_time_for_display time_val) ;
        log_message (LogExcluded course_nm_val time_display status_r_val) ;;
        ret filtered_times
    else ret filtered_times
  else ret filtered_times.

Definition filter_and_sort_times {B} (all_times : list slot)
    (start_time_str end_time_str : string) (target_course_names : course_names)
    (is_reverse : bool) : M B (list slot) :=
  start_time_api ← lift (format_time_for_api start_time_str) ;
  end_time_api ← lift (format_time_for_api end_time_str) ;
  let target_course_codes := target_course_codes target_course_names in
  filtered_times ← for_fold all_times
    (filter_step start_time_api end_time_api target_course_names target_course_codes) [] ;
  let filtered_times := list_sort tuple_lt sort_key is_reverse filtered_times in
  formatted_times ← lift (map_outcome
    (fun t => bind_outcome (format_time_for_display (bk_time t))
                (fun d => Returns (d +:+ " (" +:+ course_nm t +:+ ")")))
    filtered_times) ;
  log_message (LogFilterDone is_reverse (length filtered_times)) ;;
  (if bool_decide (formatted_times ≠ []) then
     log_message LogTop5Header ;;
     for_each (imap (fun i time_str => (i, time_str)) (take 5 formatted_times))
       (fun '(i, time_str) => log_message (LogRank (i + 1) time_str))
   else ret tt) ;;
  ret filtered_times.

(** ** The acquisition attempter: [try_reservation] *)

(** The success test of [try_reservation]; [or] stops at the first true
    operand, and each [data.get] may raise. *)
Definition reservation_succeeded (data : jvalue) : outcome bool :=
  bind_outcome (dict_get data "resultCode" JNull) (fun resultCode =>
  if eq_str resultCode "0000" then Returns true else
  bind_outcome (dict_get data "R" JNull) (fun R =>
  if eq_str R "OK" then Returns true else
  bind_outcome (dict_get data "status" JNull) (fun status =>
  Returns (eq_str status "success")))).

(** [res.json()]; on a body that is not JSON [requests] raises its own
    [JSONDecodeError], which is a [RequestException] and not the
    [ujson.JSONDecodeError] the inner handler names. *)
Definition res_json {B} (res : response B) : M B B :=
  match text res with
  | Some data => ret data
  | None => raise InvalidJSON
  end.

Definition reservation_payload (member_id : option string)
    (date course_code time_api : string) : list (string * option string) :=
  [("method", Some "doReservation"); ("coDiv", Some CO_DIV); ("day", Some date);
   ("cos", Some course_code); ("time", Some time_api); ("roundf", Some "1");
   ("charge", Some "18"); ("media", Some "R"); ("verify_entity_id", Some "");
   ("verify_entity_ip", Some "");
   ("verify_entity_unique", Some "MJUViUxhC3DR5ZmXcnTQ/HUNMAqMu6yyOFVH9nlp");
   ("member_id", member_id)].

(** The body of the loop [for attempt in range(max_retries)] of
    [try_reservation]. *)
Definition try_reservation_attempt (payload : list (string * option string))
    (course_name time_display : string) (max_retries attempt : nat)
  : M jvalue (ctl bool) :=
  let url := RESERVATION_CONTROLLER_URL in
  stop ← stop_event_is_set ;
  if stop then ret (Return false) else
  try_except
    (res ← session_request (POST url payload) ;
     try_except
       (data ← res_json res ;
        log_message (LogReservationResponse data) ;;
        success ← lift (reservation_succeeded data) ;
        if success then
          log_message (LogReservationSuccess course_name time_display) ;;
          let POST_SUCCESS_DELAY := 5%Z in
          log_message (LogSettleWait POST_SUCCESS_DELAY) ;;
          time_sleep (POST_SUCCESS_DELAY * 1000000)%Z ;;
          ret (Return true)
        else
          message ← lift (dict_get data "message" (JStr "알 수 없는 API 응답")) ;
          fail_msg ← lift (dict_get data "resultMessage" message) ;
          log_message (LogReservationFailed course_name time_display fail_msg) ;;
          ret (Return false))
       (fun e =>
          match e with
          | UJSONDecodeError =>
              log_message LogReservationJSONError ;;
              if attempt <? max_retries - 1
              then time_sleep 500000%Z ;; ret Next
              else ret (Return false)
          | _ => raise e
          end))
    (fun e =>
       match e with
       | Timeout =>
           log_message
             (LogReservationTimeout course_name time_display (attempt + 1) max_retries) ;;
           if attempt <? max_retries - 1
           then time_sleep 500000%Z ;; ret Next
           else ret (Return false)
       | _ =>
           if is_RequestException e then
             log_message
               (LogReservationNetworkError course_name time_display (attempt + 1)
                  max_retries) ;;
             if attempt <? max_retries - 1
             then time_sleep 1000000%Z ;; ret Next
             else ret (Return false)
           else
             log_message (LogReservationException course_name time_display) ;;
             ret (Return false)
       end).

(** [member_id] is [self.member_id]; the [cookies] argument, the session's
    own jar, belongs to the transport and is left out. *)
Definition try_reservation (member_id : option string)
    (date course_code time_api : string) : M jvalue bool :=
  let course_name := default course_code (course_detail_mapping !! course_code) in
  time_display ← lift (format_time_for_display time_api) ;
  log_message (LogTrying course_name time_display) ;;
  let payload := reservation_payload member_id date course_code time_api in
  let max_retries := 2 in
  r ← for_in (range max_retries)
        (try_reservation_attempt payload course_name time_display max_retries) ;
  ret (default false r).

(** ** [run_api_booking] *)

(** The keys of [inputs] the function reads; [test_mode] may be absent. *)
Record inputs : Type := mkInputs {
  target_date : string;
  test_mode : option bool
}.

(** The loop over [enumerate(sorted_available_times[:5])], from rank [i];
    [success] is the variable the loop assigns. *)
Fixpoint attempt_loop (member_id : option string) (target_date : string)
    (i : nat) (times : list slot) (success : bool) : M jvalue bool :=
  match times with
  | [] => ret success
  | time_info :: rest =>
      stop ← stop_event_is_set ;
      if stop then
        log_message LogStoppedDuringAttempts ;;
        ret success
      else
        let bk_time_api := bk_time time_info in
        let bk_cos_code := bk_cos time_info in
        let course_nm := course_nm time_info in
        time_display ← lift (format_time_for_display bk_time_api) ;
        log_message (LogAttempt (i + 1) course_nm time_display) ;;
        success ← try_reservation member_id target_date bk_cos_code bk_time_api ;
        if success then
          log_message (LogFinalSuccess (i + 1) course_nm time_display) ;;
          ret success
        else attempt_loop member_id target_date (S i) rest success
  end.

Definition run_api_booking (member_id : option string) (inputs : inputs)
    (sorted_available_times : list slot) : M jvalue bool :=
  if bool_decide (sorted_available_times = []) then
    log_message LogNoCandidates ;;
    ret false
  else
    let target_date := target_date inputs in
    let test_mode := default true (test_mode inputs) in
    log_message (LogAttemptingTop (min 5 (length sorted_available_times))) ;;
    if test_mode then
      match sorted_available_times with
      | [] =>
          log_message LogTestModeEmpty ;;
          ret true
      | first_time_info :: _ =>
          time_display ← lift (format_time_for_display (bk_time first_time_info)) ;
          let formatted_time :=
            time_display +:+ " (" +:+ course_nm first_time_info +:+ ")" in
          log_message (LogTestModePreview formatted_time) ;;
          ret true
      end
    else
      success ← attempt_loop member_id target_date 0 (take 5 sorted_available_times) false ;
      stop ← (if negb success then stop_event_is_set else ret false) ;
      (if negb success && negb stop
       then log_message (LogTopFailed (min 5 (length sorted_available_times)))
       else ret tt) ;;
      ret success.

(** * The vocabulary of the properties *)

(** ** Time strings *)

(** What both formatters first make of their argument: its code points,
    stripped of white space at both ends and of every colon. *)
Definition normalized (time_str : string) : list Z :=
  PyStr.replace (PyStr.ord ":") [] (PyStr.strip (PyStr.decode time_str)).

(** [s] is made of exactly [n] decimal digits. *)
Definition decimals (n : nat) (s : list Z) : bool :=
  (length s =? n) && forallb PyStr.is_decimal s.

(** [s] is a string of exactly [n] of the digits 0 to 9. *)
Fixpoint ascii_digits (s : string) : bool :=
  match s with
  | String c s' => PyStr.is_decimal (PyStr.ord c) && ascii_digits s'
  | EmptyString => true
  end.

Definition numeric (n : nat) (s : string) : bool :=
  (String.length s =? n) && ascii_digits s.

Definition api_form (time_str : string) : string :=
  let s := normalized time_str in
  if decimals 4 s then PyStr.encode s
  else if decimals 3 s then PyStr.encode (PyStr.ord "0" :: s)
  else "0000".

Definition display_form (time_str : string) : string :=
  let s := normalized time_str in
  if decimals 4 s
  then PyStr.encode (PyStr.slice_to 2 s ++ [PyStr.ord ":"] ++ PyStr.slice_from 2 s)
  else PyStr.encode s.

(** ** Traces and worlds *)

(** How many requests a trace holds. *)
Fixpoint requests_sent (tr : list event) : nat :=
  match tr with
  | [] => 0
  | Sent _ :: tr' => S (requests_sent tr')
  | _ :: tr' => requests_sent tr'
  end.

(** What the next read of the stop event sees. *)
Definition stop_set {B} (w : world B) : bool := hd false (stop_reads w).

(** The stop event is not set during the run. *)
Definition never_stopped {B} (w : world B) : bool := forallb negb (stop_reads w).

(** The empty world: no reply scripted, stop event never set. *)
Definition quiet_world {B} : world B := mkWorld [] [] 0%Z [].

(** ** Probes, fetches and reservations *)

(** A probe that fails and is retried: a [requests] exception (no reply
    at all counts as one) or a response without a [Date] header. *)
Definition probe_fails {B} (r : option (reply B)) : bool :=
  match r with
  | None => true
  | Some (Fails e) => is_RequestException e
  | Some (Answers res) => match Date res with NoDate => true | _ => false end
  end.

(** The next [n] probes fail. *)
Fixpoint probes_fail {B} (n : nat) (rs : list (reply B)) : bool :=
  match n with
  | 0 => true
  | S n' => probe_fails (head rs) && probes_fail n' (tail rs)
  end.

(** The failures the fetch retries: a [requests] exception (time-out,
    connection or HTTP error; no reply at all counts as one) or a body that
    is not JSON. *)
Definition tee_transient (r : option (reply TeeBody.t)) : bool :=
  match r with
  | None => true
  | Some (Fails e) => match e with UJSONDecodeError => true | _ => is_RequestException e end
  | Some (Answers res) => match text res with None => true | Some _ => false end
  end.

(** A well-formed body that carries a result code other than "0000". *)
Definition tee_protocol_error (r : option (reply TeeBody.t)) : bool :=
  match r with
  | Some (Answers res) =>
      match text res with
      | Some data => tee_api_error data
      | None => false
      end
  | _ => false
  end.

(** The decoded response is an object that binds [key] to the string
    [value]. *)
Definition contains_marker (data : jvalue) (key value : string) : Prop :=
  exists d, data = JDict d /\ assoc key d = Some (JStr value).

(** One of the three success markers of the protocol is present. *)
Definition success_marked (data : jvalue) : Prop :=
  contains_marker data "resultCode" "0000"
  \/ contains_marker data "R" "OK"
  \/ contains_marker data "status" "success".

Definition has_marker (data : jvalue) (key value : string) : bool :=
  match data with
  | JDict d =>
      match assoc key d with
      | Some (JStr s) => String.eqb s value
      | _ => false
      end
  | _ => false
  end.

Definition success_markedb (data : jvalue) : bool :=
  has_marker data "resultCode" "0000" || has_marker data "R" "OK"
  || has_marker data "status" "success".

(** The failures [try_reservation] retries: a [requests] exception, the
    time-out and the JSON error of [res.json()] included. *)
Definition reservation_retried (r : reply jvalue) : bool :=
  match r with
  | Fails e => is_RequestException e
  | Answers res => match text res with None => true | Some _ => false end
  end.

(** ** Slots: keys, filter and order *)

Definition has_key (k : string * string * string) (t : slot) : bool :=
  bool_decide (time_key t = k).

(** Every key of the map is the key of its value. *)
Definition keyed (m : list (string * string * string * slot)) : Prop :=
  Forall (fun kv => kv.1 = time_key kv.2) m.

(** The test the loop of [filter_and_sort_times] applies to a slot. *)
Definition keeps (start_time_api end_time_api : string)
    (target_course_names : course_names) (t : slot) : bool :=
  String.leb start_time_api (bk_time t) && String.leb (bk_time t) end_time_api
  && (All_in target_course_names
      || bool_decide (bk_cos t ∈ target_course_codes target_course_names))
  && String.eqb (status_r t) "OK".

(** The course filter is a list of names, or a single name in which "All"
    occurs only as the whole name. *)
Definition names_All_whole (target_course_names : course_names) : bool :=
  match target_course_names with
  | CourseName name => implb (PyStr.contains "All" name) (String.eqb name "All")
  | CourseNames _ => true
  end.

(** The order of the sort keys, on slots: by time, then by course code. *)
Definition slot_le (a b : slot) : Prop :=
  (bk_time a ≤ bk_time b)%string /\
  (bk_time a = bk_time b -> (bk_cos a ≤ bk_cos b)%string).

(** The output is non-decreasing in time, or non-increasing when
    [descending]. *)
Definition time_monotone (descending : bool) (out : list slot) : Prop :=
  forall i j a b, i < j -> out !! i = Some a -> out !! j = Some b ->
    if descending then (bk_time b ≤ bk_time a)%string
    else (bk_time a ≤ bk_time b)%string.

(** Slots of equal time appear by course code, ascending, or descending
    when [descending]. *)
Definition ties_by_course (descending : bool) (out : list slot) : Prop :=
  forall i j a b, i < j -> out !! i = Some a -> out !! j = Some b ->
    bk_time a = bk_time b ->
    if descending then (bk_cos b ≤ bk_cos a)%string
    else (bk_cos a ≤ bk_cos b)%string.

(** ** Sample slots *)

Definition slot_0700_A : slot := mkSlot "0700" "A" "1" "예술OUT" "204" "OK".
Definition slot_0700_B : slot := mkSlot "0700" "B" "2" "예술IN" "204" "OK".
Definition slot_0700_E : slot := mkSlot "0700" "E" "2" "Unknown" "204" "OK".
Definition slot_0730_C : slot := mkSlot "0730" "C" "2" "문화OUT" "204" "OK".
Definition slot_0700_A_closed : slot := mkSlot "0700" "A" "1" "예술OUT" "204" "X".

(** ** More vocabulary: what a step leaves alone *)

(** From [w] to [w'] the program only logged: no request was sent, no reply
    consumed, no sleep taken and the stop event not read. *)
Definition only_logged {B} (w w' : world B) : Prop :=
  replies w' = replies w
  /\ stop_reads w' = stop_reads w
  /\ clock w' = clock w
  /\ requests_sent (trace w') = requests_sent (trace w).

(** From [w] the computation [m] returns [a] and only logs on the way. *)
Definition logs_and_returns {B A} (m : M B A) (w : world B) (a : A) : Prop :=
  exists w', m w = (Returns a, w') /\ only_logged w w'.

(** What every slot the fetcher builds satisfies: a time of four decimal digits, a
    course code that is not empty, the facility of the club, and the display
    name the course table gives, "Unknown" for a code it lacks. *)
Definition well_formed_slot (t : slot) : Prop :=
  decimals 4 (PyStr.decode (bk_time t)) = true
  /\ bk_cos t <> ""
  /\ co_div t = CO_DIV
  /\ course_nm t = default "Unknown" (course_detail_mapping !! bk_cos t).

(** The pause [try_reservation] takes after a failed first attempt: half a
    second after a time-out, one second after any other [requests]
    exception. *)
Definition reservation_backoff (r : reply jvalue) : timedelta :=
  match r with
  | Fails Timeout => 500000%Z
  | _ => 1000000%Z
  end.

(** A probe that ends [get_server_time_offset] at once with the offset 0:
    an exception that is not a [requests] one, or a [Date] header that does
    not parse. *)
Definition probe_unexpected {B} (r : reply B) : bool :=
  match r with
  | Fails e => negb (is_RequestException e)
  | Answers res => match Date res with BadDate => true | _ => false end
  end.

(** * Further functions: [prime_calendar] and [wait_until] *)

(** The lines these two functions log. They are written through the logger
    the core is built with ([log_func], the module's [log_message], which
    [wait_until] calls directly). *)
Inductive note : Type :=
| NoteCalendarStart (sel_ym : string)
| NoteCalendarJSONError
| NoteCalendarRequestFailed
| NoteCalendarException
| NoteWaiting (log_prefix : string) (target : instant)
| NoteCountdown (current_remaining_sec : Z)
| NoteReached (log_prefix : string) (actual_diff : timedelta).

Section LoggedFunctions.

Context {B : Type}.
Variable log_func : note -> M B unit.

Definition calendar_payload (sel_ym : string) : list (string * option string) :=
  [("method", Some "getCalendar"); ("coDiv", Some CO_DIV); ("selYm", Some sel_ym);
   ("mCos", Some "All")].

(** [prime_calendar]: one [getCalendar] request; [True] when the response
    parses as JSON. *)
Definition prime_calendar (date_str : string) : M B bool :=
  let sel_ym := PyStr.encode (PyStr.slice_to 6 (PyStr.decode date_str)) in
  log_func (NoteCalendarStart sel_ym) ;;
  let url := RESERVATION_CONTROLLER_URL in
  let payload := calendar_payload sel_ym in
  try_except
    (res ← session_request (POST url payload) ;
     try_except
       (_ ← json_loads (text res) ;
        ret true)
       (fun e =>
          match e with
          | UJSONDecodeError => log_func NoteCalendarJSONError ;; ret false
          | _ => raise e
          end))
    (fun e =>
       if is_RequestException e then
         log_func NoteCalendarRequestFailed ;; ret false
       else
         log_func NoteCalendarException ;; ret false).

(** The loop [while not stop_event.is_set()] of [wait_until], run for at
    most [fuel] iterations; [None] when the fuel runs out before the loop
    ends. Durations are in microseconds: [remaining_seconds <= 0.001] reads
    [remaining <= 1000], [int(remaining_seconds)] is the quotient by
    1000000, and the sleeps last 1, 5 and 100 milliseconds. *)
Fixpoint wait_until_loop (fuel : nat) (target_dt_kst : instant)
    (log_countdown : bool) (last_remaining_sec : option Z) : M B (option unit) :=
  match fuel with
  | O => ret None
  | S fuel' =>
      stop ← stop_event_is_set ;
      if stop then ret (Some tt) else
      now_kst ← datetime_now ;
      let remaining := (target_dt_kst - now_kst)%Z in
      if (remaining <=? 1000)%Z then ret (Some tt) else
      let current_remaining_sec := Z.quot remaining 1000000 in
      last_remaining_sec ←
        (if log_countdown && (remaining <=? 30 * 1000000)%Z then
           if (0 <? current_remaining_sec)%Z
              && negb (bool_decide (Some current_remaining_sec = last_remaining_sec))
           then log_func (NoteCountdown current_remaining_sec) ;;
                ret (Some current_remaining_sec)
           else ret last_remaining_sec
         else ret last_remaining_sec) ;
      (if (remaining <? 100000)%Z then time_sleep 1000%Z
       else if (remaining <? 1000000)%Z then time_sleep 5000%Z
       else time_sleep 100000%Z) ;;
      wait_until_loop fuel' target_dt_kst log_countdown last_remaining_sec
  end.

Definition wait_until (fuel : nat) (target_dt_kst : instant) (log_prefix : string)
    (log_countdown : bool) : M B (option unit) :=
  log_func (NoteWaiting log_prefix target_dt_kst) ;;
  r ← wait_until_loop fuel target_dt_kst log_countdown None ;
  match r with
  | None => ret None
  | Some _ =>
      stop ← stop_event_is_set ;
      if negb stop then
        now_kst ← datetime_now ;
        let actual_diff := (now_kst - target_dt_kst)%Z in
        log_func (NoteReached log_prefix actual_diff) ;;
        ret (Some tt)
      else ret (Some tt)
  end.

End LoggedFunctions.

(** A logger that keeps no line. *)
Definition silent_logger {B} (n : note) : M B unit := ret tt.

(** The iterations [wait_until] needs at most from a clock that is
    [remaining] microseconds before the target: every sleep lasts at least
    a millisecond. *)
Definition wait_fuel (remaining : Z) : nat := S (Z.to_nat (remaining / 1000)).

(** * Properties *)

(** ** Time formatting never raises *)

(** *** The encoding *)

Lemma ord_range (c : ascii) : (0 <= PyStr.ord c < 256)%Z.
Proof.
  unfold PyStr.ord. pose proof (N_ascii_bounded c). lia.
Qed.

Lemma ord_byte (n : Z) : (0 <= n < 256)%Z -> PyStr.ord (PyStr.byte n) = n.
Proof.
  intros H. unfold PyStr.ord, PyStr.byte.
  rewrite N_ascii_embedding by lia. lia.
Qed.

Lemma byte_ord (c : ascii) : PyStr.byte (PyStr.ord c) = c.
Proof.
  unfold PyStr.ord, PyStr.byte. rewrite N2Z.id. apply ascii_N_embedding.
Qed.

Lemma continues_byte (n : Z) :
  (0 <= n < 64)%Z -> PyStr.continues (PyStr.byte (128 + n)) = true
                     /\ PyStr.six (PyStr.byte (128 + n)) = n.
Proof.
  intros H. unfold PyStr.continues, PyStr.six. rewrite ord_byte by lia.
  split; [|lia]. apply andb_true_intro. split; [apply Z.leb_le|apply Z.ltb_lt]; lia.
Qed.

Lemma decode_encode_char (c : Z) (rest : string) :
  (0 <= c < 1114112)%Z ->
  PyStr.decode (PyStr.encode_char c +:+ rest) = c :: PyStr.decode rest.
Proof.
  intros Hc. unfold PyStr.encode_char.
  destruct (Z.ltb_spec c 128) as [H1|H1].
  { change (String (PyStr.byte c) "" +:+ rest) with (String (PyStr.byte c) rest).
    cbn [PyStr.decode]. rewrite ord_byte by lia.
    destruct (Z.ltb_spec c 128); [reflexivity|lia]. }
  destruct (Z.ltb_spec c 2048) as [H2|H2].
  { change (String ?a (String ?b "") +:+ rest) with (String a (String b rest)).
    cbn [PyStr.decode].
    assert (H64 : (0 <= c mod 64 < 64)%Z) by (apply Z.mod_pos_bound; lia).
    assert (Hq : (2 <= c / 64 < 32)%Z) by (split; [apply Z.div_le_lower_bound|apply Z.div_lt_upper_bound]; lia).
    destruct (continues_byte (c mod 64) H64) as [Hk Hs].
    rewrite ord_byte by lia. rewrite Hk, Hs.
    destruct (Z.ltb_spec (192 + c / 64) 128); [lia|].
    destruct (Z.ltb_spec (192 + c / 64) 224); [|lia].
    destruct (Z.leb_spec 194 (192 + c / 64)); [|lia].
    cbn [andb]. f_equal. pose proof (Z.div_mod c 64 ltac:(lia)). lia. }
  destruct (Z.ltb_spec c 65536) as [H3|H3].
  { change (String ?a (String ?b (String ?d "")) +:+ rest)
      with (String a (String b (String d rest))).
    cbn [PyStr.decode].
    assert (H64 : (0 <= c mod 64 < 64)%Z) by (apply Z.mod_pos_bound; lia).
    assert (H64' : (0 <= c / 64 mod 64 < 64)%Z) by (apply Z.mod_pos_bound; lia).
    assert (Hq : (0 <= c / 4096 < 16)%Z) by (split; [apply Z.div_pos|apply Z.div_lt_upper_bound]; lia).
    destruct (continues_byte (c mod 64) H64) as [Hk Hs].
    destruct (continues_byte (c / 64 mod 64) H64') as [Hk' Hs'].
    rewrite ord_byte by lia. rewrite Hk, Hs, Hk', Hs'.
    destruct (Z.ltb_spec (224 + c / 4096) 128); [lia|].
    destruct (Z.ltb_spec (224 + c / 4096) 224); [lia|].
    destruct (Z.ltb_spec (224 + c / 4096) 240); [|lia].
    assert (Hval : ((224 + c / 4096 - 224) * 4096 + c / 64 mod 64 * 64 + c mod 64 = c)%Z).
    { pose proof (Z.div_mod c 64 ltac:(lia)).
      pose proof (Z.div_mod (c / 64) 64 ltac:(lia)).
      rewrite Z.div_div in * by lia. change (64 * 64)%Z with 4096%Z in *. lia. }
    rewrite Hval. destruct (Z.leb_spec 2048 c); [|lia]. reflexivity. }
  destruct (Z.ltb_spec c 1114112) as [H4|H4]; [|lia].
  change (String ?a (String ?b (String ?d (String ?e ""))) +:+ rest)
    with (String a (String b (String d (String e rest)))).
  cbn [PyStr.decode].
  assert (H64 : (0 <= c mod 64 < 64)%Z) by (apply Z.mod_pos_bound; lia).
  assert (H64' : (0 <= c / 64 mod 64 < 64)%Z) by (apply Z.mod_pos_bound; lia).
  assert (H64'' : (0 <= c / 4096 mod 64 < 64)%Z) by (apply Z.mod_pos_bound; lia).
  assert (Hq : (0 <= c / 262144 < 5)%Z) by (split; [apply Z.div_pos|apply Z.div_lt_upper_bound]; lia).
  destruct (continues_byte (c mod 64) H64) as [Hk Hs].
  destruct (continues_byte (c / 64 mod 64) H64') as [Hk' Hs'].
  destruct (continues_byte (c / 4096 mod 64) H64'') as [Hk'' Hs''].
  rewrite ord_byte by lia. rewrite Hk, Hs, Hk', Hs', Hk'', Hs''.
  destruct (Z.ltb_spec (240 + c / 262144) 128); [lia|].
  destruct (Z.ltb_spec (240 + c / 262144) 224); [lia|].
  destruct (Z.ltb_spec (240 + c / 262144) 240); [lia|].
  assert (Hval : ((240 + c / 262144 - 240) * 262144 + c / 4096 mod 64 * 4096
                  + c / 64 mod 64 * 64 + c mod 64 = c)%Z).
  { pose proof (Z.div_mod c 64 ltac:(lia)).
    pose proof (Z.div_mod (c / 64) 64 ltac:(lia)).
    pose proof (Z.div_mod (c / 4096) 64 ltac:(lia)).
    replace (c / 4096)%Z with (c / 64 / 64)%Z in * by (rewrite Z.div_div by lia; reflexivity).
    replace (c / 262144)%Z with (c / 64 / 64 / 64)%Z
      by (rewrite !Z.div_div by lia; reflexivity).
    lia. }
  rewrite Hval.
  destruct (Z.leb_spec 65536 c); [|lia]. destruct (Z.ltb_spec c 1114112); [|lia].
  reflexivity.
Qed.

Lemma decode_encode (s : list Z) :
  Forall (fun c => 0 <= c < 1114112)%Z s -> PyStr.decode (PyStr.encode s) = s.
Proof.
  induction 1 as [|c s Hc _ IH]; [reflexivity|].
  cbn [PyStr.encode]. now rewrite decode_encode_char, IH.
Qed.

Lemma six_range (c : ascii) :
  PyStr.continues c = true -> (0 <= PyStr.six c < 64)%Z /\ (128 + PyStr.six c = PyStr.ord c)%Z.
Proof.
  unfold PyStr.continues, PyStr.six. intros H.
  apply andb_prop in H as [H1 H2]. apply Z.leb_le in H1. apply Z.ltb_lt in H2. lia.
Qed.

Lemma encode_char_stray (n : Z) :
  (0 <= n)%Z -> PyStr.encode_char (1114112 + n) = String (PyStr.byte n) "".
Proof.
  intros H. unfold PyStr.encode_char.
  destruct (Z.ltb_spec (1114112 + n) 128); [lia|].
  destruct (Z.ltb_spec (1114112 + n) 2048); [lia|].
  destruct (Z.ltb_spec (1114112 + n) 65536); [lia|].
  destruct (Z.ltb_spec (1114112 + n) 1114112); [lia|].
  f_equal. f_equal. lia.
Qed.

(** Every string is the encoding of its code points. *)
Lemma encode_decode (s : string) : PyStr.encode (PyStr.decode s) = s.
Proof.
  assert (H : forall n s, String.length s <= n -> PyStr.encode (PyStr.decode s) = s);
    [|exact (H _ s (Nat.le_refl _))].
  clear s. induction n as [|n IH]; intros s Hn.
  { destruct s; [reflexivity|simpl in Hn; lia]. }
  destruct s as [|b1 s1]; [reflexivity|]. simpl in Hn.
  pose proof (ord_range b1) as Hb1.
  assert (Hstray : PyStr.encode ((1114112 + PyStr.ord b1)%Z :: PyStr.decode s1)
                   = String b1 s1).
  { cbn [PyStr.encode]. rewrite encode_char_stray by lia.
    rewrite byte_ord, IH by lia. reflexivity. }
  cbn [PyStr.decode].
  destruct (Z.ltb_spec (PyStr.ord b1) 128) as [H1|H1].
  { cbn [PyStr.encode]. unfold PyStr.encode_char.
    destruct (Z.ltb_spec (PyStr.ord b1) 128); [|lia].
    rewrite byte_ord, IH by lia. reflexivity. }
  destruct (Z.ltb_spec (PyStr.ord b1) 224) as [H2|H2].
  { destruct s1 as [|b2 s2]; [exact Hstray|].
    destruct (Z.leb_spec 194 (PyStr.ord b1)) as [H194|H194]; [|exact Hstray].
    destruct (PyStr.continues b2) eqn:Hc2; [|exact Hstray].
    cbn [andb]. destruct (six_range b2 Hc2) as [Hs2 He2].
    simpl in Hn. cbn [PyStr.encode]. rewrite IH by lia.
    set (c := ((PyStr.ord b1 - 192) * 64 + PyStr.six b2)%Z).
    unfold PyStr.encode_char.
    destruct (Z.ltb_spec c 128); [unfold c in *; lia|].
    destruct (Z.ltb_spec c 2048); [|unfold c in *; lia].
    assert (Hq : (c / 64 = PyStr.ord b1 - 192)%Z)
      by (unfold c; rewrite Z.div_add_l by lia; rewrite Z.div_small by lia; lia).
    assert (Hr : (c mod 64 = PyStr.six b2)%Z)
      by (unfold c; rewrite Z.add_comm, Z.mod_add by lia; apply Z.mod_small; lia).
    rewrite Hq, Hr, He2.
    replace (192 + (PyStr.ord b1 - 192))%Z with (PyStr.ord b1) by lia.
    now rewrite !byte_ord. }
  destruct (Z.ltb_spec (PyStr.ord b1) 240) as [H3|H3].
  { destruct s1 as [|b2 [|b3 s3]]; [exact Hstray..|].
    destruct (PyStr.continues b2) eqn:Hc2; [|exact Hstray].
    destruct (PyStr.continues b3) eqn:Hc3; [|exact Hstray].
    cbn [andb].
    set (c := ((PyStr.ord b1 - 224) * 4096 + PyStr.six b2 * 64 + PyStr.six b3)%Z).
    destruct (Z.leb_spec 2048 c) as [Hc|Hc]; [|exact Hstray].
    destruct (six_range b2 Hc2) as [Hs2 He2]. destruct (six_range b3 Hc3) as [Hs3 He3].
    simpl in Hn. cbn [PyStr.encode]. rewrite IH by lia.
    unfold PyStr.encode_char.
    destruct (Z.ltb_spec c 128); [lia|].
    destruct (Z.ltb_spec c 2048); [lia|].
    destruct (Z.ltb_spec c 65536); [|unfold c in *; lia].
    assert (Hq : (c / 4096 = PyStr.ord b1 - 224)%Z)
      by (unfold c; Z.to_euclidean_division_equations; lia).
    assert (Hm : (c / 64 mod 64 = PyStr.six b2)%Z)
      by (unfold c; Z.to_euclidean_division_equations; lia).
    assert (Hr : (c mod 64 = PyStr.six b3)%Z)
      by (unfold c; Z.to_euclidean_division_equations; lia).
    rewrite Hq, Hm, Hr, He2, He3.
    replace (224 + (PyStr.ord b1 - 224))%Z with (PyStr.ord b1) by lia.
    now rewrite !byte_ord. }
  destruct s1 as [|b2 [|b3 [|b4 s4]]]; [exact Hstray..|].
  destruct (PyStr.continues b2) eqn:Hc2; [|exact Hstray].
  destruct (PyStr.continues b3) eqn:Hc3; [|exact Hstray].
  destruct (PyStr.continues b4) eqn:Hc4; [|exact Hstray].
  cbn [andb].
  set (c := ((PyStr.ord b1 - 240) * 262144 + PyStr.six b2 * 4096
             + PyStr.six b3 * 64 + PyStr.six b4)%Z).
  destruct (Z.leb_spec 65536 c) as [Hc|Hc]; [|exact Hstray].
  destruct (Z.ltb_spec c 1114112) as [Hc'|Hc']; [|exact Hstray].
  cbn [andb].
  destruct (six_range b2 Hc2) as [Hs2 He2]. destruct (six_range b3 Hc3) as [Hs3 He3].
  destruct (six_range b4 Hc4) as [Hs4 He4].
  simpl in Hn. cbn [PyStr.encode]. rewrite IH by lia.
  unfold PyStr.encode_char.
  destruct (Z.ltb_spec c 128); [lia|].
  destruct (Z.ltb_spec c 2048); [lia|].
  destruct (Z.ltb_spec c 65536); [lia|].
  destruct (Z.ltb_spec c 1114112); [|lia].
  assert (Hq : (c / 262144 = PyStr.ord b1 - 240)%Z)
    by (unfold c; Z.to_euclidean_division_equations; lia).
  assert (Hm1 : (c / 4096 mod 64 = PyStr.six b2)%Z)
    by (unfold c; Z.to_euclidean_division_equations; lia).
  assert (Hm2 : (c / 64 mod 64 = PyStr.six b3)%Z)
    by (unfold c; Z.to_euclidean_division_equations; lia).
  assert (Hr : (c mod 64 = PyStr.six b4)%Z)
    by (unfold c; Z.to_euclidean_division_equations; lia).
  rewrite Hq, Hm1, Hm2, Hr, He2, He3, He4.
  replace (240 + (PyStr.ord b1 - 240))%Z with (PyStr.ord b1) by lia.
  now rewrite !byte_ord.
Qed.

(** A property of every decimal digit, checked on the table. *)
Lemma decimal_forall (P : Z -> bool) :
  forallb (fun z => forallb (fun k => P (z + k)%Z) [0; 1; 2; 3; 4; 5; 6; 7; 8; 9]%Z)
    PyStr.decimal_zeros = true ->
  forall c, PyStr.is_decimal c = true -> P c = true.
Proof.
  intros Hall c Hc. unfold PyStr.is_decimal in Hc.
  apply existsb_exists in Hc as (z & Hin & Hz).
  apply andb_prop in Hz as [Hlo Hhi].
  apply Z.leb_le in Hlo. apply Z.ltb_lt in Hhi.
  rewrite forallb_forall in Hall. specialize (Hall z Hin).
  rewrite forallb_forall in Hall.
  replace c with (z + (c - z))%Z by lia. apply Hall.
  assert (Hk : (c - z = 0 \/ c - z = 1 \/ c - z = 2 \/ c - z = 3 \/ c - z = 4
                \/ c - z = 5 \/ c - z = 6 \/ c - z = 7 \/ c - z = 8 \/ c - z = 9)%Z)
    by lia.
  repeat (destruct Hk as [Hk|Hk]; [rewrite Hk; simpl; auto 15|]).
  rewrite Hk; simpl; auto 15.
Qed.

Lemma is_decimal_code_point (c : Z) :
  PyStr.is_decimal c = true -> (0 <= c < 1114112)%Z.
Proof.
  intros Hc.
  pose proof (decimal_forall (fun c => (0 <=? c) && (c <? 1114112))%Z
                ltac:(vm_compute; reflexivity) c Hc) as H.
  apply andb_prop in H as [H1 H2]. apply Z.leb_le in H1. apply Z.ltb_lt in H2. lia.
Qed.

Lemma is_decimal_not_space (c : Z) :
  PyStr.is_decimal c = true -> PyStr.isspace c = false.
Proof.
  intros Hc. apply negb_true_iff.
  exact (decimal_forall (fun c => negb (PyStr.isspace c))
           ltac:(vm_compute; reflexivity) c Hc).
Qed.

Lemma is_decimal_not_colon (c : Z) :
  PyStr.is_decimal c = true -> (c =? PyStr.ord ":")%Z = false.
Proof.
  intros Hc. apply negb_true_iff.
  exact (decimal_forall (fun c => negb (c =? PyStr.ord ":")%Z)
           ltac:(vm_compute; reflexivity) c Hc).
Qed.

Lemma is_decimal_is_digit (c : Z) :
  PyStr.is_decimal c = true -> PyStr.is_digit c = true.
Proof. intros Hc. unfold PyStr.is_digit. now rewrite Hc. Qed.

Lemma decimals_lstrip (s : list Z) :
  forallb PyStr.is_decimal s = true -> PyStr.lstrip s = s.
Proof.
  destruct s as [|c s]; simpl; [reflexivity|].
  intros H. apply andb_prop in H as [Hc _].
  now rewrite (is_decimal_not_space c Hc).
Qed.

Lemma decimals_rstrip (s : list Z) :
  forallb PyStr.is_decimal s = true -> PyStr.rstrip s = s.
Proof.
  induction s as [|c s IH]; simpl; [reflexivity|].
  intros H. apply andb_prop in H as [Hc Hs].
  rewrite (IH Hs), (is_decimal_not_space c Hc). now destruct s.
Qed.

Lemma decimals_replace_colon (s : list Z) :
  forallb PyStr.is_decimal s = true -> PyStr.replace (PyStr.ord ":") [] s = s.
Proof.
  induction s as [|c s IH]; simpl; [reflexivity|].
  intros H. apply andb_prop in H as [Hc Hs].
  now rewrite (is_decimal_not_colon c Hc), (IH Hs).
Qed.

Lemma decimals_code_points (s : list Z) :
  forallb PyStr.is_decimal s = true -> Forall (fun c => 0 <= c < 1114112)%Z s.
Proof.
  intros H. apply Forall_forall. intros c Hin.
  rewrite forallb_forall in H. apply is_decimal_code_point, H.
  now apply list_elem_of_In.
Qed.

(** *** The formatters *)

Lemma match_digits_all_decimal (s : list Z) :
  forallb PyStr.is_decimal s = true ->
  forall lo hi,
    PyStr.match_digits_to_end lo hi s = (lo <=? length s) && (length s <=? hi).
Proof.
  induction s as [|c s IH]; simpl; intros Hs lo hi.
  - destruct lo; reflexivity.
  - apply andb_prop in Hs as [Hc Hs]. rewrite Hc.
    destruct hi as [|hi].
    + now rewrite andb_false_r.
    + rewrite (IH Hs). destruct lo; reflexivity.
Qed.

(** A match whose characters are all digits has decimal digits only: what
    [$] lets through besides, a final newline, is no digit. *)
Lemma match_digits_decimal (s : list Z) :
  forall lo hi,
    PyStr.match_digits_to_end lo hi s = true ->
    forallb PyStr.is_digit s = true ->
    forallb PyStr.is_decimal s = true.
Proof.
  induction s as [|c s IH]; simpl; intros lo hi Hm Hd; [reflexivity|].
  apply andb_prop in Hd as [Hc Hd].
  destruct (PyStr.is_decimal c) eqn:Hdec.
  - destruct hi as [|hi]; [discriminate|]. simpl. exact (IH _ _ Hm Hd).
  - exfalso. apply andb_prop in Hm as [Hm _]. apply andb_prop in Hm as [_ H10].
    apply Z.eqb_eq in H10. subst c. discriminate Hc.
Qed.

(** The regular expression and [isdigit] together say: [lo] to [hi]
    decimal digits and nothing else. *)
Lemma match_digits_isdigit (lo hi : nat) (s : list Z) :
  0 < lo ->
  PyStr.match_digits_to_end lo hi s && PyStr.isdigit s
  = forallb PyStr.is_decimal s && (lo <=? length s) && (length s <=? hi).
Proof.
  intros Hlo. destruct (forallb PyStr.is_decimal s) eqn:Hs.
  - rewrite (match_digits_all_decimal s Hs). simpl.
    destruct s as [|c s].
    + simpl. destruct lo; [lia|reflexivity].
    + assert (Hd : PyStr.isdigit (c :: s) = true).
      { unfold PyStr.isdigit. apply forallb_forall. intros x Hx.
        rewrite forallb_forall in Hs. now apply is_decimal_is_digit, Hs. }
      rewrite Hd. apply andb_true_r.
  - simpl. destruct (PyStr.match_digits_to_end lo hi s) eqn:Hm; [|reflexivity].
    simpl. destruct s as [|c s]; [reflexivity|].
    unfold PyStr.isdigit. destruct (forallb PyStr.is_digit (c :: s)) eqn:Hd; [|reflexivity].
    rewrite (match_digits_decimal _ _ _ Hm Hd) in Hs. discriminate.
Qed.

Lemma format_time_for_api_eq (time_str : string) :
  format_time_for_api time_str = Returns (api_form time_str).
Proof.
  unfold format_time_for_api, api_form, decimals. fold (normalized time_str).
  set (s := normalized time_str).
  rewrite match_digits_isdigit by lia.
  destruct (forallb PyStr.is_decimal s); simpl.
  - rewrite !andb_true_r.
    destruct (length s =? 4) eqn:H4.
    + apply Nat.eqb_eq in H4. rewrite H4. reflexivity.
    + destruct (length s =? 3) eqn:H3.
      * apply Nat.eqb_eq in H3. rewrite H3. reflexivity.
      * now destruct (_ && _).
  - now rewrite !andb_false_r.
Qed.

Lemma format_time_for_display_eq (time_str : string) :
  format_time_for_display time_str = Returns (display_form time_str).
Proof.
  unfold format_time_for_display, display_form, decimals. fold (normalized time_str).
  set (s := normalized time_str).
  rewrite match_digits_isdigit by lia.
  assert (Hlen : (4 <=? length s) && (length s <=? 4) = (length s =? 4)).
  { destruct (length s =? 4) eqn:H4.
    - apply Nat.eqb_eq in H4. now rewrite H4.
    - apply Nat.eqb_neq in H4. apply andb_false_iff.
      destruct (Nat.le_gt_cases 4 (length s)).
      + right. apply Nat.leb_gt. lia.
      + left. apply Nat.leb_gt. lia. }
  rewrite <- andb_assoc, Hlen, andb_comm. clear Hlen.
  destruct ((length s =? 4) && forallb PyStr.is_decimal s); [reflexivity|].
  destruct (length s =? 5) eqn:H5; [|reflexivity].
  unfold PyStr.getitem. destruct (s !! 2) eqn:Hg; simpl.
  - now destruct (z =? PyStr.ord ":")%Z.
  - apply Nat.eqb_eq in H5. exfalso.
    apply lookup_ge_None in Hg. lia.
Qed.

(** C9. For every string, malformed ones included, neither formatter
    raises. [format_time_for_api] returns the sentinel ["0000"] unless its
    argument, once stripped of the white space around it and of every
    colon, is made of 3 or 4 decimal digits, which it returns padded to 4;
    [format_time_for_display] returns HH:MM for 4 decimal digits and
    otherwise, as a best effort, the stripped and colon-free argument. *)
Theorem format_time_never_raises (time_str : string) :
  format_time_for_api time_str
  = Returns (if decimals 4 (normalized time_str)
             then PyStr.encode (normalized time_str)
             else if decimals 3 (normalized time_str)
             then PyStr.encode (PyStr.ord "0" :: normalized time_str)
             else "0000")
  /\ format_time_for_display time_str
     = Returns (if decimals 4 (normalized time_str)
                then PyStr.encode (PyStr.slice_to 2 (normalized time_str)
                                   ++ [PyStr.ord ":"]
                                   ++ PyStr.slice_from 2 (normalized time_str))
                else PyStr.encode (normalized time_str)).
Proof.
  split.
  - apply format_time_for_api_eq.
  - apply format_time_for_display_eq.
Qed.

(** The sentinel is not what every string gets that is not itself 3 or 4
    digits: the colons go first, wherever they are, and ["07:3"] comes out
    as ["0073"]. *)
Lemma format_time_for_api_drops_colons_first :
  numeric 3 "07:3" = false
  /\ numeric 4 "07:3" = false
  /\ format_time_for_api "07:3" = Returns "0073"
  /\ ~ (forall time_str,
          numeric 3 time_str = false -> numeric 4 time_str = false ->
          format_time_for_api time_str = Returns "0000").
Proof.
  split; [reflexivity|]. split; [reflexivity|]. split; [vm_compute; reflexivity|].
  intros H. specialize (H "07:3" eq_refl eq_refl). vm_compute in H. discriminate H.
Qed.

(** ** Running the monad *)

Lemma bind_Returns {B A A'} (m : M B A) (k : A -> M B A') (w w' : world B) (a : A) :
  m w = (Returns a, w') -> bind m k w = k a w'.
Proof. unfold bind. now intros ->. Qed.

Lemma lift_Returns {B A} (o : outcome A) (a : A) (w : world B) :
  o = Returns a -> lift o w = (Returns a, w).
Proof. now intros ->. Qed.

Lemma map_outcome_Returns {X Y} (f : X -> outcome Y) (g : X -> Y) (xs : list X) :
  (forall x, f x = Returns (g x)) -> map_outcome f xs = Returns (map g xs).
Proof.
  intros Hf. induction xs as [|x xs IH]; simpl; [reflexivity|].
  now rewrite Hf, IH.
Qed.

Lemma for_each_Returns {B X} (xs : list X) (body : X -> M B unit) :
  (forall x w, exists w', body x w = (Returns tt, w')) ->
  forall w, exists w', for_each xs body w = (Returns tt, w').
Proof.
  intros Hbody. induction xs as [|x xs IH]; intros w; simpl.
  - now exists w.
  - destruct (Hbody x w) as [w1 H1]. rewrite (bind_Returns _ _ _ _ _ H1).
    apply IH.
Qed.

(** ** Sorting *)

Section Sorting.

Context {A K : Type} (lt : K -> K -> bool) (key : A -> K) (le : relation A).
Context `{!Transitive le}.
Hypothesis not_lt_le : forall x y, lt (key y) (key x) = false -> le x y.
Hypothesis lt_le : forall x y, lt (key y) (key x) = true -> le y x.

Lemma insert_by_Permutation (x : A) (l : list A) : insert_by lt key x l ≡ₚ x :: l.
Proof.
  induction l as [|y l IH]; simpl; [reflexivity|].
  destruct (lt (key y) (key x)); [|reflexivity].
  rewrite IH. apply Permutation_swap.
Qed.

Lemma stable_sort_Permutation (l : list A) : stable_sort lt key l ≡ₚ l.
Proof.
  induction l as [|x l IH]; simpl; [reflexivity|].
  now rewrite insert_by_Permutation, IH.
Qed.

Lemma insert_by_sorted (x : A) (l : list A) :
  StronglySorted le l -> StronglySorted le (insert_by lt key x l).
Proof.
  induction l as [|y l IH]; simpl; intros Hl.
  - repeat constructor.
  - apply StronglySorted_cons in Hl as [Hy Hl].
    destruct (lt (key y) (key x)) eqn:Hlt.
    + constructor; [auto|].
      rewrite insert_by_Permutation. constructor; auto.
    + constructor; [now constructor|].
      constructor; [auto|].
      eapply Forall_impl; [exact Hy|].
      intros z Hz. now transitivity y; [apply not_lt_le|].
Qed.

Lemma stable_sort_sorted (l : list A) : StronglySorted le (stable_sort lt key l).
Proof.
  induction l as [|x l IH]; simpl; [constructor|].
  now apply insert_by_sorted.
Qed.

End Sorting.

Lemma StronglySorted_reverse {A} (R : relation A) (l : list A) :
  StronglySorted R l -> StronglySorted (flip R) (reverse l).
Proof.
  induction 1 as [|x l Hl IH Hx]; [constructor|].
  rewrite reverse_cons. apply StronglySorted_app_2; [|exact IH|repeat constructor].
  intros x1 x2 H1 H2. apply list_elem_of_singleton in H2 as ->.
  rewrite elem_of_reverse in H1. rewrite Forall_forall in Hx.
  unfold flip. now apply Hx.
Qed.

Lemma StronglySorted_lookup {A} (R : relation A) (l : list A) (i j : nat) (a b : A) :
  StronglySorted R l -> i < j -> l !! i = Some a -> l !! j = Some b -> R a b.
Proof.
  intros Hl. revert i j. induction Hl as [|x l Hl IH Hx]; intros i j Hij Hi Hj.
  - discriminate.
  - destruct j as [|j]; [lia|]. simpl in Hj.
    destruct i as [|i]; simpl in Hi.
    + injection Hi as ->. rewrite Forall_forall in Hx.
      apply Hx. eapply list_elem_of_lookup_2. exact Hj.
    + apply (IH i j); [lia|assumption..].
Qed.

Lemma ltb_leb (s1 s2 : string) : String.ltb s1 s2 = negb (String.leb s2 s1).
Proof.
  unfold String.ltb, String.leb. rewrite (String.compare_antisym s1 s2).
  now destruct (String.compare s2 s1).
Qed.

Lemma string_le_leb (s1 s2 : string) : (s1 ≤ s2)%string <-> String.leb s1 s2 = true.
Proof. unfold String.le. apply Is_true_true. Qed.

Global Instance slot_le_trans : Transitive slot_le.
Proof.
  intros a b c [Hab Hab'] [Hbc Hbc']. split.
  - now transitivity (bk_time b).
  - intros Hac. rewrite Hac in Hab.
    assert (bk_time b = bk_time c) as Hb by now apply (anti_symm String.le).
    rewrite <- Hb in Hac. transitivity (bk_cos b); auto.
Qed.

Lemma tuple_lt_false (x y : slot) :
  tuple_lt (sort_key y) (sort_key x) = false -> slot_le x y.
Proof.
  unfold tuple_lt, sort_key; simpl. rewrite !ltb_leb.
  intros H. apply orb_false_elim in H as [H1 H2].
  apply negb_false_iff in H1. split; [now apply string_le_leb|].
  intros Heq. rewrite Heq, String.eqb_refl in H2. simpl in H2.
  apply negb_false_iff in H2. now apply string_le_leb.
Qed.

Lemma tuple_lt_true (x y : slot) :
  tuple_lt (sort_key y) (sort_key x) = true -> slot_le y x.
Proof.
  unfold tuple_lt, sort_key; simpl. rewrite !ltb_leb.
  intros H. apply orb_true_iff in H as [H|H].
  - apply negb_true_iff in H.
    destruct (total String.le (bk_time x) (bk_time y)) as [Hxy|Hyx].
    + apply string_le_leb in Hxy. congruence.
    + split; [exact Hyx|]. intros Heq. rewrite Heq in H.
      assert (String.leb (bk_time x) (bk_time x) = true) by
        (apply string_le_leb; reflexivity).
      congruence.
  - apply andb_prop in H as [Heq H]. apply String.eqb_eq in Heq.
    apply negb_true_iff in H. split.
    + rewrite Heq. reflexivity.
    + intros _. destruct (total String.le (bk_cos x) (bk_cos y)) as [Hxy|Hyx].
      * apply string_le_leb in Hxy. congruence.
      * exact Hyx.
Qed.

(** [list.sort] on slots: sorted by [slot_le], or by its converse when
    reversed, and a permutation of its argument. *)
Lemma list_sort_slots_sorted (is_reverse : bool) (l : list slot) :
  StronglySorted (if is_reverse then flip slot_le else slot_le)
    (list_sort tuple_lt sort_key is_reverse l).
Proof.
  destruct is_reverse; simpl.
  - apply StronglySorted_reverse.
    apply stable_sort_sorted; eauto using tuple_lt_false, tuple_lt_true with typeclass_instances.
  - apply stable_sort_sorted; eauto using tuple_lt_false, tuple_lt_true with typeclass_instances.
Qed.

Lemma list_sort_Permutation {A K} (lt : K -> K -> bool) (key : A -> K)
    (is_reverse : bool) (l : list A) :
  list_sort lt key is_reverse l ≡ₚ l.
Proof.
  destruct is_reverse; simpl.
  - now rewrite reverse_Permutation, stable_sort_Permutation, reverse_Permutation.
  - apply stable_sort_Permutation.
Qed.

(** ** The filter and rank engine *)

Lemma filter_loop_Returns {B} (s e : string) (tc : course_names)
    (all_times acc : list slot) (w : world B) :
  exists w',
    for_fold all_times (filter_step s e tc (target_course_codes tc)) acc w
    = (Returns (acc ++ List.filter (keeps s e tc) all_times), w').
Proof.
  revert acc w. induction all_times as [|t rest IH]; intros acc w; simpl.
  - exists w. now rewrite app_nil_r.
  - unfold keeps at 1. unfold filter_step at 1.
    destruct (String.leb s (bk_time t) && String.leb (bk_time t) e); simpl;
      [|apply IH].
    destruct (All_in tc || bool_decide (bk_cos t ∈ target_course_codes tc)); simpl;
      [|apply IH].
    destruct (String.eqb (status_r t) "OK"); simpl.
    + destruct (IH (acc ++ [t]) w) as [w' Hw']. exists w'.
      unfold bind, ret at 1. rewrite Hw'. now rewrite <- app_assoc.
    + unfold bind at 1. unfold bind at 1. unfold lift.
      rewrite format_time_for_display_eq. simpl. apply IH.
Qed.

(** [filter_and_sort_times] never raises, and returns the kept slots,
    sorted. *)
Lemma filter_and_sort_times_Returns {B} (all_times : list slot)
    (start_time_str end_time_str : string) (tc : course_names) (is_reverse : bool)
    (w : world B) :
  exists w',
    filter_and_sort_times all_times start_time_str end_time_str tc is_reverse w
    = (Returns
         (list_sort tuple_lt sort_key is_reverse
            (List.filter (keeps (api_form start_time_str) (api_form end_time_str) tc)
               all_times)),
       w').
Proof.
  unfold filter_and_sort_times.
  rewrite (bind_Returns _ _ w w _ (lift_Returns _ _ w (format_time_for_api_eq _))).
  rewrite (bind_Returns _ _ w w _ (lift_Returns _ _ w (format_time_for_api_eq _))).
  destruct (filter_loop_Returns (api_form start_time_str) (api_form end_time_str)
              tc all_times [] w) as [w1 H1].
  rewrite (bind_Returns _ _ _ _ _ H1). simpl app.
  set (out := list_sort _ _ _ _).
  erewrite (bind_Returns _ _ w1 w1); cycle 1.
  { apply lift_Returns. apply map_outcome_Returns.
    intros t. rewrite format_time_for_display_eq. reflexivity. }
  unfold bind at 1. unfold log_message at 1, emit at 1.
  set (w2 := mkWorld _ _ _ _).
  assert (Hlog : exists w3,
    (if bool_decide
          (map (fun t => display_form (bk_time t) +:+ " (" +:+ course_nm t +:+ ")") out
           ≠ [])
     then log_message LogTop5Header ;;
          for_each
            (imap (fun i time_str => (i, time_str))
               (take 5 (map (fun t => display_form (bk_time t) +:+ " ("
                                      +:+ course_nm t +:+ ")") out)))
            (fun '(i, time_str) => log_message (LogRank (i + 1) time_str))
     else ret tt) w2 = (Returns tt, w3)).
  { destruct (bool_decide _); [|now exists w2].
    unfold bind at 1. unfold log_message at 1, emit at 1.
    apply for_each_Returns. intros [i ts] w'. eexists. reflexivity. }
  destruct Hlog as [w3 H3]. rewrite (bind_Returns _ _ _ _ _ H3).
  now exists w3.
Qed.

(** C1, as stated, fails: descending, two bookable slots at 07:00 on
    courses A and B come out B first, so the tie is not broken by course
    code ascending. *)
Lemma ranking_ties_ascending_fails_when_descending :
  exists out w',
    filter_and_sort_times (B := unit) [slot_0700_A; slot_0700_B] "07:00" "08:00"
      (CourseNames ["All"]) true quiet_world = (Returns out, w')
    /\ ~ (time_monotone true out /\ ties_by_course false out).
Proof.
  eexists _, _. split; [vm_compute; reflexivity|].
  intros [_ Hties].
  specialize (Hties 0 1 slot_0700_B slot_0700_A ltac:(lia) eq_refl eq_refl eq_refl).
  vm_compute in Hties. exact Hties.
Qed.

(** C1, amended. For every slot sequence, window, course filter and
    direction, the output of [filter_and_sort_times] is non-decreasing in
    time when ascending and non-increasing when descending, and slots of
    equal time appear by course code ascending when ascending and by course
    code descending when descending: the reversal flips the whole key
    order, the tie-break with it. *)
Theorem ranking_sorted_by_time_then_course {B} (all_times : list slot)
    (start_time_str end_time_str : string) (tc : course_names) (is_reverse : bool)
    (w : world B) :
  exists out w',
    filter_and_sort_times all_times start_time_str end_time_str tc is_reverse w
    = (Returns out, w')
    /\ time_monotone is_reverse out /\ ties_by_course is_reverse out.
Proof.
  destruct (filter_and_sort_times_Returns all_times start_time_str end_time_str
              tc is_reverse w) as [w' Hrun].
  eexists _, w'. split; [exact Hrun|].
  pose proof (list_sort_slots_sorted is_reverse
    (List.filter (keeps (api_form start_time_str) (api_form end_time_str) tc)
       all_times)) as Hsorted.
  split; intros i j a b Hij Ha Hb;
    pose proof (StronglySorted_lookup _ _ i j a b Hsorted Hij Ha Hb) as Hab;
    destruct is_reverse; unfold flip in Hab; destruct Hab as [Ht Hc]; auto.
Qed.

(** *** Which slots are kept *)

(** C4, as stated, fails: under the filter "All" a bookable slot in the
    window is kept whatever its course code, here "E", which is not in the
    selected set {A, B, C, D}. *)
Lemma kept_outside_selected_set_under_All :
  exists out w',
    filter_and_sort_times (B := unit) [slot_0700_E] "07:00" "08:00"
      (CourseNames ["All"]) false quiet_world = (Returns out, w')
    /\ ~ (forall t, t ∈ out <->
            t ∈ [slot_0700_E]
            /\ (api_form "07:00" ≤ bk_time t)%string
            /\ (bk_time t ≤ api_form "08:00")%string
            /\ bk_cos t ∈ target_course_codes (CourseNames ["All"])
            /\ status_r t = "OK").
Proof.
  eexists _, _. split; [vm_compute; reflexivity|].
  intros H. destruct (H slot_0700_E) as [H1 _].
  destruct H1 as (_ & _ & _ & Hcos & _); [apply list_elem_of_here|].
  assert (Hno : bool_decide
            (bk_cos slot_0700_E ∈ target_course_codes (CourseNames ["All"])) = false)
    by (vm_compute; reflexivity).
  apply bool_decide_eq_false in Hno. contradiction.
Qed.

Lemma All_in_course_list (tc : course_names) :
  names_All_whole tc = true ->
  All_in tc = true <-> "All" ∈ course_list tc.
Proof.
  destruct tc as [name|names]; simpl; intros Hw.
  - rewrite list_elem_of_singleton. split.
    + intros Hc. rewrite Hc in Hw. simpl in Hw.
      symmetry. now apply String.eqb_eq.
    + intros <-. reflexivity.
  - apply bool_decide_eq_true.
Qed.

Lemma keeps_spec (s e : string) (tc : course_names) (t : slot) :
  names_All_whole tc = true ->
  keeps s e tc t = true <->
    (s ≤ bk_time t)%string /\ (bk_time t ≤ e)%string
    /\ ("All" ∈ course_list tc \/ bk_cos t ∈ target_course_codes tc)
    /\ status_r t = "OK".
Proof.
  intros Hw. unfold keeps.
  rewrite !andb_true_iff, orb_true_iff, (All_in_course_list tc Hw),
    bool_decide_eq_true, String.eqb_eq, !string_le_leb.
  tauto.
Qed.

(** C4, amended. For every slot sequence, [filter_and_sort_times] keeps a
    slot in its output if and only if its 4-digit time lies within
    [start, end] inclusive (string comparison), its status equals "OK"
    exactly, and either its course code is in the selected course set or the
    course filter names "All", which admits every course code. (The course
    filter is a list of names, or a single name that does not merely contain
    "All" inside a longer string.) *)
Theorem kept_iff_window_course_status {B} (all_times : list slot)
    (start_time_str end_time_str : string) (tc : course_names) (is_reverse : bool)
    (w : world B) :
  names_All_whole tc = true ->
  exists out w',
    filter_and_sort_times all_times start_time_str end_time_str tc is_reverse w
    = (Returns out, w')
    /\ forall t, t ∈ out <->
         t ∈ all_times
         /\ (api_form start_time_str ≤ bk_time t)%string
         /\ (bk_time t ≤ api_form end_time_str)%string
         /\ ("All" ∈ course_list tc \/ bk_cos t ∈ target_course_codes tc)
         /\ status_r t = "OK".
Proof.
  intros Hw.
  destruct (filter_and_sort_times_Returns all_times start_time_str end_time_str
              tc is_reverse w) as [w' Hrun].
  eexists _, w'. split; [exact Hrun|].
  intros t. rewrite list_sort_Permutation.
  rewrite list_elem_of_In, filter_In, <- list_elem_of_In, (keeps_spec _ _ _ _ Hw).
  tauto.
Qed.

Lemma kept_iff_window_course_status_witness :
  names_All_whole (CourseNames ["예술"; "문화"]) = true
  /\ exists out w',
       filter_and_sort_times (B := unit) [slot_0700_A; slot_0700_E] "07:00" "08:00"
         (CourseNames ["예술"; "문화"]) false quiet_world = (Returns out, w')
       /\ forall t, t ∈ out <->
            t ∈ [slot_0700_A; slot_0700_E]
            /\ (api_form "07:00" ≤ bk_time t)%string
            /\ (bk_time t ≤ api_form "08:00")%string
            /\ ("All" ∈ course_list (CourseNames ["예술"; "문화"])
                \/ bk_cos t ∈ target_course_codes (CourseNames ["예술"; "문화"]))
            /\ status_r t = "OK".
Proof.
  split; [reflexivity|].
  apply (kept_iff_window_course_status (B := unit)). reflexivity.
Defined.

(** *** Names outside the course map *)

(** A name the course map does not know selects itself as a course code. *)
Lemma target_course_codes_unknown_name (name : string) :
  course_map !! name = None ->
  target_course_codes (CourseName name) = {[name]}
  /\ target_course_codes (CourseNames [name]) = {[name]}.
Proof.
  intros Hn. unfold target_course_codes; simpl. rewrite Hn; simpl.
  rewrite (left_id_L ∅ (∪)), (right_id_L ∅ (∪)). now split.
Qed.

(** Given as a one-element list, such a name lets through exactly the slots
    whose course code it is. *)
Lemma unknown_name_in_list_is_literal (s e name : string) (t : slot) :
  course_map !! name = None ->
  keeps s e (CourseNames [name]) t = true <->
    (s ≤ bk_time t)%string /\ (bk_time t ≤ e)%string
    /\ bk_cos t = name /\ status_r t = "OK".
Proof.
  intros Hn. rewrite keeps_spec by reflexivity.
  destruct (target_course_codes_unknown_name name Hn) as [_ ->].
  unfold course_list. split.
  - intros (H1 & H2 & [H3|H3] & H4).
    + apply list_elem_of_singleton in H3 as <-. discriminate Hn.
    + apply elem_of_singleton in H3. auto.
  - intros (H1 & H2 & H3 & H4). repeat split; auto.
    right. now apply elem_of_singleton.
Qed.

(** C10, at the failing input. The name "AllX" is outside the course map
    and the selected course set is {"AllX"}; given as a bare string it
    still lets a slot of course "B" through, because ["All" in "AllX"] is a
    substring test. *)
Theorem unknown_name_containing_All_admits_all :
  course_map !! "AllX" = None
  /\ target_course_codes (CourseName "AllX") = {["AllX"]}
  /\ bk_cos slot_0700_B <> "AllX"
  /\ exists w',
       filter_and_sort_times (B := unit) [slot_0700_B] "07:00" "08:00"
         (CourseName "AllX") false quiet_world = (Returns [slot_0700_B], w').
Proof.
  split; [reflexivity|]. split.
  { apply (target_course_codes_unknown_name "AllX"). reflexivity. }
  split; [discriminate|].
  eexists. vm_compute. reflexivity.
Qed.

(** ** Deduplication *)

Lemma keyed_keys (m : list (string * string * string * slot)) :
  keyed m -> m.*1 = time_key <$> m.*2.
Proof.
  induction 1 as [|[k v] m Hkv Hm IH]; csimpl in *; [reflexivity|].
  now f_equal.
Qed.

Lemma unique_step_keyed m t : keyed m -> keyed (unique_step m t).
Proof.
  intros Hm. unfold unique_step. case_bool_decide; [|exact Hm].
  apply Forall_app. split; [exact Hm|]. now repeat constructor.
Qed.

Lemma unique_step_NoDup m t : NoDup m.*1 -> NoDup (unique_step m t).*1.
Proof.
  intros Hm. unfold unique_step. case_bool_decide; [|exact Hm].
  rewrite fmap_app. apply NoDup_app. split; [exact Hm|]. split.
  - intros k Hk Hk'. apply list_elem_of_singleton in Hk'. simpl in Hk'. congruence.
  - apply NoDup_singleton.
Qed.

Lemma find_key_None_not_elem k (l : list slot) :
  List.find (has_key k) l = None -> k ∉ time_key <$> l.
Proof.
  intros Hf Hin. apply list_elem_of_fmap in Hin as (t & -> & Ht).
  apply list_elem_of_In in Ht.
  pose proof (find_none _ _ Hf t Ht) as Hk. unfold has_key in Hk.
  now apply bool_decide_eq_false in Hk.
Qed.

Lemma find_app {A} (f : A -> bool) (l1 l2 : list A) :
  List.find f (l1 ++ l2)
  = match List.find f l1 with Some a => Some a | None => List.find f l2 end.
Proof.
  induction l1 as [|a l1 IH]; simpl; [reflexivity|]. now destruct (f a).
Qed.

Lemma fold_unique_step_spec (l : list slot) :
  forall m, keyed m -> NoDup m.*1 ->
    let m' := fold_left unique_step l m in
    keyed m' /\ NoDup m'.*1 /\
    (forall k, List.find (has_key k) m'.*2
               = match List.find (has_key k) m.*2 with
                 | Some v => Some v
                 | None => List.find (has_key k) l
                 end) /\
    (forall u, u ∈ m'.*2 -> u ∈ m.*2 \/ u ∈ l).
Proof.
  induction l as [|t l IH]; intros m Hm Hnd; simpl.
  - repeat split; auto. intros k. now destruct (List.find _ _).
  - destruct (IH (unique_step m t) (unique_step_keyed m t Hm)
                (unique_step_NoDup m t Hnd)) as (Hk & Hn & Hfind & Hsub).
    repeat split; auto.
    + intros k. rewrite Hfind. unfold unique_step.
      case_bool_decide as Hin.
      * rewrite !fmap_app, find_app. simpl.
        destruct (List.find (has_key k) m.*2); [reflexivity|].
        now destruct (has_key k t).
      * destruct (List.find (has_key k) m.*2) eqn:Hf; [reflexivity|].
        destruct (has_key k t) eqn:Hkt; [|reflexivity].
        apply bool_decide_eq_true in Hkt. subst k.
        apply find_key_None_not_elem in Hf. rewrite <- keyed_keys in Hf by exact Hm.
        exfalso. exact (Hf Hin).
    + intros u Hu. apply Hsub in Hu as [Hu|Hu].
      * unfold unique_step in Hu. case_bool_decide.
        -- rewrite fmap_app in Hu. apply elem_of_app in Hu as [Hu|Hu]; [now left|].
           apply list_elem_of_singleton in Hu. simpl in Hu. subst u.
           right. apply list_elem_of_here.
        -- now left.
      * right. now apply list_elem_of_further.
Qed.

Lemma unique_times_spec (l : list slot) :
  NoDup (time_key <$> unique_times l)
  /\ (forall k, List.find (has_key k) (unique_times l) = List.find (has_key k) l)
  /\ (forall u, u ∈ unique_times l -> u ∈ l).
Proof.
  destruct (fold_unique_step_spec l [] (Forall_nil_2 _) (NoDup_nil_2))
    as (Hk & Hn & Hfind & Hsub).
  unfold unique_times, unique_times_map_of. fold unique_step.
  split; [|split].
  - now rewrite <- keyed_keys.
  - exact Hfind.
  - intros u Hu. apply Hsub in Hu as [Hu|Hu]; [|exact Hu]. now apply elem_of_nil in Hu.
Qed.

(** With distinct keys, the first entry of a key is the only one. *)
Lemma filter_key_singleton k (out : list slot) (t1 : slot) :
  NoDup (time_key <$> out) -> List.find (has_key k) out = Some t1 ->
  List.filter (has_key k) out = [t1].
Proof.
  induction out as [|u out IH]; simpl; [discriminate|].
  intros Hnd Hf. apply NoDup_cons in Hnd as [Hu Hnd].
  destruct (has_key k u) eqn:Hku.
  - injection Hf as ->. f_equal.
    apply bool_decide_eq_true in Hku. subst k.
    clear IH. induction out as [|v out IH]; simpl; [reflexivity|].
    rewrite fmap_cons in Hu, Hnd. apply not_elem_of_cons in Hu as [Hne Hu].
    apply NoDup_cons in Hnd as [_ Hnd].
    unfold has_key at 1. rewrite bool_decide_eq_false_2 by congruence.
    now apply IH.
  - now apply IH.
Qed.

(** C5. For every fetched slot sequence, duplicates included, the
    deduplication of [get_all_available_times] yields slots of pairwise
    distinct (time, course code, sub-round) keys, all taken from the input;
    and for each input slot the output holds exactly one entry of its key,
    which is the first input slot of that key, all fields included. *)
Theorem dedup_keeps_first_occurrence (all_fetched_times : list slot) :
  NoDup (time_key <$> unique_times all_fetched_times)
  /\ (forall u, u ∈ unique_times all_fetched_times -> u ∈ all_fetched_times)
  /\ forall t, t ∈ all_fetched_times ->
       exists first,
         List.find (has_key (time_key t)) all_fetched_times = Some first
         /\ List.filter (has_key (time_key t)) (unique_times all_fetched_times)
            = [first].
Proof.
  destruct (unique_times_spec all_fetched_times) as (Hnd & Hfind & Hsub).
  split; [exact Hnd|]. split; [exact Hsub|].
  intros t Ht.
  destruct (List.find (has_key (time_key t)) all_fetched_times) as [first|] eqn:Hf.
  - exists first. split; [reflexivity|].
    apply filter_key_singleton; [exact Hnd|]. now rewrite Hfind.
  - exfalso. apply list_elem_of_In in Ht.
    pose proof (find_none _ _ Hf t Ht) as Hk. unfold has_key in Hk.
    now apply bool_decide_eq_false in Hk.
Qed.

(** ** The tee-list fetch and its retries *)

Lemma requests_sent_app (tr1 tr2 : list event) :
  requests_sent (tr1 ++ tr2) = requests_sent tr1 + requests_sent tr2.
Proof.
  induction tr1 as [|[] tr1 IH]; simpl; auto.
Qed.

Lemma tee_rows_loop_Returns (co_div : string) (total_rows : list TeeRow.t)
    (times : list slot) :
  exists times', tee_rows_loop co_div total_rows times = Returns times'.
Proof.
  revert times. induction total_rows as [|t rest IH]; intros times; simpl.
  - now exists times.
  - rewrite format_time_for_api_eq. simpl.
    destruct (truthy _ && truthy_opt _); apply IH.
Qed.

(** One attempt of [_fetch_tee_list]: it never raises; when the stop event
    is set it returns the empty list without a request; otherwise it sends
    one request, and goes on to the next attempt exactly when the failure
    is transient. *)
Lemma fetch_attempt_spec (date cos : string) (max_retries attempt : nat)
    (w : world TeeBody.t) :
  exists c w',
    _fetch_tee_list_attempt date cos max_retries attempt w = (Returns c, w')
    /\ stop_reads w' = tail (stop_reads w)
    /\ if stop_set w
       then c = Return [] /\ requests_sent (trace w') = requests_sent (trace w)
       else requests_sent (trace w') = requests_sent (trace w) + 1
            /\ replies w' = tail (replies w)
            /\ (c = Next <-> tee_transient (head (replies w)) = true)
            /\ (tee_protocol_error (head (replies w)) = true -> c = Return []).
Proof.
  destruct w as [rs stops clk tr].
  unfold _fetch_tee_list_attempt, stop_set, bind, stop_event_is_set, try_except,
    session_request, json_loads; simpl.
  pose proof (fun rows => tee_rows_loop_Returns CO_DIV rows []) as Hrows.
  destruct stops as [|[] stops']; simpl;
    try (eexists _, _; split; [reflexivity|]; simpl; now auto);
    (destruct rs as [|[e|[d [data|]]] rs0]; simpl;
     [ | destruct e; simpl | destruct (tee_api_error data) eqn:Herr; simpl | ];
     try (destruct (Hrows (default [] (TeeBody.rows data))) as [times Ht];
          unfold lift, log_message, emit; simpl; rewrite Ht; simpl);
     (eexists _, _; split; [reflexivity|]; simpl;
      rewrite ?requests_sent_app; simpl; try rewrite Herr;
      repeat split; intros; try discriminate; auto; try lia)).
Qed.

Lemma never_stopped_stop_set {B} (w : world B) :
  never_stopped w = true -> stop_set w = false.
Proof.
  unfold never_stopped, stop_set. destruct (stop_reads w) as [|[] ?]; simpl; auto.
Qed.

Lemma never_stopped_tail {B} (w w' : world B) :
  never_stopped w = true -> stop_reads w' = tail (stop_reads w) ->
  never_stopped w' = true.
Proof.
  unfold never_stopped. intros H ->.
  destruct (stop_reads w) as [|b ?]; simpl in *; auto.
  now apply andb_prop in H as [_ H].
Qed.

(** [_fetch_tee_list] never raises. *)
Lemma fetch_attempts_Returns (date cos : string) (w : world TeeBody.t) :
  exists times w', _fetch_tee_list date cos 2 w = (Returns times, w').
Proof.
  unfold _fetch_tee_list, range. cbn [seq for_in].
  destruct (fetch_attempt_spec date cos 2 0 w) as (c1 & w1 & H1 & _).
  unfold bind at 1. unfold bind at 1. rewrite H1.
  destruct c1 as [| |times]; try (eexists _, _; reflexivity).
  destruct (fetch_attempt_spec date cos 2 1 w1) as (c2 & w2 & H2 & _).
  unfold bind at 1. rewrite H2.
  destruct c2; eexists _, _; reflexivity.
Qed.

(** C7. [_fetch_tee_list] with its budget of 2 attempts never raises and
    sends at most 2 requests. It sends a second request only after a
    transient failure of the first (a [requests] exception or a body that is
    not JSON), and then it does, unless stopped. When the first reply is a
    well-formed body whose [resultCode] is not "0000", it returns the empty
    list at once: one request, no retry. *)
Theorem fetch_retries_only_transient (date cos : string) (w : world TeeBody.t) :
  exists times w',
    _fetch_tee_list date cos 2 w = (Returns times, w')
    /\ requests_sent (trace w') <= requests_sent (trace w) + 2
    /\ (requests_sent (trace w') = requests_sent (trace w) + 2 ->
        tee_transient (head (replies w)) = true)
    /\ (never_stopped w = true -> tee_transient (head (replies w)) = true ->
        requests_sent (trace w') = requests_sent (trace w) + 2)
    /\ (stop_set w = false -> tee_protocol_error (head (replies w)) = true ->
        times = []
        /\ requests_sent (trace w') = requests_sent (trace w) + 1
        /\ replies w' = tail (replies w)).
Proof.
  unfold _fetch_tee_list, range. cbn [seq for_in].
  destruct (fetch_attempt_spec date cos 2 0 w) as (c1 & w1 & H1 & Hs1 & Hc1).
  unfold bind at 1. unfold bind at 1. rewrite H1.
  destruct (stop_set w) eqn:Hstop.
  - destruct Hc1 as [-> Hsent]. simpl. unfold bind, ret.
    eexists _, _. split; [reflexivity|]. simpl.
    repeat split; try lia; try discriminate.
    intros Hn. apply never_stopped_stop_set in Hn. congruence.
  - destruct Hc1 as (Hsent & Hrep & Hnext & Herr).
    destruct c1 as [| |times].
    + destruct (fetch_attempt_spec date cos 2 1 w1) as (c2 & w2 & H2 & Hs2 & Hc2).
      assert (Ht : tee_transient (head (replies w)) = true) by now apply Hnext.
      assert (Hne : tee_protocol_error (head (replies w)) = true -> False).
      { intros He. apply Herr in He. discriminate. }
      unfold bind at 1. rewrite H2.
      assert (Hfin : exists times w',
        (match c2 with
         | Next => ret None
         | Break => ret None
         | Return a => ret (Some a)
         end w2) = (Returns times, w') /\ w' = w2).
      { destruct c2; eexists _, _; split; reflexivity. }
      destruct Hfin as (r & w' & Hr & ->). rewrite Hr. unfold ret.
      eexists _, _. split; [reflexivity|]. simpl.
      destruct (stop_set w1) eqn:Hstop1.
      * destruct Hc2 as [_ Hsent2].
        repeat split; try lia; auto; try tauto.
        intros Hn _. apply (never_stopped_tail w w1) in Hn; [|exact Hs1].
        apply never_stopped_stop_set in Hn. congruence.
      * destruct Hc2 as (Hsent2 & _).
        repeat split; try lia; auto; tauto.
    + simpl. unfold bind, ret. eexists _, _. split; [reflexivity|]. simpl.
      assert (Ht : tee_transient (head (replies w)) = false).
      { destruct (tee_transient _); [|reflexivity].
        destruct Hnext as [_ Hn]. now specialize (Hn eq_refl). }
      repeat split; try lia; try congruence.
    + simpl. unfold bind, ret. eexists _, _. split; [reflexivity|]. simpl.
      assert (Ht : tee_transient (head (replies w)) = false).
      { destruct (tee_transient _); [|reflexivity].
        destruct Hnext as [_ Hn]. now specialize (Hn eq_refl). }
      repeat split; try lia; try congruence.
      match goal with He : tee_protocol_error _ = true |- _ => apply Herr in He end.
      congruence.
Qed.

(** ** The fetcher as a whole *)

Lemma _log_fetched_times_by_course_Returns {B} (all_times : list slot) (w : world B) :
  exists w', _log_fetched_times_by_course all_times w = (Returns tt, w').
Proof.
  unfold _log_fetched_times_by_course.
  set (grouped := fold_left _ all_times ∅).
  erewrite (bind_Returns _ _ w w); cycle 1.
  { apply lift_Returns.
    apply (map_outcome_Returns _
      (fun course_name =>
         match grouped !! course_name with
         | Some times =>
             [("[" +:+ course_name +:+ "] "
               +:+ String.concat ", "
                     (map (fun t => "'" +:+ display_form t +:+ "'")
                        (merge_sort String.le (elements times))))%string]
         | None => []
         end)).
    intros course_name. destruct (grouped !! course_name); [|reflexivity].
    erewrite (map_outcome_Returns _ (fun t => "'" +:+ display_form t +:+ "'"));
      [reflexivity|].
    intros t. now rewrite format_time_for_display_eq. }
  destruct (bool_decide _); [|now exists w].
  unfold bind at 1. unfold log_message at 1, emit at 1.
  apply for_each_Returns. intros msg w'. eexists. reflexivity.
Qed.

(** [get_all_available_times] never raises and returns the deduplication
    of what [_fetch_tee_list] fetched. *)
Lemma get_all_available_times_Returns (date : string) (w : world TeeBody.t) :
  exists w0 fetched w1 w',
    log_message (LogFetchStart date) w = (Returns tt, w0)
    /\ _fetch_tee_list date "All" 2 w0 = (Returns fetched, w1)
    /\ get_all_available_times date w = (Returns (unique_times fetched), w').
Proof.
  unfold get_all_available_times.
  destruct (log_message (LogFetchStart date) w) as [o w0] eqn:Hlog.
  assert (o = Returns tt) as -> by (unfold log_message, emit in Hlog; congruence).
  destruct (fetch_attempts_Returns date "All" w0) as (fetched & w1 & Hf).
  destruct (_log_fetched_times_by_course_Returns (unique_times fetched) w1)
    as [w2 H2].
  exists w0, fetched, w1. eexists. split; [reflexivity|]. split; [exact Hf|].
  rewrite (bind_Returns _ _ _ _ _ Hlog), (bind_Returns _ _ _ _ _ Hf),
    (bind_Returns _ _ _ _ _ H2).
  reflexivity.
Qed.

(** ** Clock skew *)

Section ClockSkewProperties.

Context {B : Type}.
Variable fsec : Type.
Variable total_seconds : timedelta -> fsec.
Variable timedelta_of_seconds : fsec -> timedelta.

Lemma failed_probe_step (max_retries attempt : nat) (w : world B) :
  probe_fails (head (replies w)) = true ->
  exists w',
    get_server_time_offset_attempt fsec total_seconds max_retries attempt w
    = (Returns Next, w')
    /\ replies w' = tail (replies w)
    /\ stop_reads w' = stop_reads w
    /\ clock w' = (clock w + 500000)%Z
    /\ requests_sent (trace w') = requests_sent (trace w) + 1.
Proof.
  destruct w as [rs stops clk tr].
  unfold get_server_time_offset_attempt, bind, try_except, session_request; simpl.
  destruct rs as [|[e|[[| |t] body]] rs0]; simpl; try discriminate.
  - intros _. eexists. split; [reflexivity|]. simpl.
    rewrite !requests_sent_app. simpl. repeat split; lia.
  - intros He. rewrite He. simpl. eexists. split; [reflexivity|]. simpl.
    rewrite !requests_sent_app. simpl. repeat split; lia.
  - intros _. eexists. split; [reflexivity|]. simpl.
    rewrite !requests_sent_app. simpl. repeat split; lia.
Qed.


Lemma failed_probes_loop (max_retries n : nat) :
  forall (a : nat) (w : world B),
    probes_fail n (replies w) = true ->
    exists w',
      for_in (seq a n)
        (get_server_time_offset_attempt fsec total_seconds max_retries) w
      = (Returns None, w')
      /\ requests_sent (trace w') = requests_sent (trace w) + n.
Proof.
  induction n as [|n IH]; intros a w Hfail; simpl in *.
  - exists w. split; [reflexivity|lia].
  - apply andb_prop in Hfail as [H0 Hrest].
    destruct (failed_probe_step max_retries a w H0)
      as (w1 & H1 & Hrs & _ & _ & Hsent).
    rewrite (bind_Returns _ _ _ _ _ H1).
    rewrite <- Hrs in Hrest. destruct (IH (S a) w1 Hrest) as (w' & Hw' & Hs').
    exists w'. split; [exact Hw'|lia].
Qed.


(** C8. When all 5 probes of a run of [get_server_time_offset] fail, each
    by a request error or by a response without a [Date] header, the
    function does not raise: it returns the offset [0], after 5 requests. *)
Theorem offset_zero_after_five_failed_probes (w : world B) :
  probes_fail 5 (replies w) = true ->
  exists w',
    get_server_time_offset fsec total_seconds w = (Returns (IntSeconds 0), w')
    /\ requests_sent (trace w') = requests_sent (trace w) + 5.
Proof.
  intros Hfail. unfold get_server_time_offset, range.
  unfold bind at 1. unfold log_message at 1, emit at 1.
  set (w0 := mkWorld _ _ _ _).
  destruct (failed_probes_loop 5 5 0 w0 Hfail) as (w1 & H1 & Hsent).
  rewrite (bind_Returns _ _ _ _ _ H1).
  eexists. split; [reflexivity|]. simpl.
  rewrite requests_sent_app, Hsent. unfold w0. simpl.
  rewrite requests_sent_app. simpl. lia.
Qed.






End ClockSkewProperties.

(** ** Seconds as floats *)

Section FloatSeconds.

Local Open Scope Z_scope.












End FloatSeconds.



(** ** The reservation attempt *)

Lemma has_marker_spec (data : jvalue) (key value : string) :
  has_marker data key value = true <-> contains_marker data key value.
Proof.
  unfold has_marker, contains_marker. split.
  - destruct data as [| | | | |d]; try discriminate.
    destruct (assoc key d) as [[| | |s| |]|] eqn:Ha; try discriminate.
    intros ->%String.eqb_eq. exists d. now split.
  - intros (d & -> & ->). apply String.eqb_refl.
Qed.

Lemma success_markedb_spec (data : jvalue) :
  success_markedb data = true <-> success_marked data.
Proof.
  unfold success_markedb, success_marked.
  rewrite !orb_true_iff, !has_marker_spec. tauto.
Qed.

Lemma eq_str_get (d : list (string * jvalue)) (key value : string) :
  eq_str (default JNull (assoc key d)) value = has_marker (JDict d) key value.
Proof.
  unfold has_marker. now destruct (assoc key d) as [[| | |s| |]|].
Qed.

Lemma reservation_succeeded_dict (d : list (string * jvalue)) :
  reservation_succeeded (JDict d) = Returns (success_markedb (JDict d)).
Proof.
  unfold reservation_succeeded, success_markedb, dict_get, bind_outcome.
  rewrite !eq_str_get.
  destruct (has_marker _ "resultCode" _); [reflexivity|].
  now destruct (has_marker _ "R" _).
Qed.

(** An attempt that gets a well-formed response decides by the markers. *)
Lemma reservation_attempt_answered (payload : list (string * option string))
    (course_name time_display : string) (max_retries attempt : nat)
    (w : world jvalue) (d : date_header) (data : jvalue) (rest : list (reply jvalue)) :
  stop_set w = false ->
  replies w = Answers (mkResponse d (Some data)) :: rest ->
  exists w',
    try_reservation_attempt payload course_name time_display max_retries attempt w
    = (Returns (Return (success_markedb data)), w')
    /\ requests_sent (trace w') = requests_sent (trace w) + 1.
Proof.
  destruct w as [rs stops clk tr]. unfold stop_set. simpl. intros Hstop ->.
  unfold try_reservation_attempt, bind, stop_event_is_set, try_except,
    session_request, res_json, lift, log_message, emit, time_sleep, ret; simpl.
  destruct stops as [|[] stops]; try discriminate; simpl;
    (destruct data as [| | | | |dict];
     [ | | | | | rewrite reservation_succeeded_dict;
                 destruct (success_markedb (JDict dict)) ]; simpl;
     eexists; (split; [reflexivity|]); simpl;
     rewrite !requests_sent_app; simpl; lia).
Qed.

(** A first attempt that fails transiently leads to the second. *)
Lemma reservation_attempt_retried (payload : list (string * option string))
    (course_name time_display : string) (w : world jvalue)
    (r : reply jvalue) (rest : list (reply jvalue)) :
  stop_set w = false ->
  replies w = r :: rest ->
  reservation_retried r = true ->
  exists w',
    try_reservation_attempt payload course_name time_display 2 0 w = (Returns Next, w')
    /\ replies w' = rest
    /\ stop_reads w' = tail (stop_reads w)
    /\ requests_sent (trace w') = requests_sent (trace w) + 1.
Proof.
  destruct w as [rs stops clk tr]. unfold stop_set. simpl. intros Hstop -> Hr.
  unfold try_reservation_attempt, bind, stop_event_is_set, try_except,
    session_request, res_json, lift, log_message, emit, time_sleep, ret, raise; simpl.
  destruct stops as [|[] stops]; try discriminate; simpl;
    (destruct r as [e|[dh [data|]]]; try discriminate;
     [destruct e; try discriminate|]; simpl;
     eexists; (split; [reflexivity|]); simpl;
     rewrite !requests_sent_app; simpl; repeat split; lia).
Qed.

(** C2. When the stop event is not set and [try_reservation] gets a
    well-formed (JSON) response, at its first attempt or at the second one
    after a transient failure, it returns [True] if and only if the response
    holds at least one of the three success markers: [resultCode] "0000",
    [R] "OK" or [status] "success". A response with [status] "success"
    alone is a success. *)
Theorem reservation_success_iff_marker (member_id : option string)
    (date course_code time_api : string) (w : world jvalue)
    (fails : list (reply jvalue)) (d : date_header) (data : jvalue)
    (rest : list (reply jvalue)) :
  never_stopped w = true ->
  replies w = fails ++ Answers (mkResponse d (Some data)) :: rest ->
  forallb reservation_retried fails = true ->
  length fails < 2 ->
  exists success w',
    try_reservation member_id date course_code time_api w = (Returns success, w')
    /\ (success = true <-> success_marked data).
Proof.
  intros Hns Hrs Hfails Hlen. unfold try_reservation.
  rewrite (bind_Returns _ _ w w _ (lift_Returns _ _ w (format_time_for_display_eq _))).
  unfold bind at 1. unfold log_message at 1, emit at 1.
  set (w0 := mkWorld _ _ _ _).
  assert (Hns0 : never_stopped w0 = true) by exact Hns.
  assert (Hrs0 : replies w0 = fails ++ Answers (mkResponse d (Some data)) :: rest)
    by exact Hrs.
  clearbody w0. unfold range. cbn [seq for_in].
  set (payload := reservation_payload _ _ _ _).
  set (course_name := default _ _).
  exists (success_markedb data).
  destruct fails as [|r [|? ?]]; cbn [length app forallb] in *; [| |lia].
  - destruct (reservation_attempt_answered payload course_name
                (display_form time_api) 2 0 w0 d data rest
                (never_stopped_stop_set _ Hns0) Hrs0) as (w1 & H1 & _).
    unfold bind at 1. unfold bind at 1. rewrite H1. unfold ret.
    eexists. split; [reflexivity|]. apply success_markedb_spec.
  - apply andb_prop in Hfails as [Hr _].
    destruct (reservation_attempt_retried payload course_name
                (display_form time_api) w0 r _
                (never_stopped_stop_set _ Hns0) Hrs0 Hr) as (w1 & H1 & Hrs1 & Hst1 & _).
    unfold bind at 1. unfold bind at 1. rewrite H1.
    destruct (reservation_attempt_answered payload course_name
                (display_form time_api) 2 1 w1 d data rest
                (never_stopped_stop_set _ (never_stopped_tail _ _ Hns0 Hst1)) Hrs1)
      as (w2 & H2 & _).
    unfold bind at 1. rewrite H2. unfold ret.
    eexists. split; [reflexivity|]. apply success_markedb_spec.
Qed.

Lemma reservation_success_iff_marker_witness :
  exists success w',
    try_reservation (Some "member") "20250101" "A" "0700"
      (mkWorld [Fails Timeout;
                Answers (mkResponse NoDate (Some (JDict [("status", JStr "success")])))]
         [] 0%Z [])
    = (Returns success, w')
    /\ (success = true <-> success_marked (JDict [("status", JStr "success")])).
Proof.
  apply (reservation_success_iff_marker _ _ _ _ _ [Fails Timeout] NoDate _ []);
    [reflexivity | reflexivity | reflexivity | simpl; lia].
Defined.

(** ** The dry run *)

(** In a dry run with at least one candidate, [run_api_booking] sends no
    request, logs the first candidate as a preview and returns [True]. *)
Lemma dry_run_previews_first_candidate (member_id : option string) (inputs : inputs)
    (first : slot) (others : list slot) (w : world jvalue) :
  default true (test_mode inputs) = true ->
  run_api_booking member_id inputs (first :: others) w
  = (Returns true,
     mkWorld (replies w) (stop_reads w) (clock w)
       ((trace w ++ [Logged (LogAttemptingTop (min 5 (S (length others))))])
        ++ [Logged (LogTestModePreview
                      (display_form (bk_time first) +:+ " (" +:+ course_nm first
                       +:+ ")"))])).
Proof.
  intros Htest. unfold run_api_booking.
  rewrite bool_decide_eq_false_2 by discriminate. rewrite Htest.
  unfold bind, log_message, emit, lift, ret. simpl.
  now rewrite format_time_for_display_eq.
Qed.

(** C3, at the failing input. With the dry-run flag set and no candidate,
    [run_api_booking] sends no request but returns [False], after the log
    line of the aborted booking: the test at the head of the function
    returns before the dry-run branch, whose own answer for the empty list,
    [True], is never reached. *)
Theorem dry_run_without_candidates_returns_False (member_id : option string)
    (target_date : string) (w : world jvalue) :
  run_api_booking member_id (mkInputs target_date (Some true)) [] w
  = (Returns false,
     mkWorld (replies w) (stop_reads w) (clock w) (trace w ++ [Logged LogNoCandidates])).
Proof. reflexivity. Qed.

(** ** Witnesses and the scenarios of the specification *)

Lemma offset_zero_after_five_failed_probes_witness :
  probes_fail 5
    (replies (mkWorld (B := unit)
       [Fails Timeout; Answers (mkResponse NoDate None); Fails RequestException;
        Answers (mkResponse NoDate (Some tt)); Fails InvalidJSON] [] 0%Z [])) = true
  /\ exists w',
       get_server_time_offset Z (fun d => d)
         (mkWorld (B := unit)
            [Fails Timeout; Answers (mkResponse NoDate None); Fails RequestException;
             Answers (mkResponse NoDate (Some tt)); Fails InvalidJSON] [] 0%Z [])
       = (Returns (IntSeconds 0), w')
       /\ requests_sent (trace w') = 0 + 5.
Proof.
  split; [reflexivity|].
  apply (offset_zero_after_five_failed_probes Z (fun d => d)
           (mkWorld (B := unit) _ [] 0%Z [])).
  reflexivity.
Defined.


(** Scenario: three fetched slots, the first twice, window 07:00 to 08:00,
    every course, ascending. *)
Example scenario_ascending :
  exists w',
    filter_and_sort_times (B := unit)
      (unique_times [slot_0700_A; slot_0700_A; slot_0730_C])
      "07:00" "08:00" (CourseNames ["예술"; "문화"]) false quiet_world
    = (Returns [slot_0700_A; slot_0730_C], w').
Proof. eexists. vm_compute. reflexivity. Qed.

(** Scenario: the same, descending. *)
Example scenario_descending :
  exists w',
    filter_and_sort_times (B := unit)
      (unique_times [slot_0700_A; slot_0700_A; slot_0730_C])
      "07:00" "08:00" (CourseNames ["예술"; "문화"]) true quiet_world
    = (Returns [slot_0730_C; slot_0700_A], w').
Proof. eexists. vm_compute. reflexivity. Qed.

(** Scenario: a slot that is not bookable is left out, and logged. *)
Example scenario_not_bookable :
  filter_and_sort_times (B := unit) [slot_0700_A_closed; slot_0730_C]
    "07:00" "08:00" (CourseName "All") false quiet_world
  = (Returns [slot_0730_C],
     mkWorld [] [] 0%Z
       [Logged (LogExcluded "예술OUT" "07:00" "X");
        Logged (LogFilterDone false 1);
        Logged LogTop5Header;
        Logged (LogRank 1 "07:30 (문화OUT)")]).
Proof. vm_compute. reflexivity. Qed.

(** Scenario: the fetch of a body with two rows and a repeated key. *)
Example scenario_fetch :
  exists w',
    get_all_available_times "20250101"
      (mkWorld
         [Fails Timeout;
          Answers (mkResponse NoDate (Some (TeeBody.mk (Some "0000") None (Some
            [TeeRow.mk (Some "07:00") (Some "A") None (Some "OK");
             TeeRow.mk (Some "0700") (Some "A") (Some "1") (Some "X");
             TeeRow.mk (Some "730") (Some "D") None None;
             TeeRow.mk (Some "0800") None None (Some "OK")]))))]
         [] 0%Z [])
    = (Returns [slot_0700_A; mkSlot "0730" "D" "2" "문화IN" "204" "N/A"], w').
Proof. eexists. vm_compute. reflexivity. Qed.

(** * Further properties of the code *)

(** ** Time strings *)

Lemma normalized_encode_decimals (s : list Z) :
  forallb PyStr.is_decimal s = true -> normalized (PyStr.encode s) = s.
Proof.
  intros H. unfold normalized, PyStr.strip.
  rewrite (decode_encode s (decimals_code_points s H)).
  now rewrite (decimals_lstrip s H), (decimals_rstrip s H), (decimals_replace_colon s H).
Qed.

Lemma api_form_decimals (time_str : string) :
  exists s, api_form time_str = PyStr.encode s /\ decimals 4 s = true.
Proof.
  unfold api_form. cbv zeta.
  destruct (decimals 4 (normalized time_str)) eqn:H4; [now eexists|].
  destruct (decimals 3 (normalized time_str)) eqn:H3.
  - eexists. split; [reflexivity|].
    unfold decimals in *. apply andb_prop in H3 as [Hl Hd].
    apply Nat.eqb_eq in Hl. simpl. now rewrite Hl, Hd.
  - exists (PyStr.decode "0000"). split; reflexivity.
Qed.

Lemma api_form_encode_decimals (s : list Z) :
  decimals 4 s = true -> api_form (PyStr.encode s) = PyStr.encode s.
Proof.
  intros H. unfold api_form. cbv zeta.
  assert (Hd : forallb PyStr.is_decimal s = true)
    by (unfold decimals in H; now apply andb_prop in H as [_ ?]).
  now rewrite (normalized_encode_decimals s Hd), H.
Qed.

(** The result of [format_time_for_api] is made of four decimal digits. *)
Lemma api_form_four_decimals (time_str : string) :
  decimals 4 (PyStr.decode (api_form time_str)) = true.
Proof.
  destruct (api_form_decimals time_str) as (s & -> & Hs).
  assert (Hd : forallb PyStr.is_decimal s = true)
    by (unfold decimals in Hs; now apply andb_prop in Hs as [_ ?]).
  now rewrite (decode_encode s (decimals_code_points s Hd)).
Qed.

(** X1. Whatever its argument, [format_time_for_api] returns a string of
    exactly four decimal digits (of any script: the digits [\d] matches):
    the slot times and the window bounds that [filter_and_sort_times]
    compares as strings all have that one shape. *)
Theorem format_time_for_api_four_digits (time_str : string) :
  exists v,
    format_time_for_api time_str = Returns v
    /\ decimals 4 (PyStr.decode v) = true.
Proof.
  exists (api_form time_str). split; [apply format_time_for_api_eq|].
  apply api_form_four_decimals.
Qed.

(** X2. [format_time_for_api] is idempotent: applied to its own result it
    returns that result unchanged. *)
Theorem format_time_for_api_idempotent (time_str : string) :
  exists v,
    format_time_for_api time_str = Returns v
    /\ format_time_for_api v = Returns v.
Proof.
  exists (api_form time_str). split; [apply format_time_for_api_eq|].
  rewrite format_time_for_api_eq. f_equal.
  destruct (api_form_decimals time_str) as (s & -> & Hs).
  now apply api_form_encode_decimals.
Qed.

Lemma ascii_decimal (c : ascii) :
  PyStr.is_decimal (PyStr.ord c) = true -> (PyStr.ord c < 128)%Z.
Proof.
  intros Hc.
  pose proof (decimal_forall (fun c => (c <? 128) || (256 <=? c))%Z
                ltac:(vm_compute; reflexivity) _ Hc) as H.
  pose proof (ord_range c).
  apply orb_prop in H as [H|H]; [apply Z.ltb_lt in H|apply Z.leb_le in H]; lia.
Qed.

Lemma decode_ascii (c : ascii) (s : string) :
  (PyStr.ord c < 128)%Z -> PyStr.decode (String c s) = PyStr.ord c :: PyStr.decode s.
Proof.
  intros H. cbn [PyStr.decode]. now destruct (Z.ltb_spec (PyStr.ord c) 128); [|lia].
Qed.

Lemma encode_ascii (c : ascii) (s : list Z) :
  (PyStr.ord c < 128)%Z -> PyStr.encode (PyStr.ord c :: s) = String c (PyStr.encode s).
Proof.
  intros H. cbn [PyStr.encode]. unfold PyStr.encode_char.
  destruct (Z.ltb_spec (PyStr.ord c) 128); [|lia].
  now rewrite byte_ord.
Qed.

Lemma ascii_digits_decode (s : string) :
  ascii_digits s = true ->
  forallb PyStr.is_decimal (PyStr.decode s) = true
  /\ length (PyStr.decode s) = String.length s
  /\ PyStr.encode (PyStr.decode s) = s.
Proof.
  induction s as [|c s IH]; simpl ascii_digits; intros H; [now repeat split|].
  apply andb_prop in H as [Hc Hs]. destruct (IH Hs) as (Hd & Hl & He).
  pose proof (ascii_decimal c Hc) as H128.
  rewrite (decode_ascii c s H128). simpl forallb. simpl length.
  rewrite Hc, Hd, Hl, (encode_ascii c _ H128), He. now repeat split.
Qed.

(** X3. Round trip of a 4-digit time: [format_time_for_display] turns HHMM
    into the 5-character HH:MM, [format_time_for_api] turns that back into
    the same HHMM, and displaying the displayed form again changes nothing. *)
Theorem display_api_round_trip (t : string) :
  numeric 4 t = true ->
  exists d,
    format_time_for_display t = Returns d
    /\ String.length d = 5
    /\ String.get 2 d = Some ":"%char
    /\ format_time_for_api d = Returns t
    /\ format_time_for_display d = Returns d.
Proof.
  intros H. unfold numeric in H. apply andb_prop in H as [Hlen Hdig].
  apply Nat.eqb_eq in Hlen.
  destruct t as [|c1 [|c2 [|c3 [|c4 [|? ?]]]]]; try discriminate Hlen. clear Hlen.
  simpl in Hdig.
  apply andb_prop in Hdig as [H1 Hdig]. apply andb_prop in Hdig as [H2 Hdig].
  apply andb_prop in Hdig as [H3 Hdig]. apply andb_prop in Hdig as [H4 _].
  pose proof (ascii_decimal _ H1) as A1. pose proof (ascii_decimal _ H2) as A2.
  pose proof (ascii_decimal _ H3) as A3. pose proof (ascii_decimal _ H4) as A4.
  set (t := String c1 (String c2 (String c3 (String c4 "")))).
  set (d := String c1 (String c2 (String ":" (String c3 (String c4 ""))))).
  assert (Hnt : normalized t = [PyStr.ord c1; PyStr.ord c2; PyStr.ord c3; PyStr.ord c4]).
  { unfold normalized, PyStr.strip, t.
    rewrite !decode_ascii by assumption. cbn [PyStr.decode].
    cbn [PyStr.lstrip]. rewrite (is_decimal_not_space _ H1).
    cbn [PyStr.rstrip]. rewrite (is_decimal_not_space _ H4).
    cbn [PyStr.replace].
    now rewrite !is_decimal_not_colon by assumption. }
  assert (Hnd : normalized d = [PyStr.ord c1; PyStr.ord c2; PyStr.ord c3; PyStr.ord c4]).
  { unfold normalized, PyStr.strip, d.
    rewrite !decode_ascii by first [assumption | reflexivity]. cbn [PyStr.decode].
    cbn [PyStr.lstrip]. rewrite (is_decimal_not_space _ H1).
    cbn [PyStr.rstrip]. rewrite (is_decimal_not_space _ H4).
    cbn [PyStr.replace]. rewrite Z.eqb_refl.
    now rewrite !is_decimal_not_colon by assumption. }
  assert (Hdec : decimals 4 [PyStr.ord c1; PyStr.ord c2; PyStr.ord c3; PyStr.ord c4] = true).
  { unfold decimals. simpl. now rewrite H1, H2, H3, H4. }
  assert (Hshow : PyStr.encode
            (PyStr.slice_to 2 [PyStr.ord c1; PyStr.ord c2; PyStr.ord c3; PyStr.ord c4]
             ++ [PyStr.ord ":"]
             ++ PyStr.slice_from 2 [PyStr.ord c1; PyStr.ord c2; PyStr.ord c3; PyStr.ord c4])
          = d).
  { cbn [PyStr.slice_to PyStr.slice_from take drop app].
    rewrite !encode_ascii by first [assumption | reflexivity]. reflexivity. }
  exists d. rewrite !format_time_for_display_eq, format_time_for_api_eq.
  unfold display_form, api_form. cbv zeta. rewrite Hnt, Hnd, Hdec, Hshow.
  repeat split.
  rewrite !encode_ascii by assumption. reflexivity.
Qed.

Lemma display_api_round_trip_witness :
  numeric 4 "0730" = true
  /\ exists d,
       format_time_for_display "0730" = Returns d
       /\ String.length d = 5
       /\ String.get 2 d = Some ":"%char
       /\ format_time_for_api d = Returns "0730"
       /\ format_time_for_display d = Returns d.
Proof.
  split; [reflexivity|]. apply (display_api_round_trip "0730"). reflexivity.
Defined.

(** ** Computations that only log *)

Lemma only_logged_refl {B} (w : world B) : only_logged w w.
Proof. now repeat split. Qed.

Lemma only_logged_trans {B} (w1 w2 w3 : world B) :
  only_logged w1 w2 -> only_logged w2 w3 -> only_logged w1 w3.
Proof.
  intros (H1 & H2 & H3 & H4) (H1' & H2' & H3' & H4').
  repeat split; congruence.
Qed.

Lemma logs_ret {B A} (a : A) (w : world B) : logs_and_returns (ret a) w a.
Proof. exists w. split; [reflexivity|apply only_logged_refl]. Qed.

Lemma logs_lift {B A} (o : outcome A) (a : A) (w : world B) :
  o = Returns a -> logs_and_returns (lift o) w a.
Proof. intros ->. exists w. split; [reflexivity|apply only_logged_refl]. Qed.

Lemma logs_log_message {B} (l : log_line) (w : world B) :
  logs_and_returns (log_message l) w tt.
Proof.
  eexists. split; [reflexivity|]. repeat split; simpl.
  rewrite requests_sent_app. simpl. lia.
Qed.

Lemma logs_bind {B A A'} (m : M B A) (k : A -> M B A') (w : world B) (a : A) (b : A') :
  logs_and_returns m w a ->
  (forall w', logs_and_returns (k a) w' b) ->
  logs_and_returns (bind m k) w b.
Proof.
  intros (w1 & H1 & Hq1) Hk. destruct (Hk w1) as (w2 & H2 & Hq2).
  exists w2. split; [now rewrite (bind_Returns _ _ _ _ _ H1)|].
  now apply (only_logged_trans w w1 w2).
Qed.

Lemma logs_for_each {B X} (xs : list X) (body : X -> M B unit) :
  (forall x w, logs_and_returns (body x) w tt) ->
  forall w, logs_and_returns (for_each xs body) w tt.
Proof.
  intros Hbody. induction xs as [|x xs IH]; intros w; simpl.
  - apply logs_ret.
  - eapply logs_bind; [apply Hbody|]. intros w'. apply IH.
Qed.

Lemma logs_filter_loop {B} (s e : string) (tc : course_names)
    (all_times : list slot) :
  forall (acc : list slot) (w : world B),
    logs_and_returns
      (for_fold all_times (filter_step s e tc (target_course_codes tc)) acc) w
      (acc ++ List.filter (keeps s e tc) all_times).
Proof.
  induction all_times as [|t rest IH]; intros acc w; simpl.
  - rewrite app_nil_r. apply logs_ret.
  - assert (Hstep : logs_and_returns
              (filter_step s e tc (target_course_codes tc) acc t) w
              (if keeps s e tc t then acc ++ [t] else acc)).
    { unfold filter_step, keeps.
      destruct (String.leb s (bk_time t) && String.leb (bk_time t) e); simpl;
        [|apply logs_ret].
      destruct (All_in tc || bool_decide (bk_cos t ∈ target_course_codes tc)); simpl;
        [|apply logs_ret].
      destruct (String.eqb (status_r t) "OK"); simpl; [apply logs_ret|].
      eapply logs_bind; [apply logs_lift, format_time_for_display_eq|].
      intros w1. eapply logs_bind; [apply logs_log_message|].
      intros w2. apply logs_ret. }
    eapply logs_bind; [exact Hstep|]. intros w'.
    destruct (keeps s e tc t).
    + replace (acc ++ t :: List.filter (keeps s e tc) rest)
        with ((acc ++ [t]) ++ List.filter (keeps s e tc) rest)
        by now rewrite <- app_assoc.
      apply IH.
    + apply IH.
Qed.

Lemma logs_filter_and_sort_times {B} (all_times : list slot)
    (start_time_str end_time_str : string) (tc : course_names) (is_reverse : bool)
    (w : world B) :
  logs_and_returns
    (filter_and_sort_times all_times start_time_str end_time_str tc is_reverse) w
    (list_sort tuple_lt sort_key is_reverse
       (List.filter (keeps (api_form start_time_str) (api_form end_time_str) tc)
          all_times)).
Proof.
  unfold filter_and_sort_times.
  eapply logs_bind; [apply logs_lift, format_time_for_api_eq|]. intros w1.
  eapply logs_bind; [apply logs_lift, format_time_for_api_eq|]. intros w2.
  eapply logs_bind; [apply (logs_filter_loop _ _ _ _ [])|]. intros w3. simpl app.
  eapply logs_bind.
  { apply logs_lift.
    apply (map_outcome_Returns _
             (fun t => display_form (bk_time t) +:+ " (" +:+ course_nm t +:+ ")")).
    intros t. now rewrite format_time_for_display_eq. }
  intros w4. eapply logs_bind; [apply logs_log_message|]. intros w5.
  eapply logs_bind; [|intros w6; apply logs_ret].
  destruct (bool_decide _); [|apply logs_ret].
  eapply logs_bind; [apply logs_log_message|]. intros w6.
  apply logs_for_each. intros [i ts] w7. apply logs_log_message.
Qed.

(** X4. [filter_and_sort_times] touches nothing but the log: it never
    raises, sends no request, consumes no reply, takes no sleep and does not
    read the stop event. *)
Theorem filter_and_sort_times_only_logs {B} (all_times : list slot)
    (start_time_str end_time_str : string) (tc : course_names) (is_reverse : bool)
    (w : world B) :
  exists out w',
    filter_and_sort_times all_times start_time_str end_time_str tc is_reverse w
    = (Returns out, w')
    /\ replies w' = replies w
    /\ stop_reads w' = stop_reads w
    /\ clock w' = clock w
    /\ requests_sent (trace w') = requests_sent (trace w).
Proof.
  destruct (logs_filter_and_sort_times all_times start_time_str end_time_str tc
              is_reverse w) as (w' & Hrun & Hq).
  eexists _, w'. split; [exact Hrun|exact Hq].
Qed.

(** X5. Ranking loses and duplicates nothing: the output of
    [filter_and_sort_times] is a permutation of the input slots that pass
    its test, so every kept slot appears as often as in the input. *)
Theorem filter_and_sort_times_permutes_kept {B} (all_times : list slot)
    (start_time_str end_time_str : string) (tc : course_names) (is_reverse : bool)
    (w : world B) :
  exists out w',
    filter_and_sort_times all_times start_time_str end_time_str tc is_reverse w
    = (Returns out, w')
    /\ out ≡ₚ List.filter
               (keeps (api_form start_time_str) (api_form end_time_str) tc) all_times
    /\ length out <= length all_times.
Proof.
  destruct (logs_filter_and_sort_times all_times start_time_str end_time_str tc
              is_reverse w) as (w' & Hrun & _).
  eexists _, w'. split; [exact Hrun|].
  split; [apply list_sort_Permutation|].
  rewrite list_sort_Permutation. apply filter_length_le.
Qed.

(** *** Filtering twice *)

Section SortingSorted.

Context {A K : Type} (lt : K -> K -> bool) (key : A -> K) (le : relation A).
Hypothesis le_not_lt : forall x y, le x y -> lt (key y) (key x) = false.

Lemma stable_sort_sorted_id (l : list A) :
  StronglySorted le l -> stable_sort lt key l = l.
Proof.
  induction 1 as [|x l Hl IH Hx]; simpl; [reflexivity|].
  fold (stable_sort lt key l). rewrite IH.
  destruct l as [|y l']; simpl; [reflexivity|].
  apply Forall_cons in Hx as [Hxy _]. now rewrite (le_not_lt x y Hxy).
Qed.

End SortingSorted.

Lemma slot_le_not_lt (x y : slot) :
  slot_le x y -> tuple_lt (sort_key y) (sort_key x) = false.
Proof.
  intros [Ht Hc]. unfold tuple_lt, sort_key; simpl. rewrite !ltb_leb.
  apply string_le_leb in Ht. rewrite Ht. simpl.
  destruct (String.eqb (bk_time y) (bk_time x)) eqn:Heq; [|reflexivity].
  apply String.eqb_eq in Heq. symmetry in Heq.
  specialize (Hc Heq). apply string_le_leb in Hc. now rewrite Hc.
Qed.

Lemma list_sort_slots_idempotent (is_reverse : bool) (l : list slot) :
  list_sort tuple_lt sort_key is_reverse (list_sort tuple_lt sort_key is_reverse l)
  = list_sort tuple_lt sort_key is_reverse l.
Proof.
  assert (Hid : forall l0 : list slot,
    stable_sort tuple_lt sort_key (stable_sort tuple_lt sort_key l0)
    = stable_sort tuple_lt sort_key l0).
  { intros l0. apply (stable_sort_sorted_id _ _ slot_le slot_le_not_lt).
    apply stable_sort_sorted;
      eauto using tuple_lt_false, tuple_lt_true with typeclass_instances. }
  destruct is_reverse; simpl; [|apply Hid].
  now rewrite reverse_involutive, Hid.
Qed.

Lemma filter_all_kept {A} (f : A -> bool) (l : list A) :
  (forall x, x ∈ l -> f x = true) -> List.filter f l = l.
Proof.
  induction l as [|x l IH]; intros H; simpl; [reflexivity|].
  rewrite (H x) by apply list_elem_of_here.
  f_equal. apply IH. intros y Hy. apply H. now apply list_elem_of_further.
Qed.

(** X6. Filtering is idempotent: [filter_and_sort_times] applied, with the
    same window, course filter and direction, to its own output returns
    that output unchanged. *)
Theorem filter_and_sort_times_idempotent {B} (all_times : list slot)
    (start_time_str end_time_str : string) (tc : course_names) (is_reverse : bool)
    (w1 w2 : world B) :
  exists out w1' w2',
    filter_and_sort_times all_times start_time_str end_time_str tc is_reverse w1
    = (Returns out, w1')
    /\ filter_and_sort_times out start_time_str end_time_str tc is_reverse w2
       = (Returns out, w2').
Proof.
  destruct (logs_filter_and_sort_times all_times start_time_str end_time_str tc
              is_reverse w1) as (w1' & Hrun1 & _).
  set (kept := List.filter _ all_times) in Hrun1.
  set (out := list_sort tuple_lt sort_key is_reverse kept) in Hrun1.
  destruct (logs_filter_and_sort_times out start_time_str end_time_str tc
              is_reverse w2) as (w2' & Hrun2 & _).
  exists out, w1', w2'. split; [exact Hrun1|].
  rewrite Hrun2. do 2 f_equal.
  rewrite filter_all_kept; [apply list_sort_slots_idempotent|].
  intros x Hx. unfold out in Hx. rewrite list_sort_Permutation in Hx.
  unfold kept in Hx. apply list_elem_of_In, filter_In in Hx. apply Hx.
Qed.

(** X7. An inverted window keeps nothing: when the normalized end time is
    before the normalized start time, the output is empty whatever the slots,
    the course filter and the direction. *)
Theorem inverted_window_keeps_nothing {B} (all_times : list slot)
    (start_time_str end_time_str : string) (tc : course_names) (is_reverse : bool)
    (w : world B) :
  String.ltb (api_form end_time_str) (api_form start_time_str) = true ->
  exists w',
    filter_and_sort_times all_times start_time_str end_time_str tc is_reverse w
    = (Returns [], w').
Proof.
  intros Hinv.
  assert (Hnone : List.filter
            (keeps (api_form start_time_str) (api_form end_time_str) tc) all_times = []).
  { induction all_times as [|t rest IH]; simpl; [reflexivity|].
    rewrite IH. unfold keeps.
    destruct (String.leb (api_form start_time_str) (bk_time t)) eqn:H1;
      [|reflexivity].
    destruct (String.leb (bk_time t) (api_form end_time_str)) eqn:H2;
      [|reflexivity].
    exfalso. rewrite ltb_leb in Hinv. apply negb_true_iff in Hinv.
    apply string_le_leb in H1. apply string_le_leb in H2.
    assert (Hse : (api_form start_time_str ≤ api_form end_time_str)%string)
      by now transitivity (bk_time t).
    apply string_le_leb in Hse. congruence. }
  destruct (logs_filter_and_sort_times all_times start_time_str end_time_str tc
              is_reverse w) as (w' & Hrun & _).
  exists w'. rewrite Hrun, Hnone. now destruct is_reverse.
Qed.

Lemma inverted_window_keeps_nothing_witness :
  String.ltb (api_form "07:00") (api_form "09:00") = true
  /\ exists w',
       filter_and_sort_times (B := unit) [slot_0700_A; slot_0730_C] "09:00" "07:00"
         (CourseNames ["All"]) false quiet_world = (Returns [], w').
Proof.
  split; [reflexivity|].
  apply (inverted_window_keeps_nothing (B := unit)). reflexivity.
Defined.

(** ** Deduplication, further *)

Lemma fold_unique_step_distinct (l : list slot) :
  forall m, keyed m -> NoDup (m.*1 ++ (time_key <$> l)) ->
    (fold_left unique_step l m).*2 = m.*2 ++ l.
Proof.
  induction l as [|t l IH]; intros m Hm Hnd; simpl.
  - now rewrite app_nil_r.
  - assert (Hfresh : time_key t ∉ m.*1).
    { apply NoDup_app in Hnd as (_ & Hdisj & _).
      intros Hin. apply (Hdisj _ Hin). rewrite fmap_cons. apply list_elem_of_here. }
    assert (Hstep : unique_step m t = m ++ [(time_key t, t)]).
    { unfold unique_step. now rewrite bool_decide_eq_true_2. }
    rewrite Hstep, IH.
    + rewrite fmap_app. simpl. now rewrite <- app_assoc.
    + rewrite <- Hstep. now apply unique_step_keyed.
    + rewrite fmap_app. simpl. rewrite <- app_assoc. exact Hnd.
Qed.

Lemma fold_unique_step_sublist (l : list slot) :
  forall m, exists l',
    (fold_left unique_step l m).*2 = m.*2 ++ l' /\ l' `sublist_of` l.
Proof.
  induction l as [|t l IH]; intros m; simpl.
  - exists []. now rewrite app_nil_r.
  - destruct (IH (unique_step m t)) as (l' & Heq & Hsub). rewrite Heq.
    unfold unique_step. case_bool_decide.
    + exists (t :: l'). rewrite fmap_app. simpl. rewrite <- app_assoc.
      split; [reflexivity|]. now apply sublist_skip.
    + exists l'. split; [reflexivity|]. now apply sublist_cons.
Qed.

(** X8. The deduplication of [get_all_available_times] keeps the input
    order (its result is a sublist of its argument), leaves a list of
    pairwise distinct keys as it is, and is therefore idempotent. *)
Theorem dedup_order_and_idempotence (all_fetched_times : list slot) :
  unique_times all_fetched_times `sublist_of` all_fetched_times
  /\ (NoDup (time_key <$> all_fetched_times) ->
      unique_times all_fetched_times = all_fetched_times)
  /\ unique_times (unique_times all_fetched_times) = unique_times all_fetched_times.
Proof.
  assert (Hid : forall l, NoDup (time_key <$> l) -> unique_times l = l).
  { intros l Hnd. unfold unique_times, unique_times_map_of.
    now rewrite (fold_unique_step_distinct l [] (Forall_nil_2 _) Hnd). }
  split; [|split].
  - unfold unique_times, unique_times_map_of.
    destruct (fold_unique_step_sublist all_fetched_times []) as (l' & -> & Hsub).
    exact Hsub.
  - apply Hid.
  - apply Hid. apply unique_times_spec.
Qed.

(** ** What the fetcher builds *)

Lemma tee_rows_loop_well_formed (total_rows : list TeeRow.t) :
  forall times,
    Forall well_formed_slot times ->
    exists times',
      tee_rows_loop CO_DIV total_rows times = Returns times'
      /\ Forall well_formed_slot times'
      /\ length times' <= length times + length total_rows.
Proof.
  induction total_rows as [|t rest IH]; intros times Hwf; simpl.
  - exists times. repeat split; [exact Hwf|lia].
  - rewrite format_time_for_api_eq. simpl.
    destruct (truthy (api_form (py_str (TeeRow.BK_TIME t)))
              && truthy_opt (TeeRow.BK_COS t)) eqn:Hok.
    + apply andb_prop in Hok as [_ Hcos].
      destruct (TeeRow.BK_COS t) as [c|] eqn:Hc; [|discriminate].
      destruct (IH (times ++
        [mkSlot (api_form (py_str (TeeRow.BK_TIME t))) (default "" (Some c))
           (default (if bool_decide (Some c ∈ [Some "A"; Some "C"]) then "1" else "2")
              (TeeRow.BK_PART t))
           (default "Unknown" (Some c ≫= (course_detail_mapping !!.)))
           CO_DIV (default "N/A" (TeeRow.R t))]))
        as (times' & Hrun & Hwf' & Hlen).
      { apply Forall_app. split; [exact Hwf|]. constructor; [|constructor].
        repeat split; simpl.
        - apply api_form_four_decimals.
        - intros ->. discriminate Hcos. }
      exists times'. split; [exact Hrun|]. split; [exact Hwf'|].
      rewrite length_app in Hlen. simpl in Hlen. lia.
    + destruct (IH times Hwf) as (times' & Hrun & Hwf' & Hlen).
      exists times'. split; [exact Hrun|]. split; [exact Hwf'|]. lia.
Qed.

(** One attempt of the fetch, once more: at most one request, and slots
    that are well formed. *)
Lemma fetch_attempt_well_formed (date cos : string) (max_retries attempt : nat)
    (w : world TeeBody.t) :
  exists c w',
    _fetch_tee_list_attempt date cos max_retries attempt w = (Returns c, w')
    /\ requests_sent (trace w') <= requests_sent (trace w) + 1
    /\ forall times, c = Return times -> Forall well_formed_slot times.
Proof.
  destruct w as [rs stops clk tr].
  unfold _fetch_tee_list_attempt, bind, stop_event_is_set, try_except,
    session_request, json_loads; simpl.
  pose proof (fun rows => tee_rows_loop_well_formed rows [] (Forall_nil_2 _)) as Hrows.
  destruct stops as [|[] stops']; simpl;
    try (eexists _, _; split; [reflexivity|]; simpl; split; [lia|];
         intros times [= <-]; constructor);
    (destruct rs as [|[e|[d [data|]]] rs0]; simpl;
     [ | destruct e; simpl | destruct (tee_api_error data) eqn:Herr; simpl | ];
     try (destruct (Hrows (default [] (TeeBody.rows data))) as (times0 & Ht & Hwf & _);
          unfold lift, log_message, emit; simpl; rewrite Ht; simpl);
     (eexists _, _; split; [reflexivity|]; simpl;
      rewrite ?requests_sent_app; simpl; split; [lia|];
      intros times Hc; try discriminate Hc;
      injection Hc as <-; first [exact Hwf | constructor])).
Qed.

Lemma fetch_well_formed (date cos : string) (w : world TeeBody.t) :
  exists times w',
    _fetch_tee_list date cos 2 w = (Returns times, w')
    /\ requests_sent (trace w') <= requests_sent (trace w) + 2
    /\ Forall well_formed_slot times.
Proof.
  unfold _fetch_tee_list, range. cbn [seq for_in].
  destruct (fetch_attempt_well_formed date cos 2 0 w) as (c1 & w1 & H1 & Hs1 & Hwf1).
  unfold bind at 1. unfold bind at 1. rewrite H1.
  destruct c1 as [| |times].
  - destruct (fetch_attempt_well_formed date cos 2 1 w1) as (c2 & w2 & H2 & Hs2 & Hwf2).
    unfold bind at 1. rewrite H2.
    destruct c2 as [| |times]; unfold ret; simpl;
      eexists _, _; (split; [reflexivity|]); (split; [lia|]);
      first [now apply Hwf2 | constructor].
  - unfold ret; simpl. eexists _, _. split; [reflexivity|]. split; [lia|constructor].
  - unfold ret; simpl. eexists _, _. split; [reflexivity|]. split; [lia|].
    now apply Hwf1.
Qed.

Lemma logs__log_fetched_times_by_course {B} (all_times : list slot) (w : world B) :
  logs_and_returns (_log_fetched_times_by_course all_times) w tt.
Proof.
  unfold _log_fetched_times_by_course.
  set (grouped := fold_left _ all_times ∅).
  eapply logs_bind.
  { apply logs_lift.
    apply (map_outcome_Returns _
      (fun course_name =>
         match grouped !! course_name with
         | Some times =>
             [("[" +:+ course_name +:+ "] "
               +:+ String.concat ", "
                     (map (fun t => "'" +:+ display_form t +:+ "'")
                        (merge_sort String.le (elements times))))%string]
         | None => []
         end)).
    intros course_name. destruct (grouped !! course_name); [|reflexivity].
    erewrite (map_outcome_Returns _ (fun t => "'" +:+ display_form t +:+ "'"));
      [reflexivity|].
    intros t. now rewrite format_time_for_display_eq. }
  intros w1. destruct (bool_decide _); [|apply logs_ret].
  eapply logs_bind; [apply logs_log_message|]. intros w2.
  apply logs_for_each. intros msg w3. apply logs_log_message.
Qed.

(** On rows whose fields are strings, [get_all_available_times] returns
    slots that are well formed and differ in their keys. *)
Lemma get_all_available_times_well_formed (date : string) (w : world TeeBody.t) :
  exists slots w',
    get_all_available_times date w = (Returns slots, w')
    /\ requests_sent (trace w') <= requests_sent (trace w) + 2
    /\ NoDup (time_key <$> slots)
    /\ Forall well_formed_slot slots.
Proof.
  unfold get_all_available_times.
  destruct (logs_log_message (B := TeeBody.t) (LogFetchStart date) w)
    as (w0 & H0 & (_ & _ & _ & Hs0)).
  rewrite (bind_Returns _ _ _ _ _ H0).
  destruct (fetch_well_formed date "All" w0) as (fetched & w1 & H1 & Hs1 & Hwf).
  rewrite (bind_Returns _ _ _ _ _ H1).
  destruct (logs__log_fetched_times_by_course (unique_times fetched) w1)
    as (w2 & H2 & (_ & _ & _ & Hs2)).
  rewrite (bind_Returns _ _ _ _ _ H2).
  destruct (logs_log_message (LogSlotsSecured (length (unique_times fetched))) w2)
    as (w3 & H3 & (_ & _ & _ & Hs3)).
  rewrite (bind_Returns _ _ _ _ _ H3).
  eexists _, _. split; [reflexivity|]. split; [lia|].
  destruct (unique_times_spec fetched) as (Hnd & _ & Hsub).
  split; [exact Hnd|].
  rewrite Forall_forall in Hwf. apply Forall_forall. intros t Ht. apply Hwf, Hsub, Ht.
Qed.

(** X9. What [get_all_available_times] returns, it returns after at most 2
    requests. The slots have pairwise distinct (time, course code,
    sub-round) keys, and each has a time of exactly four decimal digits, a
    course code that is not empty, the facility code "204" and the display
    name of the course table ("Unknown" for a code the table lacks). *)
Theorem get_all_available_times_invariants (date : string)
    (w w' : world TeeBody.t) (slots : list slot) :
  get_all_available_times date w = (Returns slots, w') ->
  requests_sent (trace w') <= requests_sent (trace w) + 2
  /\ NoDup (time_key <$> slots)
  /\ Forall well_formed_slot slots.
Proof.
  intros Hrun.
  destruct (get_all_available_times_well_formed date w) as (slots0 & w0 & H0 & H).
  rewrite Hrun in H0. injection H0 as <- <-. exact H.
Qed.

Lemma get_all_available_times_invariants_witness :
  exists slots w',
    get_all_available_times "20250101"
      (mkWorld
         [Fails Timeout;
          Answers (mkResponse NoDate (Some (TeeBody.mk (Some "0000") None (Some
            [TeeRow.mk (Some "07:00") (Some "A") None (Some "OK");
             TeeRow.mk (Some "0700") (Some "A") (Some "1") (Some "X");
             TeeRow.mk (Some "730") (Some "E") None None]))))]
         [] 0%Z [])
    = (Returns slots, w')
    /\ requests_sent (trace w') <= 0 + 2
    /\ NoDup (time_key <$> slots)
    /\ Forall well_formed_slot slots.
Proof.
  eexists _, _. split; [vm_compute; reflexivity|].
  apply (get_all_available_times_invariants "20250101"
           (mkWorld
              [Fails Timeout;
               Answers (mkResponse NoDate (Some (TeeBody.mk (Some "0000") None (Some
                 [TeeRow.mk (Some "07:00") (Some "A") None (Some "OK");
                  TeeRow.mk (Some "0700") (Some "A") (Some "1") (Some "X");
                  TeeRow.mk (Some "730") (Some "E") None None]))))]
              [] 0%Z [])).
  vm_compute. reflexivity.
Defined.

(** ** The fetch: stop event and recovery *)

(** X10. When the stop event is already set, [_fetch_tee_list] returns the
    empty list without sending anything: no request, no reply consumed, no
    sleep. *)
Theorem fetch_stopped_sends_nothing (date cos : string) (w : world TeeBody.t) :
  stop_set w = true ->
  exists w',
    _fetch_tee_list date cos 2 w = (Returns [], w')
    /\ replies w' = replies w
    /\ clock w' = clock w
    /\ trace w' = trace w.
Proof.
  destruct w as [rs [|[] stops] clk tr]; unfold stop_set; simpl; try discriminate.
  intros _. eexists. split; [reflexivity|]. now repeat split.
Qed.

Lemma fetch_stopped_sends_nothing_witness :
  stop_set (mkWorld (B := TeeBody.t) [Fails Timeout] [true] 0%Z []) = true
  /\ exists w',
       _fetch_tee_list "20250101" "All" 2
         (mkWorld (B := TeeBody.t) [Fails Timeout] [true] 0%Z []) = (Returns [], w')
       /\ replies w' = [Fails Timeout]
       /\ clock w' = 0%Z
       /\ trace w' = [].
Proof.
  split; [reflexivity|].
  apply (fetch_stopped_sends_nothing "20250101" "All"
           (mkWorld (B := TeeBody.t) [Fails Timeout] [true] 0%Z [])).
  reflexivity.
Defined.

(** An attempt that gets a well-formed body without error code returns
    the slots of its rows. *)
Lemma fetch_attempt_answered (date cos : string) (max_retries attempt : nat)
    (w : world TeeBody.t) (d : date_header) (data : TeeBody.t)
    (rest : list (reply TeeBody.t)) (times : list slot) :
  stop_set w = false ->
  replies w = Answers (mkResponse d (Some data)) :: rest ->
  tee_api_error data = false ->
  tee_rows_loop CO_DIV (default [] (TeeBody.rows data)) [] = Returns times ->
  exists w',
    _fetch_tee_list_attempt date cos max_retries attempt w
    = (Returns (Return times), w')
    /\ replies w' = rest
    /\ requests_sent (trace w') = requests_sent (trace w) + 1.
Proof.
  destruct w as [rs stops clk tr]. unfold stop_set. simpl. intros Hstop -> Herr Ht.
  unfold _fetch_tee_list_attempt, bind, stop_event_is_set, try_except,
    session_request, json_loads, lift, log_message, emit, ret; simpl.
  destruct stops as [|[] stops]; try discriminate; simpl;
    rewrite Herr; simpl; rewrite Ht; simpl;
    (eexists; split; [reflexivity|]; simpl; split; [reflexivity|];
     rewrite !requests_sent_app; simpl; lia).
Qed.

(** X11. Unless stopped, [_fetch_tee_list] returns exactly the slots built
    from the rows of the first well-formed body without error code, whether
    that body answers the first request or the second one after a transient
    failure; it sends no request beyond that one. *)
Theorem fetch_returns_rows_of_first_good_body (date cos : string)
    (w : world TeeBody.t) (fails : list (reply TeeBody.t)) (d : date_header)
    (data : TeeBody.t) (rest : list (reply TeeBody.t)) (times : list slot) :
  never_stopped w = true ->
  replies w = fails ++ Answers (mkResponse d (Some data)) :: rest ->
  forallb (fun r => tee_transient (Some r)) fails = true ->
  length fails < 2 ->
  tee_api_error data = false ->
  tee_rows_loop CO_DIV (default [] (TeeBody.rows data)) [] = Returns times ->
  exists w',
    _fetch_tee_list date cos 2 w = (Returns times, w')
    /\ replies w' = rest
    /\ requests_sent (trace w') = requests_sent (trace w) + S (length fails).
Proof.
  intros Hns Hrs Hfails Hlen Herr Ht.
  unfold _fetch_tee_list, range. cbn [seq for_in].
  destruct fails as [|r [|? ?]]; cbn [length app forallb] in *; [| |lia].
  - destruct (fetch_attempt_answered date cos 2 0 w d data rest times
                (never_stopped_stop_set _ Hns) Hrs Herr Ht) as (w1 & H1 & Hr1 & Hs1).
    unfold bind at 1. unfold bind at 1. rewrite H1. unfold ret.
    eexists. split; [reflexivity|]. split; [exact Hr1|exact Hs1].
  - apply andb_prop in Hfails as [Hr _].
    destruct (fetch_attempt_spec date cos 2 0 w) as (c1 & w1 & H1 & Hst1 & Hc1).
    rewrite (never_stopped_stop_set _ Hns) in Hc1.
    destruct Hc1 as (Hs1 & Hr1 & Hnext & _).
    rewrite Hrs in Hnext, Hr1. cbn [head tail] in Hnext, Hr1.
    apply Hnext in Hr. subst c1.
    destruct (fetch_attempt_answered date cos 2 1 w1 d data rest times
                (never_stopped_stop_set _ (never_stopped_tail _ _ Hns Hst1))
                Hr1 Herr Ht) as (w2 & H2 & Hr2 & Hs2).
    unfold bind at 1. unfold bind at 1. rewrite H1.
    unfold bind at 1. rewrite H2. unfold ret.
    eexists. split; [reflexivity|]. split; [exact Hr2|lia].
Qed.

Lemma fetch_returns_rows_of_first_good_body_witness :
  exists w',
    _fetch_tee_list "20250101" "All" 2
      (mkWorld
         [Answers (mkResponse NoDate None);
          Answers (mkResponse NoDate (Some (TeeBody.mk None None (Some
            [TeeRow.mk (Some "07:00") (Some "A") None (Some "OK")]))))]
         [] 0%Z [])
    = (Returns [slot_0700_A], w')
    /\ replies w' = []
    /\ requests_sent (trace w') = 0 + 2.
Proof.
  apply (fetch_returns_rows_of_first_good_body "20250101" "All"
           (mkWorld _ [] 0%Z []) [Answers (mkResponse NoDate None)] NoDate
           (TeeBody.mk None None (Some
              [TeeRow.mk (Some "07:00") (Some "A") None (Some "OK")])) []
           [slot_0700_A]);
    [reflexivity | reflexivity | reflexivity | simpl; lia | reflexivity
    | vm_compute; reflexivity].
Defined.

(** ** The reservation attempt, further *)

(** One attempt of [try_reservation] never raises and sends at most one
    request. *)
Lemma reservation_attempt_bounded (payload : list (string * option string))
    (course_name time_display : string) (max_retries attempt : nat)
    (w : world jvalue) :
  exists c w',
    try_reservation_attempt payload course_name time_display max_retries attempt w
    = (Returns c, w')
    /\ requests_sent (trace w') <= requests_sent (trace w) + 1.
Proof.
  destruct w as [rs stops clk tr].
  unfold try_reservation_attempt, bind, stop_event_is_set, try_except,
    session_request, res_json, lift, log_message, emit, time_sleep, ret, raise; simpl.
  destruct (attempt <? max_retries - 1);
  destruct stops as [|[] stops]; simpl;
    try (eexists _, _; split; [reflexivity|]; simpl; lia);
    (destruct rs as [|[e|[d [data|]]] rs0]; simpl;
     [ | destruct e; simpl
       | destruct data as [| | | | |dict];
         [ | | | | | rewrite reservation_succeeded_dict;
                     destruct (success_markedb (JDict dict)) ]; simpl
       | ];
     eexists _, _; (split; [reflexivity|]); simpl;
     rewrite ?requests_sent_app; simpl; lia).
Qed.

Lemma try_reservation_bounded (member_id : option string)
    (date course_code time_api : string) (w : world jvalue) :
  exists success w',
    try_reservation member_id date course_code time_api w = (Returns success, w')
    /\ requests_sent (trace w') <= requests_sent (trace w) + 2.
Proof.
  unfold try_reservation.
  rewrite (bind_Returns _ _ w w _ (lift_Returns _ _ w (format_time_for_display_eq _))).
  destruct (logs_log_message (B := jvalue)
              (LogTrying (default course_code (course_detail_mapping !! course_code))
                 (display_form time_api)) w) as (w0 & H0 & (_ & _ & _ & Hs0)).
  rewrite (bind_Returns _ _ _ _ _ H0). unfold range. cbn [seq for_in].
  set (payload := reservation_payload _ _ _ _).
  set (course_name := default _ _).
  destruct (reservation_attempt_bounded payload course_name (display_form time_api)
              2 0 w0) as (c1 & w1 & H1 & Hs1).
  unfold bind at 1. unfold bind at 1. rewrite H1.
  destruct c1 as [| |b].
  - destruct (reservation_attempt_bounded payload course_name
                (display_form time_api) 2 1 w1) as (c2 & w2 & H2 & Hs2).
    unfold bind at 1. rewrite H2.
    destruct c2; unfold ret; simpl; eexists _, _; (split; [reflexivity|]); lia.
  - unfold ret; simpl. eexists _, _. split; [reflexivity|]. lia.
  - unfold ret; simpl. eexists _, _. split; [reflexivity|]. lia.
Qed.

(** X12. [try_reservation] never raises, whatever the server does, and
    sends at most 2 requests. *)
Theorem try_reservation_never_raises (member_id : option string)
    (date course_code time_api : string) (w : world jvalue) :
  exists success w',
    try_reservation member_id date course_code time_api w = (Returns success, w')
    /\ requests_sent (trace w') <= requests_sent (trace w) + 2.
Proof. apply try_reservation_bounded. Qed.

(** X13. When the stop event is already set, [try_reservation] returns
    [False] without sending the reservation: no request, no reply consumed,
    no sleep. *)
Theorem try_reservation_stopped_sends_nothing (member_id : option string)
    (date course_code time_api : string) (w : world jvalue) :
  stop_set w = true ->
  exists w',
    try_reservation member_id date course_code time_api w = (Returns false, w')
    /\ replies w' = replies w
    /\ clock w' = clock w
    /\ requests_sent (trace w') = requests_sent (trace w).
Proof.
  destruct w as [rs [|[] stops] clk tr]; unfold stop_set; simpl; try discriminate.
  intros _. unfold try_reservation.
  rewrite (bind_Returns _ _ _ _ _ (lift_Returns _ _ _ (format_time_for_display_eq _))).
  eexists. split; [reflexivity|]. simpl. repeat split.
  rewrite requests_sent_app. simpl. lia.
Qed.

Lemma try_reservation_stopped_sends_nothing_witness :
  stop_set (mkWorld (B := jvalue) [] [true] 0%Z []) = true
  /\ exists w',
       try_reservation None "20250101" "A" "0700"
         (mkWorld (B := jvalue) [] [true] 0%Z []) = (Returns false, w')
       /\ replies w' = []
       /\ clock w' = 0%Z
       /\ requests_sent (trace w') = 0.
Proof.
  split; [reflexivity|].
  apply (try_reservation_stopped_sends_nothing None "20250101" "A" "0700"
           (mkWorld (B := jvalue) [] [true] 0%Z [])).
  reflexivity.
Defined.

(** An attempt answered by a well-formed body, with what it leaves. *)
Lemma reservation_attempt_answered_world (payload : list (string * option string))
    (course_name time_display : string) (max_retries attempt : nat)
    (w : world jvalue) (d : date_header) (data : jvalue) (rest : list (reply jvalue)) :
  stop_set w = false ->
  replies w = Answers (mkResponse d (Some data)) :: rest ->
  exists w',
    try_reservation_attempt payload course_name time_display max_retries attempt w
    = (Returns (Return (success_markedb data)), w')
    /\ replies w' = rest
    /\ requests_sent (trace w') = requests_sent (trace w) + 1
    /\ clock w' = (clock w + if success_markedb data then 5000000 else 0)%Z.
Proof.
  destruct w as [rs stops clk tr]. unfold stop_set. simpl. intros Hstop ->.
  unfold try_reservation_attempt, bind, stop_event_is_set, try_except,
    session_request, res_json, lift, log_message, emit, time_sleep, ret; simpl.
  destruct stops as [|[] stops]; try discriminate; simpl;
    (destruct data as [| | | | |dict];
     [ | | | | | rewrite reservation_succeeded_dict;
                 destruct (success_markedb (JDict dict)) ]; simpl;
     eexists; (split; [reflexivity|]); simpl;
     rewrite !requests_sent_app; simpl; repeat split; lia).
Qed.

(** A well-formed response to the first request, with what the call
    leaves behind. *)
Lemma try_reservation_answered_run (member_id : option string)
    (date course_code time_api : string) (w : world jvalue) (d : date_header)
    (data : jvalue) (rest : list (reply jvalue)) :
  stop_set w = false ->
  replies w = Answers (mkResponse d (Some data)) :: rest ->
  exists w',
    try_reservation member_id date course_code time_api w
    = (Returns (success_markedb data), w')
    /\ replies w' = rest
    /\ requests_sent (trace w') = requests_sent (trace w) + 1
    /\ clock w' = (clock w + if success_markedb data then 5000000 else 0)%Z.
Proof.
  intros Hstop Hrs. unfold try_reservation.
  rewrite (bind_Returns _ _ w w _ (lift_Returns _ _ w (format_time_for_display_eq _))).
  destruct (logs_log_message (B := jvalue)
              (LogTrying (default course_code (course_detail_mapping !! course_code))
                 (display_form time_api)) w) as (w0 & H0 & (Hr0 & Hst0 & Hc0 & Hs0)).
  rewrite (bind_Returns _ _ _ _ _ H0). unfold range. cbn [seq for_in].
  assert (Hstop0 : stop_set w0 = false) by (unfold stop_set in *; now rewrite Hst0).
  rewrite <- Hr0 in Hrs.
  destruct (reservation_attempt_answered_world
              (reservation_payload member_id date course_code time_api)
              (default course_code (course_detail_mapping !! course_code))
              (display_form time_api) 2 0 w0 d data rest Hstop0 Hrs)
    as (w1 & H1 & Hr1 & Hs1 & Hc1).
  unfold bind at 1. unfold bind at 1. rewrite H1. unfold ret.
  eexists. split; [reflexivity|]. simpl.
  split; [exact Hr1|]. split; [lia|]. now rewrite Hc1, Hc0.
Qed.

(** X14. A well-formed response to the first request ends [try_reservation]
    there: one request and no retry, whether the response accepts or
    rejects. After a success the call sleeps the 5 seconds of the settle
    delay; after a rejection it does not sleep at all. *)
Theorem try_reservation_answered_once (member_id : option string)
    (date course_code time_api : string) (w : world jvalue) (d : date_header)
    (data : jvalue) (rest : list (reply jvalue)) :
  stop_set w = false ->
  replies w = Answers (mkResponse d (Some data)) :: rest ->
  exists w',
    try_reservation member_id date course_code time_api w
    = (Returns (success_markedb data), w')
    /\ replies w' = rest
    /\ requests_sent (trace w') = requests_sent (trace w) + 1
    /\ clock w' = (clock w + if success_markedb data then 5000000 else 0)%Z.
Proof. apply try_reservation_answered_run. Qed.

Lemma try_reservation_answered_once_witness :
  exists w',
    try_reservation None "20250101" "A" "0700"
      (mkWorld [Answers (mkResponse NoDate
                  (Some (JDict [("resultCode", JStr "9999")])));
                Fails Timeout] [] 0%Z [])
    = (Returns (success_markedb (JDict [("resultCode", JStr "9999")])), w')
    /\ replies w' = [Fails Timeout]
    /\ requests_sent (trace w') = 0 + 1
    /\ clock w'
       = (0 + if success_markedb (JDict [("resultCode", JStr "9999")])
              then 5000000 else 0)%Z.
Proof.
  apply (try_reservation_answered_once None "20250101" "A" "0700"
           (mkWorld _ [] 0%Z []) NoDate _ [Fails Timeout]); reflexivity.
Defined.

Lemma reservation_attempt_first_failed (payload : list (string * option string))
    (course_name time_display : string) (w : world jvalue)
    (r : reply jvalue) (rest : list (reply jvalue)) :
  stop_set w = false ->
  replies w = r :: rest ->
  reservation_retried r = true ->
  exists w',
    try_reservation_attempt payload course_name time_display 2 0 w = (Returns Next, w')
    /\ replies w' = rest
    /\ stop_reads w' = tail (stop_reads w)
    /\ requests_sent (trace w') = requests_sent (trace w) + 1
    /\ clock w' = (clock w + reservation_backoff r)%Z.
Proof.
  destruct w as [rs stops clk tr]. unfold stop_set. simpl. intros Hstop -> Hr.
  unfold try_reservation_attempt, bind, stop_event_is_set, try_except,
    session_request, res_json, lift, log_message, emit, time_sleep, ret, raise; simpl.
  destruct stops as [|[] stops]; try discriminate; simpl;
    (destruct r as [e|[dh [data|]]]; try discriminate;
     [destruct e; try discriminate|]; simpl;
     eexists; (split; [reflexivity|]); simpl;
     rewrite !requests_sent_app; simpl; repeat split; lia).
Qed.

Lemma reservation_attempt_last_failed (payload : list (string * option string))
    (course_name time_display : string) (w : world jvalue)
    (r : reply jvalue) (rest : list (reply jvalue)) :
  stop_set w = false ->
  replies w = r :: rest ->
  reservation_retried r = true ->
  exists w',
    try_reservation_attempt payload course_name time_display 2 1 w
    = (Returns (Return false), w')
    /\ replies w' = rest
    /\ requests_sent (trace w') = requests_sent (trace w) + 1
    /\ clock w' = clock w.
Proof.
  destruct w as [rs stops clk tr]. unfold stop_set. simpl. intros Hstop -> Hr.
  unfold try_reservation_attempt, bind, stop_event_is_set, try_except,
    session_request, res_json, lift, log_message, emit, time_sleep, ret, raise; simpl.
  destruct stops as [|[] stops]; try discriminate; simpl;
    (destruct r as [e|[dh [data|]]]; try discriminate;
     [destruct e; try discriminate|]; simpl;
     eexists; (split; [reflexivity|]); simpl;
     rewrite !requests_sent_app; simpl; repeat split; lia).
Qed.

(** X15. When both attempts of [try_reservation] fail by a [requests]
    exception (time-out, connection error, HTTP error, body that is not
    JSON), the call gives up: it returns [False] after exactly 2 requests,
    having paused once, between the attempts, for half a second after a
    time-out and for one second otherwise. *)
Theorem try_reservation_gives_up_after_two (member_id : option string)
    (date course_code time_api : string) (w : world jvalue)
    (r1 r2 : reply jvalue) (rest : list (reply jvalue)) :
  never_stopped w = true ->
  replies w = r1 :: r2 :: rest ->
  reservation_retried r1 = true ->
  reservation_retried r2 = true ->
  exists w',
    try_reservation member_id date course_code time_api w = (Returns false, w')
    /\ replies w' = rest
    /\ requests_sent (trace w') = requests_sent (trace w) + 2
    /\ clock w' = (clock w + reservation_backoff r1)%Z.
Proof.
  intros Hns Hrs Hr1 Hr2. unfold try_reservation.
  rewrite (bind_Returns _ _ w w _ (lift_Returns _ _ w (format_time_for_display_eq _))).
  destruct (logs_log_message (B := jvalue)
              (LogTrying (default course_code (course_detail_mapping !! course_code))
                 (display_form time_api)) w) as (w0 & H0 & (Hr0 & Hst0 & Hc0 & Hs0)).
  rewrite (bind_Returns _ _ _ _ _ H0). unfold range. cbn [seq for_in].
  assert (Hns0 : never_stopped w0 = true) by (unfold never_stopped in *; now rewrite Hst0).
  rewrite <- Hr0 in Hrs.
  destruct (reservation_attempt_first_failed
              (reservation_payload member_id date course_code time_api)
              (default course_code (course_detail_mapping !! course_code))
              (display_form time_api) w0 r1 _ (never_stopped_stop_set _ Hns0) Hrs Hr1)
    as (w1 & H1 & Hrs1 & Hst1 & Hs1 & Hc1).
  unfold bind at 1. unfold bind at 1. rewrite H1.
  destruct (reservation_attempt_last_failed
              (reservation_payload member_id date course_code time_api)
              (default course_code (course_detail_mapping !! course_code))
              (display_form time_api) w1 r2 rest
              (never_stopped_stop_set _ (never_stopped_tail _ _ Hns0 Hst1)) Hrs1 Hr2)
    as (w2 & H2 & Hrs2 & Hs2 & Hc2).
  unfold bind at 1. rewrite H2. unfold ret.
  eexists. split; [reflexivity|]. simpl.
  split; [exact Hrs2|]. split; [lia|]. now rewrite Hc2, Hc1, Hc0.
Qed.

Lemma try_reservation_gives_up_after_two_witness :
  exists w',
    try_reservation None "20250101" "A" "0700"
      (mkWorld [Fails Timeout; Answers (mkResponse NoDate None)] [] 0%Z [])
    = (Returns false, w')
    /\ replies w' = []
    /\ requests_sent (trace w') = 0 + 2
    /\ clock w' = (0 + reservation_backoff (Fails Timeout))%Z.
Proof.
  apply (try_reservation_gives_up_after_two None "20250101" "A" "0700"
           (mkWorld _ [] 0%Z []) (Fails Timeout) (Answers (mkResponse NoDate None)) []);
    reflexivity.
Defined.

(** ** The booking loop *)

(** X16. In a dry run ([test_mode] set or absent) [run_api_booking] only
    logs, for every candidate list: it sends no request, consumes no reply,
    takes no sleep and does not read the stop event. It returns [True]
    exactly when there is a candidate. *)
Theorem dry_run_only_logs (member_id : option string) (inputs : inputs)
    (sorted_available_times : list slot) (w : world jvalue) :
  default true (test_mode inputs) = true ->
  exists w',
    run_api_booking member_id inputs sorted_available_times w
    = (Returns (bool_decide (sorted_available_times <> [])), w')
    /\ replies w' = replies w
    /\ stop_reads w' = stop_reads w
    /\ clock w' = clock w
    /\ requests_sent (trace w') = requests_sent (trace w).
Proof.
  intros Htest. unfold run_api_booking.
  destruct sorted_available_times as [|first others].
  - eexists. split; [reflexivity|]. simpl. repeat split.
    rewrite requests_sent_app. simpl. lia.
  - rewrite bool_decide_eq_false_2 by discriminate. rewrite Htest.
    unfold bind, log_message, emit, lift, ret. simpl.
    rewrite format_time_for_display_eq.
    eexists. split; [reflexivity|]. simpl. repeat split.
    rewrite !requests_sent_app. simpl. lia.
Qed.

Lemma dry_run_only_logs_witness :
  default true (test_mode (mkInputs "20250101" None)) = true
  /\ exists w',
       run_api_booking None (mkInputs "20250101" None) [slot_0700_A]
         (mkWorld [Fails Timeout] [true] 0%Z [])
       = (Returns (bool_decide ([slot_0700_A] <> [])), w')
       /\ replies w' = [Fails Timeout]
       /\ stop_reads w' = [true]
       /\ clock w' = 0%Z
       /\ requests_sent (trace w') = 0.
Proof.
  split; [reflexivity|].
  apply (dry_run_only_logs None (mkInputs "20250101" None) [slot_0700_A]
           (mkWorld [Fails Timeout] [true] 0%Z [])).
  reflexivity.
Defined.

(** Candidates beyond the fifth never matter: [run_api_booking] on a list
    behaves, in every mode and in every world, exactly as on the first five
    slots of that list. *)
Lemma run_api_booking_top_five (member_id : option string) (inputs : inputs)
    (sorted_available_times : list slot) (w : world jvalue) :
  run_api_booking member_id inputs sorted_available_times w
  = run_api_booking member_id inputs (take 5 sorted_available_times) w.
Proof.
  unfold run_api_booking.
  destruct sorted_available_times as [|first others]; [reflexivity|].
  rewrite !bool_decide_eq_false_2 by discriminate.
  rewrite take_take, length_take. cbn [take].
  now rewrite Nat.min_id, (Nat.min_assoc 5 5), Nat.min_id.
Qed.

Lemma attempt_loop_bounded (member_id : option string) (target_date : string)
    (times : list slot) :
  forall (i : nat) (success : bool) (w : world jvalue),
    exists b w',
      attempt_loop member_id target_date i times success w = (Returns b, w')
      /\ requests_sent (trace w') <= requests_sent (trace w) + 2 * length times.
Proof.
  induction times as [|time_info rest IH]; intros i success w; simpl.
  - exists success, w. split; [reflexivity|lia].
  - destruct w as [rs stops clk tr].
    unfold bind at 1. unfold stop_event_is_set at 1. simpl.
    assert (Hgo : forall w0 : world jvalue,
      exists b w',
        (time_display ← lift (format_time_for_display (bk_time time_info));
         log_message (LogAttempt (i + 1) (course_nm time_info) time_display);;
         success0 ← try_reservation member_id target_date (bk_cos time_info)
                      (bk_time time_info);
         (if success0
          then log_message (LogFinalSuccess (i + 1) (course_nm time_info) time_display);;
               ret success0
          else attempt_loop member_id target_date (S i) rest success0)) w0
        = (Returns b, w')
        /\ requests_sent (trace w') <= requests_sent (trace w0) + 2 * S (length rest)).
    { intros w0.
      rewrite (bind_Returns _ _ _ _ _ (lift_Returns _ _ _ (format_time_for_display_eq _))).
      destruct (logs_log_message (B := jvalue)
                  (LogAttempt (i + 1) (course_nm time_info)
                     (display_form (bk_time time_info))) w0)
        as (w1 & H1 & (_ & _ & _ & Hs1)).
      rewrite (bind_Returns _ _ _ _ _ H1).
      destruct (try_reservation_bounded member_id target_date (bk_cos time_info)
                  (bk_time time_info) w1) as (b & w2 & H2 & Hs2).
      rewrite (bind_Returns _ _ _ _ _ H2).
      destruct b.
      - destruct (logs_log_message (B := jvalue)
                    (LogFinalSuccess (i + 1) (course_nm time_info)
                       (display_form (bk_time time_info))) w2)
          as (w3 & H3 & (_ & _ & _ & Hs3)).
        rewrite (bind_Returns _ _ _ _ _ H3).
        eexists _, _. split; [reflexivity|]. lia.
      - destruct (IH (S i) false w2) as (b & w3 & H3 & Hs3).
        exists b, w3. split; [exact H3|]. lia. }
    destruct stops as [|[] stops]; simpl.
    + apply Hgo.
    + eexists _, _. split; [reflexivity|]. simpl.
      rewrite requests_sent_app. simpl. lia.
    + apply Hgo.
Qed.

(** X17. [run_api_booking] never raises, and it sends at most 2 requests
    for each of at most 5 candidates: never more than 10 reservation
    requests in a run. *)
Theorem run_api_booking_bounded (member_id : option string) (inputs : inputs)
    (sorted_available_times : list slot) (w : world jvalue) :
  exists success w',
    run_api_booking member_id inputs sorted_available_times w = (Returns success, w')
    /\ requests_sent (trace w')
       <= requests_sent (trace w) + 2 * min 5 (length sorted_available_times)
    /\ requests_sent (trace w') <= requests_sent (trace w) + 10.
Proof.
  assert (Hmain : exists success w',
    run_api_booking member_id inputs sorted_available_times w = (Returns success, w')
    /\ requests_sent (trace w')
       <= requests_sent (trace w) + 2 * min 5 (length sorted_available_times)).
  { unfold run_api_booking.
    destruct sorted_available_times as [|first others].
    { eexists _, _. split; [reflexivity|]. simpl.
      rewrite requests_sent_app. simpl. lia. }
    rewrite bool_decide_eq_false_2 by discriminate.
    destruct (logs_log_message (B := jvalue)
                (LogAttemptingTop (min 5 (length (first :: others)))) w)
      as (w0 & H0 & (_ & _ & _ & Hs0)).
    rewrite (bind_Returns _ _ _ _ _ H0).
    destruct (default true (test_mode inputs)).
    - rewrite (bind_Returns _ _ _ _ _
                 (lift_Returns _ _ _ (format_time_for_display_eq _))).
      destruct (logs_log_message (B := jvalue)
                  (LogTestModePreview
                     (display_form (bk_time first) +:+ " (" +:+ course_nm first +:+ ")"))
                  w0) as (w1 & H1 & (_ & _ & _ & Hs1)).
      rewrite (bind_Returns _ _ _ _ _ H1).
      eexists _, _. split; [reflexivity|]. lia.
    - destruct (attempt_loop_bounded member_id (target_date inputs)
                  (take 5 (first :: others)) 0 false w0) as (b & w1 & H1 & Hs1).
      rewrite (bind_Returns _ _ _ _ _ H1). rewrite length_take in Hs1.
      assert (Hstop : exists stop w2,
        (if negb b then stop_event_is_set else ret false) w1 = (Returns stop, w2)
        /\ trace w2 = trace w1).
      { destruct b; simpl; [now eexists _, _|].
        unfold stop_event_is_set. destruct (stop_reads w1); now eexists _, _. }
      destruct Hstop as (stop & w2 & H2 & Ht2).
      rewrite (bind_Returns _ _ _ _ _ H2).
      assert (Hlog : exists w3,
        (if negb b && negb stop
         then log_message (LogTopFailed (min 5 (length (first :: others))))
         else ret tt) w2 = (Returns tt, w3)
        /\ requests_sent (trace w3) = requests_sent (trace w2)).
      { destruct (negb b && negb stop).
        - destruct (logs_log_message (B := jvalue)
                      (LogTopFailed (min 5 (length (first :: others)))) w2)
            as (w3 & H3 & (_ & _ & _ & Hs3)).
          now exists w3.
        - now exists w2. }
      destruct Hlog as (w3 & H3 & Hs3).
      rewrite (bind_Returns _ _ _ _ _ H3).
      eexists _, _. split; [reflexivity|]. rewrite Hs3, Ht2. lia. }
  destruct Hmain as (success & w' & Hrun & Hs).
  exists success, w'. split; [exact Hrun|]. split; [exact Hs|]. lia.
Qed.

(** X18. A live run stops at the first success: when the server accepts the
    first candidate at the first request, [run_api_booking] returns [True]
    after that single request, and the later candidates are never tried. *)
Theorem run_api_booking_stops_at_first_success (member_id : option string)
    (day : string) (first : slot) (others : list slot) (w : world jvalue)
    (d : date_header) (data : jvalue) (rest : list (reply jvalue)) :
  never_stopped w = true ->
  replies w = Answers (mkResponse d (Some data)) :: rest ->
  success_markedb data = true ->
  exists w',
    run_api_booking member_id (mkInputs day (Some false)) (first :: others) w
    = (Returns true, w')
    /\ replies w' = rest
    /\ requests_sent (trace w') = requests_sent (trace w) + 1.
Proof.
  intros Hns Hrs Hok. unfold run_api_booking.
  rewrite bool_decide_eq_false_2 by discriminate. cbn [test_mode default target_date].
  destruct (logs_log_message (B := jvalue)
              (LogAttemptingTop (min 5 (length (first :: others)))) w)
    as (w0 & H0 & (Hr0 & Hst0 & _ & Hs0)).
  rewrite (bind_Returns _ _ _ _ _ H0). cbn [take attempt_loop].
  assert (Hns0 : never_stopped w0 = true) by (unfold never_stopped in *; now rewrite Hst0).
  assert (Hstop : exists w1,
    stop_event_is_set w0 = (Returns false, w1)
    /\ replies w1 = replies w0 /\ stop_reads w1 = tail (stop_reads w0)
    /\ trace w1 = trace w0).
  { pose proof (never_stopped_stop_set _ Hns0) as Hs.
    unfold stop_event_is_set, stop_set in *.
    destruct (stop_reads w0) as [|b bs] eqn:E; simpl in *.
    - exists w0. now rewrite E.
    - subst b. eexists. split; [reflexivity|]. now repeat split. }
  destruct Hstop as (w1 & H1 & Hr1 & Hst1 & Ht1).
  change (id false) with false. cbv iota.
  unfold bind at 1. unfold bind at 1. rewrite H1. cbv iota.
  rewrite (bind_Returns _ _ _ _ _ (lift_Returns _ _ _ (format_time_for_display_eq _))).
  destruct (logs_log_message (B := jvalue)
              (LogAttempt (0 + 1) (course_nm first) (display_form (bk_time first))) w1)
    as (w2 & H2 & (Hr2 & Hst2 & _ & Hs2)).
  rewrite (bind_Returns _ _ _ _ _ H2).
  assert (Hstop2 : stop_set w2 = false).
  { apply never_stopped_stop_set.
    apply (never_stopped_tail w0 w2 Hns0). now rewrite Hst2. }
  assert (Hrs2 : replies w2 = Answers (mkResponse d (Some data)) :: rest)
    by congruence.
  destruct (try_reservation_answered_run member_id day (bk_cos first)
              (bk_time first) w2 d data rest Hstop2 Hrs2)
    as (w3 & H3 & Hr3 & Hs3 & _).
  rewrite (bind_Returns _ _ _ _ _ H3). rewrite Hok.
  unfold bind, log_message, emit, ret. simpl.
  eexists. split; [reflexivity|]. simpl. split; [exact Hr3|].
  rewrite requests_sent_app. simpl. rewrite Hs3, Hs2, Ht1, Hs0. lia.
Qed.

Lemma run_api_booking_stops_at_first_success_witness :
  exists w',
    run_api_booking None (mkInputs "20250101" (Some false)) [slot_0700_A; slot_0730_C]
      (mkWorld [Answers (mkResponse NoDate (Some (JDict [("R", JStr "OK")])));
                Fails Timeout] [] 0%Z [])
    = (Returns true, w')
    /\ replies w' = [Fails Timeout]
    /\ requests_sent (trace w') = 0 + 1.
Proof.
  apply (run_api_booking_stops_at_first_success None "20250101" slot_0700_A
           [slot_0730_C] (mkWorld _ [] 0%Z []) NoDate
           (JDict [("R", JStr "OK")]) [Fails Timeout]); reflexivity.
Defined.

(** ** The clock offset, further *)

Section ClockSkewFurther.

Context {B : Type}.
Variable fsec : Type.
Variable total_seconds : timedelta -> fsec.
Variable timedelta_of_seconds : fsec -> timedelta.

Lemma probe_attempt_bounded (max_retries attempt : nat) (w : world B) :
  exists c w',
    get_server_time_offset_attempt fsec total_seconds max_retries attempt w
    = (Returns c, w')
    /\ requests_sent (trace w') = requests_sent (trace w) + 1.
Proof.
  destruct w as [rs stops clk tr].
  unfold get_server_time_offset_attempt, bind, try_except, session_request; simpl.
  destruct rs as [|[e|[[| |t] body]] rs0]; simpl;
    try (destruct (is_RequestException e)); simpl;
    (eexists _, _; split; [reflexivity|]; simpl;
     rewrite !requests_sent_app; simpl; lia).
Qed.

Lemma probe_loop_bounded (max_retries n : nat) :
  forall (a : nat) (w : world B),
    exists r w',
      for_in (seq a n)
        (get_server_time_offset_attempt fsec total_seconds max_retries) w
      = (Returns r, w')
      /\ requests_sent (trace w) + min 1 n <= requests_sent (trace w')
      /\ requests_sent (trace w') <= requests_sent (trace w) + n.
Proof.
  induction n as [|n IH]; intros a w; cbn [seq for_in].
  - eexists _, _. split; [reflexivity|]. simpl. lia.
  - destruct (probe_attempt_bounded max_retries a w) as (c & w1 & H1 & Hs1).
    rewrite (bind_Returns _ _ _ _ _ H1).
    destruct c.
    + destruct (IH (S a) w1) as (r & w2 & H2 & Hs2 & Hs2').
      exists r, w2. split; [exact H2|lia].
    + eexists _, _. split; [reflexivity|lia].
    + eexists _, _. split; [reflexivity|lia].
Qed.

(** X19. [get_server_time_offset] never raises, whatever the server does,
    and sends at least 1 and at most 5 probes. *)
Theorem get_server_time_offset_bounded (w : world B) :
  exists time_offset w',
    get_server_time_offset fsec total_seconds w = (Returns time_offset, w')
    /\ requests_sent (trace w) + 1 <= requests_sent (trace w')
    /\ requests_sent (trace w') <= requests_sent (trace w) + 5.
Proof.
  unfold get_server_time_offset, range.
  destruct (logs_log_message (B := B) LogOffsetStart w)
    as (w0 & H0 & (_ & _ & _ & Hs0)).
  rewrite (bind_Returns _ _ _ _ _ H0).
  destruct (probe_loop_bounded 5 5 0 w0) as (r & w1 & H1 & Hs1 & Hs1').
  rewrite (bind_Returns _ _ _ _ _ H1).
  destruct r; unfold bind, log_message, emit, ret; simpl;
    eexists _, _; (split; [reflexivity|]); simpl;
    rewrite ?requests_sent_app; simpl; lia.
Qed.

(** X20. A probe that fails outside the [requests] exceptions, or whose
    [Date] header does not parse, is not retried: [get_server_time_offset]
    returns the offset 0 at once, after that single request and without
    sleeping. *)
Theorem offset_zero_on_unexpected_error (w : world B) (r : reply B)
    (rest : list (reply B)) :
  replies w = r :: rest ->
  probe_unexpected r = true ->
  exists w',
    get_server_time_offset fsec total_seconds w = (Returns (IntSeconds 0), w')
    /\ replies w' = rest
    /\ requests_sent (trace w') = requests_sent (trace w) + 1
    /\ clock w' = clock w.
Proof.
  destruct w as [rs stops clk tr]. simpl. intros -> Hr.
  unfold get_server_time_offset, range. cbn [seq for_in].
  unfold get_server_time_offset_attempt, bind, try_except, session_request,
    log_message, emit, parsedate_to_datetime, raise, ret; simpl.
  destruct r as [e|[[| |t] body]]; try discriminate; simpl.
  - simpl in Hr. apply negb_true_iff in Hr. rewrite Hr. simpl.
    eexists. split; [reflexivity|]. simpl.
    rewrite !requests_sent_app. simpl. repeat split; lia.
  - eexists. split; [reflexivity|]. simpl.
    rewrite !requests_sent_app. simpl. repeat split; lia.
Qed.

(** X21. When the stop event is set at step 4-2, [start_pre_process] takes
    its bare [return]: no probe is sent and no deadline computed. *)
Theorem start_pre_process_target_stopped (run_dt_kst : instant) (w : world B) :
  stop_set w = true ->
  exists w',
    start_pre_process_target fsec total_seconds timedelta_of_seconds run_dt_kst w
    = (Returns None, w')
    /\ replies w' = replies w
    /\ trace w' = trace w.
Proof.
  destruct w as [rs [|[] stops] clk tr]; unfold stop_set; simpl; try discriminate.
  intros _. eexists. split; [reflexivity|]. now split.
Qed.

(** X22. When all 5 probes fail, the run goes on without correction: the
    local deadline is the nominal target instant itself. *)
Theorem deadline_uncorrected_after_failed_probes (run_dt_kst : instant)
    (w : world B) :
  stop_set w = false ->
  probes_fail 5 (replies w) = true ->
  exists w',
    start_pre_process_target fsec total_seconds timedelta_of_seconds run_dt_kst w
    = (Returns (Some run_dt_kst), w').
Proof.
  intros Hstop Hfail. unfold start_pre_process_target.
  assert (Hs : exists w0, stop_event_is_set w = (Returns false, w0)
                          /\ replies w0 = replies w).
  { unfold stop_event_is_set, stop_set in *.
    destruct (stop_reads w) as [|b bs]; simpl in *.
    - now exists w.
    - subst b. eexists. split; reflexivity. }
  destruct Hs as (w0 & Hs & Hrs0).
  rewrite (bind_Returns _ _ _ _ _ Hs). cbn [negb].
  unfold get_server_time_offset, range.
  unfold bind at 1. unfold bind at 1.
  unfold log_message at 1, emit at 1.
  set (w1 := mkWorld _ _ _ _).
  destruct (failed_probes_loop fsec total_seconds 5 5 0 w1) as (w2 & H2 & _).
  { unfold w1. simpl. now rewrite Hrs0. }
  unfold bind at 1. rewrite H2.
  unfold bind, log_message, emit, ret. simpl.
  eexists. do 3 f_equal. lia.
Qed.

End ClockSkewFurther.

Lemma offset_zero_on_unexpected_error_witness :
  exists w',
    get_server_time_offset Z (fun d => d)
      (mkWorld (B := unit) [Answers (mkResponse BadDate None); Fails Timeout]
         [] 7%Z [])
    = (Returns (IntSeconds 0), w')
    /\ replies w' = [Fails Timeout]
    /\ requests_sent (trace w') = 0 + 1
    /\ clock w' = 7%Z.
Proof.
  apply (offset_zero_on_unexpected_error Z (fun d => d)
           (mkWorld (B := unit) _ [] 7%Z []) (Answers (mkResponse BadDate None))
           [Fails Timeout]); reflexivity.
Defined.

Lemma start_pre_process_target_stopped_witness :
  exists w',
    start_pre_process_target Z (fun d => d) (fun f => f) 9000000%Z
      (mkWorld (B := unit) [Fails Timeout] [true] 0%Z [])
    = (Returns None, w')
    /\ replies w' = [Fails Timeout]
    /\ trace w' = [].
Proof.
  apply (start_pre_process_target_stopped Z (fun d => d) (fun f => f) 9000000%Z
           (mkWorld (B := unit) [Fails Timeout] [true] 0%Z [])).
  reflexivity.
Defined.

Lemma deadline_uncorrected_after_failed_probes_witness :
  exists w',
    start_pre_process_target Z (fun d => d) (fun f => f) 9000000%Z
      (mkWorld (B := unit) [] [] 0%Z [])
    = (Returns (Some 9000000%Z), w').
Proof.
  apply (deadline_uncorrected_after_failed_probes Z (fun d => d) (fun f => f)
           9000000%Z (mkWorld (B := unit) [] [] 0%Z [])); reflexivity.
Defined.

(** ** Priming the calendar and waiting *)

Section LoggedFunctionsProperties.

Context {B : Type}.
Variable log_func : note -> M B unit.

(** The logger only logs. *)
Hypothesis log_func_only_logs : forall n w, logs_and_returns (log_func n) w tt.

(** X23. [prime_calendar] never raises and sends exactly one request,
    consuming one reply. It returns [True] if and only if that request is
    answered, without HTTP error, by a body that parses as JSON. *)
Theorem prime_calendar_true_iff_json (date_str : string) (w : world B) :
  exists primed w',
    prime_calendar log_func date_str w = (Returns primed, w')
    /\ replies w' = tail (replies w)
    /\ requests_sent (trace w') = requests_sent (trace w) + 1
    /\ (primed = true <->
        exists res data, head (replies w) = Some (Answers res) /\ text res = Some data).
Proof.
  unfold prime_calendar.
  destruct (log_func_only_logs (NoteCalendarStart (PyStr.encode (PyStr.slice_to 6 (PyStr.decode date_str)))) w)
    as (w0 & H0 & (Hr0 & _ & _ & Hs0)).
  rewrite (bind_Returns _ _ _ _ _ H0). rewrite <- Hr0, <- Hs0. clear H0 Hr0 Hs0 w.
  destruct w0 as [rs stops clk tr].
  unfold try_except at 1. unfold bind at 1. unfold session_request at 1. simpl.
  set (sent := tr ++ [Sent _]).
  assert (Hsent : requests_sent sent = requests_sent tr + 1)
    by (unfold sent; rewrite requests_sent_app; reflexivity).
  assert (Hno : forall (primed : bool) (h : option (reply B)),
    primed = false ->
    (forall res data, h = Some (Answers res) -> text res = Some data -> False) ->
    (primed = true <->
     exists res data, h = Some (Answers res) /\ text res = Some data)).
  { intros primed h -> Hnone. split; [discriminate|].
    intros (res & data & Hh & Ht). exfalso. eapply Hnone; eassumption. }
  destruct rs as [|[e|[d [data|]]] rs0]; simpl;
    [ | destruct (is_RequestException e) | | ];
    unfold try_except, bind, json_loads, raise, ret; simpl;
    try (match goal with
         | |- context [log_func ?n ?w1] =>
             destruct (log_func_only_logs n w1) as (w2 & H2 & (Hr2 & _ & _ & Hs2));
             rewrite H2; simpl in *;
             exists false, w2; split; [reflexivity|];
             split; [exact Hr2|]; split; [congruence|];
             apply Hno; [reflexivity|]
         end).
  - intros ? ? [=].
  - intros ? ? [=].
  - intros ? ? [=].
  - exists true. eexists. split; [reflexivity|]. simpl.
    split; [reflexivity|]. split; [exact Hsent|]. split; [|reflexivity].
    intros _. now exists (mkResponse d (Some data)), data.
  - intros res data [= <-]. discriminate.
Qed.

(** X24. When the stop event is already set, [wait_until] returns at once,
    however far the target is: it does not sleep, so the local clock stays
    where it was. *)
Theorem wait_until_stopped_returns_at_once (fuel : nat) (target_dt_kst : instant)
    (log_prefix : string) (log_countdown : bool) (w : world B) :
  stop_set w = true ->
  exists w',
    wait_until log_func (S fuel) target_dt_kst log_prefix log_countdown w
    = (Returns (Some tt), w')
    /\ clock w' = clock w
    /\ requests_sent (trace w') = requests_sent (trace w).
Proof.
  intros Hstop. unfold wait_until.
  destruct (log_func_only_logs (NoteWaiting log_prefix target_dt_kst) w)
    as (w0 & H0 & (Hr0 & Hst0 & Hc0 & Hs0)).
  rewrite (bind_Returns _ _ _ _ _ H0). cbn [wait_until_loop].
  assert (Hstop0 : stop_set w0 = true) by (unfold stop_set in *; now rewrite Hst0).
  destruct w0 as [rs [|[] stops] clk tr]; unfold stop_set in Hstop0; simpl in *;
    try discriminate.
  unfold bind at 1. unfold bind at 1. unfold stop_event_is_set at 1. simpl.
  unfold ret at 1. unfold bind at 1. unfold stop_event_is_set at 1. simpl.
  destruct stops as [|[] stops]; simpl.
  - unfold bind at 1. unfold datetime_now at 1. simpl.
    destruct (log_func_only_logs (NoteReached log_prefix (clk - target_dt_kst)%Z)
                (mkWorld rs [] clk tr)) as (w1 & H1 & (_ & _ & Hc1 & Hs1)).
    rewrite (bind_Returns _ _ _ _ _ H1).
    eexists. split; [reflexivity|]. simpl in *. split; congruence.
  - eexists. split; [reflexivity|]. simpl. split; congruence.
  - unfold bind at 1. unfold datetime_now at 1. simpl.
    destruct (log_func_only_logs (NoteReached log_prefix (clk - target_dt_kst)%Z)
                (mkWorld rs stops clk tr)) as (w1 & H1 & (_ & _ & Hc1 & Hs1)).
    rewrite (bind_Returns _ _ _ _ _ H1).
    eexists. split; [reflexivity|]. simpl in *. split; congruence.
Qed.

(** One pass of the loop from a clock more than a millisecond before the
    target: a sleep that ends before the target. *)
Lemma wait_until_loop_spec (target_dt_kst : instant) (log_countdown : bool)
    (fuel : nat) :
  forall (last : option Z) (w : world B),
    never_stopped w = true ->
    wait_fuel (target_dt_kst - clock w) <= fuel ->
    exists w',
      wait_until_loop log_func fuel target_dt_kst log_countdown last w
      = (Returns (Some tt), w')
      /\ never_stopped w' = true
      /\ replies w' = replies w
      /\ requests_sent (trace w') = requests_sent (trace w)
      /\ (clock w <= clock w')%Z
      /\ (target_dt_kst - 1000 <= clock w')%Z
      /\ ((clock w < target_dt_kst - 1000)%Z -> (clock w' < target_dt_kst)%Z)
      /\ ((target_dt_kst - 1000 <= clock w)%Z -> clock w' = clock w).
Proof.
  induction fuel as [|fuel IH]; intros last w Hns Hfuel.
  - unfold wait_fuel in Hfuel. lia.
  - cbn [wait_until_loop].
    assert (Hstop : exists w0,
      stop_event_is_set w = (Returns false, w0)
      /\ replies w0 = replies w /\ stop_reads w0 = tail (stop_reads w)
      /\ clock w0 = clock w /\ trace w0 = trace w).
    { pose proof (never_stopped_stop_set _ Hns) as Hs.
      unfold stop_event_is_set, stop_set in *.
      destruct (stop_reads w) as [|b bs] eqn:E; simpl in *.
      - exists w. now rewrite E.
      - subst b. eexists. split; [reflexivity|]. now repeat split. }
    destruct Hstop as (w0 & H0 & Hr0 & Hst0 & Hc0 & Ht0).
    rewrite (bind_Returns _ _ _ _ _ H0). cbv iota.
    pose proof (never_stopped_tail w w0 Hns Hst0) as Hns0.
    unfold bind at 1. unfold datetime_now at 1. cbv beta iota.
    rewrite Hc0.
    destruct (target_dt_kst - clock w <=? 1000)%Z eqn:Hrem.
    + apply Z.leb_le in Hrem. exists w0. split; [reflexivity|].
      rewrite Hr0, Ht0, Hc0. repeat split; auto; lia.
    + apply Z.leb_gt in Hrem.
      set (remaining := (target_dt_kst - clock w)%Z) in *.
      assert (Hlog : exists w1 last',
        (if log_countdown && (remaining <=? 30 * 1000000)%Z
         then if (0 <? Z.quot remaining 1000000)%Z
                 && negb (bool_decide (Some (Z.quot remaining 1000000) = last))
              then log_func (NoteCountdown (Z.quot remaining 1000000)) ;;
                   ret (Some (Z.quot remaining 1000000))
              else ret last
         else ret last) w0 = (Returns last', w1)
        /\ only_logged w0 w1).
      { destruct (log_countdown && (remaining <=? 30 * 1000000)%Z);
          [|exists w0, last; split; [reflexivity|apply only_logged_refl]].
        destruct ((0 <? Z.quot remaining 1000000)%Z
                  && negb (bool_decide (Some (Z.quot remaining 1000000) = last)));
          [|exists w0, last; split; [reflexivity|apply only_logged_refl]].
        destruct (log_func_only_logs (NoteCountdown (Z.quot remaining 1000000)) w0)
          as (w1 & H1 & Hq1).
        exists w1, (Some (Z.quot remaining 1000000)).
        rewrite (bind_Returns _ _ _ _ _ H1). split; [reflexivity|exact Hq1]. }
      destruct Hlog as (w1 & last' & H1 & (Hr1 & Hst1 & Hc1 & Hs1)).
      rewrite (bind_Returns _ _ _ _ _ H1).
      assert (Hsleep : exists (d : Z) w2,
        (if (remaining <? 100000)%Z then time_sleep 1000%Z
         else if (remaining <? 1000000)%Z then time_sleep 5000%Z
         else time_sleep 100000%Z) w1 = (Returns tt, w2)
        /\ replies w2 = replies w1 /\ stop_reads w2 = stop_reads w1
        /\ clock w2 = (clock w1 + d)%Z
        /\ requests_sent (trace w2) = requests_sent (trace w1)
        /\ (1000 <= d)%Z /\ (d < remaining)%Z).
      { destruct (remaining <? 100000)%Z eqn:H100.
        - exists 1000%Z. eexists. split; [reflexivity|]. simpl.
          rewrite requests_sent_app. simpl. repeat split; lia.
        - apply Z.ltb_ge in H100.
          destruct (remaining <? 1000000)%Z eqn:H1000.
          + exists 5000%Z. eexists. split; [reflexivity|]. simpl.
            rewrite requests_sent_app. simpl. repeat split; lia.
          + apply Z.ltb_ge in H1000.
            exists 100000%Z. eexists. split; [reflexivity|]. simpl.
            rewrite requests_sent_app. simpl. repeat split; lia. }
      destruct Hsleep as (d & w2 & H2 & Hr2 & Hst2 & Hc2 & Hs2 & Hd1 & Hd2).
      rewrite (bind_Returns _ _ _ _ _ H2).
      assert (Hns2 : never_stopped w2 = true).
      { unfold never_stopped in *. now rewrite Hst2, Hst1. }
      assert (Hclk2 : clock w2 = (clock w + d)%Z) by (rewrite Hc2, Hc1, Hc0; reflexivity).
      destruct (IH last' w2 Hns2) as (w3 & H3 & Hns3 & Hr3 & Hs3 & Hle & Hlo & Hhi & Hsame).
      { unfold wait_fuel in *. rewrite Hclk2.
        assert (Hdiv : (Z.to_nat ((target_dt_kst - (clock w + d)) / 1000)
                        < Z.to_nat ((target_dt_kst - clock w) / 1000))%nat).
        { apply Z2Nat.inj_lt.
          - apply Z.div_pos; lia.
          - apply Z.div_pos; lia.
          - fold remaining.
            replace (target_dt_kst - (clock w + d))%Z with (remaining - d)%Z
              by (unfold remaining; lia).
            apply Z.le_lt_trans with ((remaining - 1000) / 1000)%Z.
            + apply Z.div_le_mono; lia.
            + replace (remaining - 1000)%Z with (remaining + (-1) * 1000)%Z by lia.
              rewrite Z.div_add by lia. lia. }
        unfold remaining in *. lia. }
      exists w3. split; [exact H3|]. split; [exact Hns3|].
      split; [congruence|]. split; [congruence|].
      rewrite Hclk2 in *. unfold remaining in *.
      repeat split; lia.
Qed.

Lemma wait_until_after_loop (target_dt_kst : instant) (log_prefix : string)
    (w : world B) :
  exists w',
    (stop ← stop_event_is_set ;
     if negb stop then
       now_kst ← datetime_now ;
       log_func (NoteReached log_prefix (now_kst - target_dt_kst)%Z) ;;
       ret (Some tt)
     else ret (Some tt)) w = (Returns (Some tt), w')
    /\ replies w' = replies w
    /\ clock w' = clock w
    /\ requests_sent (trace w') = requests_sent (trace w).
Proof.
  destruct w as [rs stops clk tr].
  unfold bind at 1. unfold stop_event_is_set at 1. simpl.
  assert (Hgo : forall stops', exists w',
    (now_kst ← datetime_now ;
     log_func (NoteReached log_prefix (now_kst - target_dt_kst)%Z) ;;
     ret (Some tt)) (mkWorld rs stops' clk tr) = (Returns (Some tt), w')
    /\ replies w' = rs /\ clock w' = clk
    /\ requests_sent (trace w') = requests_sent tr).
  { intros stops'. unfold bind at 1. unfold datetime_now at 1. simpl.
    destruct (log_func_only_logs (NoteReached log_prefix (clk - target_dt_kst)%Z)
                (mkWorld rs stops' clk tr)) as (w1 & H1 & (Hr1 & _ & Hc1 & Hs1)).
    rewrite (bind_Returns _ _ _ _ _ H1). exists w1. now repeat split. }
  destruct stops as [|[] stops]; simpl.
  - apply Hgo.
  - eexists. split; [reflexivity|]. now repeat split.
  - apply Hgo.
Qed.

(** X25. When the target is no more than a millisecond ahead, already
    reached or in the past, [wait_until] returns without sleeping: the local
    clock stays where it was. *)
Theorem wait_until_past_deadline_returns_at_once (fuel : nat)
    (target_dt_kst : instant) (log_prefix : string) (log_countdown : bool)
    (w : world B) :
  never_stopped w = true ->
  (target_dt_kst - 1000 <= clock w)%Z ->
  exists w',
    wait_until log_func (S fuel) target_dt_kst log_prefix log_countdown w
    = (Returns (Some tt), w')
    /\ clock w' = clock w
    /\ requests_sent (trace w') = requests_sent (trace w).
Proof.
  intros Hns Hpast. unfold wait_until.
  destruct (log_func_only_logs (NoteWaiting log_prefix target_dt_kst) w)
    as (w0 & H0 & (Hr0 & Hst0 & Hc0 & Hs0)).
  rewrite (bind_Returns _ _ _ _ _ H0). cbn [wait_until_loop].
  assert (Hns0 : never_stopped w0 = true) by (unfold never_stopped in *; now rewrite Hst0).
  assert (Hstop : exists w1,
    stop_event_is_set w0 = (Returns false, w1)
    /\ replies w1 = replies w0 /\ clock w1 = clock w0 /\ trace w1 = trace w0).
  { pose proof (never_stopped_stop_set _ Hns0) as Hs.
    unfold stop_event_is_set, stop_set in *.
    destruct (stop_reads w0) as [|b bs] eqn:E; simpl in *.
    - now exists w0.
    - subst b. eexists. split; [reflexivity|]. now repeat split. }
  destruct Hstop as (w1 & H1 & Hr1 & Hc1 & Ht1).
  unfold bind at 1. unfold bind at 1. rewrite H1. cbv iota.
  unfold bind at 1. unfold datetime_now at 1. cbv beta iota.
  assert (Hrem : (target_dt_kst - clock w1 <=? 1000)%Z = true)
    by (apply Z.leb_le; rewrite Hc1, Hc0; lia).
  rewrite Hrem. unfold ret at 1.
  destruct (wait_until_after_loop target_dt_kst log_prefix w1)
    as (w2 & H2 & _ & Hc2 & Hs2).
  exists w2. split; [exact H2|]. split; congruence.
Qed.

(** X26. The tiered sleeps of [wait_until] never carry it past the target.
    With the stop event unset, in a world where a sleep lasts exactly as
    long as asked, [wait_until] started more than a millisecond early
    returns, given the iterations it needs, when the local clock is within
    the last millisecond before the target and still short of it; it sends
    no request. *)
Theorem wait_until_stops_just_before_target (fuel : nat) (target_dt_kst : instant)
    (log_prefix : string) (log_countdown : bool) (w : world B) :
  never_stopped w = true ->
  (clock w < target_dt_kst - 1000)%Z ->
  wait_fuel (target_dt_kst - clock w) <= fuel ->
  exists w',
    wait_until log_func fuel target_dt_kst log_prefix log_countdown w
    = (Returns (Some tt), w')
    /\ (target_dt_kst - 1000 <= clock w' < target_dt_kst)%Z
    /\ replies w' = replies w
    /\ requests_sent (trace w') = requests_sent (trace w).
Proof.
  intros Hns Hearly Hfuel. unfold wait_until.
  destruct (log_func_only_logs (NoteWaiting log_prefix target_dt_kst) w)
    as (w0 & H0 & (Hr0 & Hst0 & Hc0 & Hs0)).
  rewrite (bind_Returns _ _ _ _ _ H0).
  assert (Hns0 : never_stopped w0 = true) by (unfold never_stopped in *; now rewrite Hst0).
  destruct (wait_until_loop_spec target_dt_kst log_countdown fuel None w0 Hns0)
    as (w1 & H1 & _ & Hr1 & Hs1 & _ & Hlo & Hhi & _); [now rewrite Hc0|].
  rewrite (bind_Returns _ _ _ _ _ H1).
  destruct (wait_until_after_loop target_dt_kst log_prefix w1)
    as (w2 & H2 & Hr2 & Hc2 & Hs2).
  exists w2. split; [exact H2|]. rewrite Hc2.
  split; [split; [exact Hlo|apply Hhi; lia]|]. split; congruence.
Qed.

End LoggedFunctionsProperties.

Lemma silent_logger_only_logs {B} (n : note) (w : world B) :
  logs_and_returns (silent_logger n) w tt.
Proof. apply logs_ret. Qed.

Lemma prime_calendar_true_iff_json_witness :
  exists primed w',
    prime_calendar silent_logger "20250115"
      (mkWorld (B := unit) [Answers (mkResponse NoDate (Some tt))] [] 0%Z [])
    = (Returns primed, w')
    /\ replies w' = []
    /\ requests_sent (trace w') = 0 + 1
    /\ (primed = true <->
        exists res data,
          Some (Answers (mkResponse NoDate (Some tt))) = Some (Answers res)
          /\ text res = Some data).
Proof.
  apply (prime_calendar_true_iff_json silent_logger silent_logger_only_logs
           "20250115"
           (mkWorld (B := unit) [Answers (mkResponse NoDate (Some tt))] [] 0%Z [])).
Defined.

Lemma wait_until_stopped_returns_at_once_witness :
  exists w',
    wait_until silent_logger 1 9000000%Z "sync" false
      (mkWorld (B := unit) [] [true] 0%Z [])
    = (Returns (Some tt), w')
    /\ clock w' = 0%Z
    /\ requests_sent (trace w') = 0.
Proof.
  apply (wait_until_stopped_returns_at_once silent_logger silent_logger_only_logs
           0 9000000%Z "sync" false (mkWorld (B := unit) [] [true] 0%Z [])).
  reflexivity.
Defined.

Lemma wait_until_past_deadline_returns_at_once_witness :
  exists w',
    wait_until silent_logger 1 9000000%Z "sync" false
      (mkWorld (B := unit) [] [] 9000500%Z [])
    = (Returns (Some tt), w')
    /\ clock w' = 9000500%Z
    /\ requests_sent (trace w') = 0.
Proof.
  apply (wait_until_past_deadline_returns_at_once silent_logger
           silent_logger_only_logs 0 9000000%Z "sync" false
           (mkWorld (B := unit) [] [] 9000500%Z []));
    [reflexivity | simpl; lia].
Defined.

Lemma wait_until_stops_just_before_target_witness :
  exists w',
    wait_until silent_logger 1400 1300500%Z "final" true
      (mkWorld (B := unit) [] [] 0%Z [])
    = (Returns (Some tt), w')
    /\ (1300500 - 1000 <= clock w' < 1300500)%Z
    /\ replies w' = []
    /\ requests_sent (trace w') = 0.
Proof.
  apply (wait_until_stops_just_before_target silent_logger silent_logger_only_logs
           1400 1300500%Z "final" true (mkWorld (B := unit) [] [] 0%Z []));
    [reflexivity | simpl; lia | vm_compute; lia].
Defined.
